(** * Payment Tracker: filtering, aggregation and time-zone handling

    A shallow embedding of the logic of the Payment Tracker dashboard
    (React client, [App.tsx], [SearchFilter.tsx], [SummaryCards.tsx],
    [PaymentForm.tsx], [utils/timezone.ts]) and of its report generator
    (the edge function [generate-payment-report/index.ts]).

    The client and the edge function lean on the ECMAScript [Date]
    object.  The first modules below embed the part of ECMA-262
    (sections "Time Values and Time Range" to "Date Time String Format")
    that the program calls; the remaining ones follow the source files
    function by function. *)

From Stdlib Require Import ZArith List Bool String Ascii Lia Floats.
From Stdlib Require Import Permutation.
Import ListNotations.

#[local] Open Scope string_scope.
#[local] Open Scope Z_scope.

(* ================================================================= *)
(** ** ECMAScript time values *)

(** A time value is a number of milliseconds since 1970-01-01T00:00Z.
    The abstract operations keep the names ECMA-262 gives them. *)

Module JSTime.

Definition msPerSecond : Z := 1000.
Definition msPerMinute : Z := 60000.
Definition msPerHour : Z := 3600000.
Definition msPerDay : Z := 86400000.

Definition Day (t : Z) : Z := t / msPerDay.
Definition TimeWithinDay (t : Z) : Z := t mod msPerDay.

Definition InLeapYear (y : Z) : bool :=
  (y mod 4 =? 0) && (negb (y mod 100 =? 0) || (y mod 400 =? 0)).

Definition DaysInYear (y : Z) : Z := if InLeapYear y then 366 else 365.

Definition DayFromYear (y : Z) : Z :=
  365 * (y - 1970) + (y - 1969) / 4 - (y - 1901) / 100 + (y - 1601) / 400.

(** [YearFromDay d] is the year [y] with
    [DayFromYear y <= d < DayFromYear (y + 1)]: a first guess from the
    mean length of a Gregorian year, corrected by at most one. *)
Definition YearFromDay (d : Z) : Z :=
  let y0 := 1970 + (400 * d) / 146097 in
  if d <? DayFromYear y0 then y0 - 1
  else if DayFromYear (y0 + 1) <=? d then y0 + 1
  else y0.

Definition YearFromTime (t : Z) : Z := YearFromDay (Day t).

Definition DayWithinYear (d : Z) : Z := d - DayFromYear (YearFromDay d).

(** Number of days before the first of month [m] (0 = January). *)
Definition DaysBeforeMonth (leap : bool) (m : Z) : Z :=
  let l := if leap then 1 else 0 in
  if m <=? 0 then 0
  else if m =? 1 then 31
  else if m =? 2 then 59 + l
  else if m =? 3 then 90 + l
  else if m =? 4 then 120 + l
  else if m =? 5 then 151 + l
  else if m =? 6 then 181 + l
  else if m =? 7 then 212 + l
  else if m =? 8 then 243 + l
  else if m =? 9 then 273 + l
  else if m =? 10 then 304 + l
  else 334 + l.

Definition MonthFromDay (d : Z) : Z :=
  let leap := InLeapYear (YearFromDay d) in
  let w := DayWithinYear d in
  if w <? DaysBeforeMonth leap 1 then 0
  else if w <? DaysBeforeMonth leap 2 then 1
  else if w <? DaysBeforeMonth leap 3 then 2
  else if w <? DaysBeforeMonth leap 4 then 3
  else if w <? DaysBeforeMonth leap 5 then 4
  else if w <? DaysBeforeMonth leap 6 then 5
  else if w <? DaysBeforeMonth leap 7 then 6
  else if w <? DaysBeforeMonth leap 8 then 7
  else if w <? DaysBeforeMonth leap 9 then 8
  else if w <? DaysBeforeMonth leap 10 then 9
  else if w <? DaysBeforeMonth leap 11 then 10
  else 11.

Definition DateFromDay (d : Z) : Z :=
  DayWithinYear d - DaysBeforeMonth (InLeapYear (YearFromDay d)) (MonthFromDay d) + 1.

Definition MonthFromTime (t : Z) : Z := MonthFromDay (Day t).
Definition DateFromTime (t : Z) : Z := DateFromDay (Day t).

(** 0 = Sunday; 1970-01-01 was a Thursday. *)
Definition WeekDayOfDay (d : Z) : Z := (d + 4) mod 7.

Definition HourFromTime (t : Z) : Z := (t / msPerHour) mod 24.
Definition MinFromTime (t : Z) : Z := (t / msPerMinute) mod 60.
Definition SecFromTime (t : Z) : Z := (t / msPerSecond) mod 60.
Definition msFromTime (t : Z) : Z := t mod msPerSecond.

(** [MakeDay year month date], month counted from 0; months outside
    0..11 carry into the year and [date] may lie outside the month. *)
Definition MakeDay (year month date : Z) : Z :=
  let ym := year + month / 12 in
  let mn := month mod 12 in
  DayFromYear ym + DaysBeforeMonth (InLeapYear ym) mn + date - 1.

Definition MakeTime (hour min sec ms : Z) : Z :=
  hour * msPerHour + min * msPerMinute + sec * msPerSecond + ms.

Definition MakeDate (day time : Z) : Z := day * msPerDay + time.

(** [TimeClip]: a time value beyond 8.64e15 ms is not a time (NaN). *)
Definition TimeClip (t : Z) : option Z :=
  if Z.abs t <=? 8640000000000000 then Some t else None.

End JSTime.

Import JSTime.

(* ================================================================= *)
(** ** Strings the way the program uses them *)

Module JSString.

(** A string is falsy exactly when it is empty. *)
Definition truthy (s : string) : bool :=
  match s with EmptyString => false | String _ _ => true end.

(** [a || b] on strings. *)
Definition orElse (a b : string) : string := if truthy a then a else b.

Definition isDigit (c : ascii) : bool :=
  let n := nat_of_ascii c in (48 <=? n)%nat && (n <=? 57)%nat.

Definition digitChar (n : Z) : ascii := ascii_of_nat (48 + Z.to_nat n).

Definition digitValue (c : ascii) : option Z :=
  if isDigit c then Some (Z.of_nat (nat_of_ascii c) - 48) else None.

(** Decimal numeral of a non-negative integer, no leading zero. *)
Fixpoint decimalAux (fuel : nat) (n : Z) (acc : string) : string :=
  match fuel with
  | O => acc
  | S f =>
      let acc' := String (digitChar (n mod 10)) acc in
      if n <? 10 then acc' else decimalAux f (n / 10) acc'
  end.

Definition decimal (n : Z) : string := decimalAux 20 n "".

Fixpoint repeatChar (c : ascii) (k : nat) : string :=
  match k with O => "" | S k' => String c (repeatChar c k') end.

(** [s.padStart(width, c)] for a one-character filler. *)
Definition padStart (s : string) (width : nat) (c : ascii) : string :=
  repeatChar c (width - String.length s) ++ s.

Definition pad2 (n : Z) : string := padStart (decimal n) 2 "0".
Definition pad3 (n : Z) : string := padStart (decimal n) 3 "0".
Definition pad4 (n : Z) : string := padStart (decimal n) 4 "0".

Fixpoint revString (acc : string) (l : list ascii) : string :=
  match l with [] => acc | c :: l' => revString (String c acc) l' end.

(** [s.split(sep)] for a non-empty separator.  [skip] counts the
    characters of a separator just matched that are still to be
    dropped; [cur] holds the current piece, last character first. *)
Fixpoint splitAux (sep : string) (skip : nat) (cur : list ascii) (s : string)
  : list string :=
  match s with
  | EmptyString => [revString "" cur]
  | String c rest =>
      match skip with
      | S k => splitAux sep k cur rest
      | O =>
          if prefix sep s
          then revString "" cur :: splitAux sep (String.length sep - 1) [] rest
          else splitAux sep 0 (c :: cur) rest
      end
  end.

Definition split (sep s : string) : list string := splitAux sep 0 [] s.

(** [arr[i]] on an array of strings; [None] stands for [undefined]. *)
Definition item (l : list string) (i : nat) : option string := nth_error l i.

(** [undefined] interpolated into a template literal. *)
Definition interp (o : option string) : string :=
  match o with Some s => s | None => "undefined" end.

Definition lowerChar (c : ascii) : ascii :=
  let n := nat_of_ascii c in
  if (65 <=? n)%nat && (n <=? 90)%nat then ascii_of_nat (n + 32) else c.

(** [s.toLowerCase()] for a string of ASCII characters: the letters A
    to Z change and nothing else does.  Characters outside ASCII are
    left as they are here, letters among them too. *)
Fixpoint toLowerCase (s : string) : string :=
  match s with
  | EmptyString => EmptyString
  | String c r => String (lowerChar c) (toLowerCase r)
  end.

(** [s.includes(sub)]. *)
Fixpoint includes (s sub : string) : bool :=
  prefix sub s ||
  match s with
  | EmptyString => false
  | String _ r => includes r sub
  end.

(** Reads exactly [k] decimal digits. *)
Fixpoint readDigits (k : nat) (acc : Z) (s : string) : option (Z * string) :=
  match k with
  | O => Some (acc, s)
  | S k' =>
      match s with
      | EmptyString => None
      | String c r =>
          match digitValue c with
          | Some v => readDigits k' (10 * acc + v) r
          | None => None
          end
      end
  end.

(** Reads a maximal run of digits after a first one. *)
Fixpoint readMore (acc : Z) (s : string) : Z * string :=
  match s with
  | EmptyString => (acc, s)
  | String c r =>
      match digitValue c with
      | Some v => readMore (10 * acc + v) r
      | None => (acc, s)
      end
  end.

Definition readNumber (s : string) : option (Z * string) :=
  match s with
  | EmptyString => None
  | String c r =>
      match digitValue c with
      | Some v => Some (readMore v r)
      | None => None
      end
  end.

(** Consumes the literal [lit] at the head of [s]. *)
Fixpoint expect (lit s : string) : option string :=
  match lit with
  | EmptyString => Some s
  | String c l' =>
      match s with
      | EmptyString => None
      | String c' s' => if Ascii.eqb c c' then expect l' s' else None
      end
  end.

End JSString.

Import JSString.

(* ================================================================= *)
(** ** Time zones and the [Date] object *)

Module JSDate.

(** A time zone is what ECMA-262 calls [LocalTZA(t, isUTC)]: the offset
    of local time from UTC in milliseconds, asked either at a UTC
    instant ([isUTC = true]) or at a local wall-clock reading
    ([isUTC = false]).  The host supplies it; the program never sees
    more of a zone than this. *)
Record TimeZone : Type := { LocalTZA : Z -> bool -> Z }.

Definition LocalTime (tz : TimeZone) (t : Z) : Z := t + LocalTZA tz t true.
Definition UTC (tz : TimeZone) (t : Z) : Z := t - LocalTZA tz t false.

(** A zone without daylight saving, [offset] milliseconds east of UTC. *)
Definition fixedZone (offset : Z) : TimeZone := {| LocalTZA := fun _ _ => offset |}.

Definition utcZone : TimeZone := fixedZone 0.

(** The [k]-th Sunday on or after day [first]. *)
Definition nthSunday (first k : Z) : Z :=
  first + (7 - WeekDayOfDay first) mod 7 + 7 * (k - 1).

(** ["America/New_York"] under the rule in force since 2007: daylight
    time from 2:00 on the second Sunday of March to 2:00 on the first
    Sunday of November.  A wall-clock reading skipped by the spring
    transition takes the offset before it; a reading repeated in autumn
    takes the earlier instant.  The rules the zone followed before
    2007 are not rendered: for earlier years only the two offsets are
    those of the zone, the days of the clock changes are not. *)
Definition dstStartDay (y : Z) : Z := nthSunday (MakeDay y 2 1) 2.
Definition dstEndDay (y : Z) : Z := nthSunday (MakeDay y 10 1) 1.

Definition EST : Z := -5 * msPerHour.
Definition EDT : Z := -4 * msPerHour.

Definition easternTZA (t : Z) (isUTC : bool) : Z :=
  let y := YearFromTime t in
  let s := dstStartDay y * msPerDay in
  let e := dstEndDay y * msPerDay in
  if isUTC then
    if (s + 7 * msPerHour <=? t) && (t <? e + 6 * msPerHour) then EDT else EST
  else
    if (s + 3 * msPerHour <=? t) && (t <? e + 2 * msPerHour) then EDT else EST.

Definition usEastern : TimeZone := {| LocalTZA := easternTZA |}.

(** The value of a [Date] object: a time value, or [None] for the
    "Invalid Date" whose time value is NaN. *)
Definition DateValue : Type := option Z.

(** The number of days of month [m], counted from 0, in year [y]. *)
Definition DaysInMonth (y m : Z) : Z :=
  if m =? 11 then 31
  else DaysBeforeMonth (InLeapYear y) (m + 1) - DaysBeforeMonth (InLeapYear y) m.

Notation "'let*' p ':=' e 'in' k" :=
  (match e with Some p => k | None => None end)
  (at level 10, p pattern, e at level 200, k at level 200, only parsing).

(** Skips a run of digits. *)
Fixpoint skipDigits (s : string) : string :=
  match s with
  | EmptyString => s
  | String c r => if isDigit c then skipDigits r else s
  end.

(** The fraction of a second: one digit or more, of which the first
    three count as milliseconds (a missing one as 0) and the others are
    dropped. *)
Definition readFraction (s : string) : option (Z * string) :=
  match s with
  | EmptyString => None
  | String c1 r1 =>
      let* d1 := digitValue c1 in
      match r1 with
      | EmptyString => Some (100 * d1, r1)
      | String c2 r2 =>
          match digitValue c2 with
          | None => Some (100 * d1, r1)
          | Some d2 =>
              match r2 with
              | EmptyString => Some (100 * d1 + 10 * d2, r2)
              | String c3 r3 =>
                  match digitValue c3 with
                  | None => Some (100 * d1 + 10 * d2, r2)
                  | Some d3 => Some (100 * d1 + 10 * d2 + d3, skipDigits r3)
                  end
              end
          end
      end
  end.

(** What follows the minutes of an ISO date-time: seconds, then a
    fraction of a second, both optional. *)
Definition readSeconds (s : string) : option (Z * Z * string) :=
  match expect ":" s with
  | None => Some (0, 0, s)
  | Some s1 =>
      let* (sec, s2) := readDigits 2 0 s1 in
      match expect "." s2 with
      | None => Some (sec, 0, s2)
      | Some s3 => let* (ms, s4) := readFraction s3 in Some (sec, ms, s4)
      end
  end.

(** The zone designator: none (local time), [Z], or [+HH:mm] / [-HH:mm].
    [None] inside [Some] means "local time". *)
Definition readOffset (s : string) : option (option Z) :=
  match s with
  | EmptyString => Some None
  | String c r =>
      if Ascii.eqb c "Z" then
        match r with EmptyString => Some (Some 0) | _ => None end
      else if Ascii.eqb c "+" || Ascii.eqb c "-" then
        let* (h, s1) := readDigits 2 0 r in
        let* s2 := expect ":" s1 in
        let* (m, s3) := readDigits 2 0 s2 in
        match s3 with
        | EmptyString =>
            let off := h * msPerHour + m * msPerMinute in
            Some (Some (if Ascii.eqb c "+" then off else - off))
        | _ => None
        end
      else None
  end.

(** The Date Time String Format, [YYYY-MM-DD] or
    [YYYY-MM-DDTHH:mm[:ss[.s...]][Z|+HH:mm|-HH:mm]].  A date alone is UTC;
    a date-time without designator is local time.  The day of the
    month is checked against 31, whatever the month: a day past the
    end of its month is carried into the next one by [MakeDay], so
    that 2025-02-30 is the second of March. *)
Definition parseISO (tz : TimeZone) (s : string) : option Z :=
  let* (y, s1) := readDigits 4 0 s in
  let* s2 := expect "-" s1 in
  let* (mo, s3) := readDigits 2 0 s2 in
  let* s4 := expect "-" s3 in
  let* (d, s5) := readDigits 2 0 s4 in
  if (1 <=? mo) && (mo <=? 12) && (1 <=? d) && (d <=? 31) then
    let day := MakeDay y (mo - 1) d in
    match s5 with
    | EmptyString => Some (MakeDate day 0)
    | _ =>
        let* s6 := expect "T" s5 in
        let* (h, s7) := readDigits 2 0 s6 in
        let* s8 := expect ":" s7 in
        let* (mi, s9) := readDigits 2 0 s8 in
        let* (sec, ms, s10) := readSeconds s9 in
        let* off := readOffset s10 in
        if (h <=? 23) && (mi <=? 59) && (sec <=? 59)
           || (h =? 24) && (mi =? 0) && (sec =? 0) && (ms =? 0) then
          let t := MakeDate day (MakeTime h mi sec ms) in
          match off with
          | None => Some (UTC tz t)
          | Some o => Some (t - o)
          end
        else None
    end
  else None.

(** The one string outside that format the program ever parses: its
    own [toLocaleString("en-US")] output, [M/D/YYYY, h:mm:ss AM], read
    as local time.  In this form a year below 50 stands for 2000 and
    that many years, a year from 50 to 99 for 1900 and that many. *)
Definition parseLocale (tz : TimeZone) (s : string) : option Z :=
  let* (mo, s1) := readNumber s in
  let* s2 := expect "/" s1 in
  let* (d, s3) := readNumber s2 in
  let* s4 := expect "/" s3 in
  let* (y, s5) := readNumber s4 in
  let* s6 := expect ", " s5 in
  let* (h, s7) := readNumber s6 in
  let* s8 := expect ":" s7 in
  let* (mi, s9) := readDigits 2 0 s8 in
  let* s10 := expect ":" s9 in
  let* (sec, s11) := readDigits 2 0 s10 in
  let* pm := (if String.eqb s11 " AM" then Some false
              else if String.eqb s11 " PM" then Some true else None) in
  if (1 <=? mo) && (mo <=? 12) && (1 <=? d) && (d <=? 31)
     && (1 <=? h) && (h <=? 12) && (mi <=? 59) && (sec <=? 59) then
    let h24 := h mod 12 + (if pm then 12 else 0) in
    let yr := if y <=? 49 then 2000 + y else if y <=? 99 then 1900 + y else y in
    Some (UTC tz (MakeDate (MakeDay yr (mo - 1) d) (MakeTime h24 mi sec 0)))
  else None.

(** [Date.parse(s)].  What else an engine may make of a string in
    neither form is left out; the properties of unreadable times and
    bounds are therefore stated of strings that hold no digit at
    all. *)
Definition parse (tz : TimeZone) (s : string) : option Z :=
  match parseISO tz s with
  | Some t => Some t
  | None => parseLocale tz s
  end.

(** [new Date(s)] *)
Definition ofString (tz : TimeZone) (s : string) : DateValue :=
  let* t := parse tz s in TimeClip t.

(** [new Date(value)] for a number. *)
Definition ofTime (t : Z) : DateValue := TimeClip t.

(** [new Date(year, month, date)]: a year from 0 to 99 means 1900 + year.
    The three arguments are [NaN] when they come from an invalid date. *)
Definition ofFields (tz : TimeZone) (year month date : option Z) : DateValue :=
  let* y := year in
  let* m := month in
  let* dt := date in
  let yr := if (0 <=? y) && (y <=? 99) then 1900 + y else y in
  TimeClip (UTC tz (MakeDate (MakeDay yr m dt) (MakeTime 0 0 0 0))).

Definition getTime (d : DateValue) : option Z := d.

Definition getFullYear (tz : TimeZone) (d : DateValue) : option Z :=
  option_map (fun t => YearFromTime (LocalTime tz t)) d.

Definition getMonth (tz : TimeZone) (d : DateValue) : option Z :=
  option_map (fun t => MonthFromTime (LocalTime tz t)) d.

Definition getDate (tz : TimeZone) (d : DateValue) : option Z :=
  option_map (fun t => DateFromTime (LocalTime tz t)) d.

(** [d.setDate(dt)], returning the new value of [d]. *)
Definition setDate (tz : TimeZone) (d : DateValue) (dt : option Z) : DateValue :=
  let* t := d in
  let* n := dt in
  let lt := LocalTime tz t in
  let newDate := MakeDate (MakeDay (YearFromTime lt) (MonthFromTime lt) n)
                          (TimeWithinDay lt) in
  TimeClip (UTC tz newDate).

(** Relational operators on two dates compare their time values, and
    every comparison with NaN is false. *)
Definition ge (a b : DateValue) : bool :=
  match a, b with Some x, Some y => y <=? x | _, _ => false end.

Definition le (a b : DateValue) : bool :=
  match a, b with Some x, Some y => x <=? y | _, _ => false end.

(** [d.toISOString()]; it throws a RangeError on an invalid date, which
    is the [None] here.  Years outside 0..9999 take a sign and six
    digits. *)
Definition toISOString (d : DateValue) : option string :=
  let* t := d in
  let y := YearFromTime t in
  let year :=
    if (0 <=? y) && (y <=? 9999) then pad4 y
    else if y <? 0 then "-" ++ padStart (decimal (- y)) 6 "0"
    else "+" ++ padStart (decimal y) 6 "0" in
  Some (year ++ "-" ++ pad2 (MonthFromTime t + 1) ++ "-" ++ pad2 (DateFromTime t)
        ++ "T" ++ pad2 (HourFromTime t) ++ ":" ++ pad2 (MinFromTime t) ++ ":"
        ++ pad2 (SecFromTime t) ++ "." ++ pad3 (msFromTime t) ++ "Z").

(** *** [toLocaleString("en-US", options)]

    Three option sets occur in the program.  Each is rendered in the
    zone named by its [timeZone] option; an invalid date renders as
    ["Invalid Date"]. *)

(** [{ year: "numeric", month: "2-digit", day: "2-digit" }]: [MM/DD/YYYY].
    ([hour12] is without effect when no hour is asked for.) *)
Definition localeDate2 (zone : TimeZone) (d : DateValue) : string :=
  match d with
  | None => "Invalid Date"
  | Some t =>
      let lt := LocalTime zone t in
      pad2 (MonthFromTime lt + 1) ++ "/" ++ pad2 (DateFromTime lt) ++ "/"
      ++ decimal (YearFromTime lt)
  end.

(** The same with [hour: "2-digit", minute: "2-digit", hour12: false]:
    [MM/DD/YYYY, HH:mm], hours from 00 to 23. *)
Definition localeDateTime2 (zone : TimeZone) (d : DateValue) : string :=
  match d with
  | None => "Invalid Date"
  | Some t =>
      let lt := LocalTime zone t in
      localeDate2 zone d ++ ", " ++ pad2 (HourFromTime lt) ++ ":" ++ pad2 (MinFromTime lt)
  end.

(** No field options: [M/D/YYYY, h:mm:ss AM]. *)
Definition localeDefault (zone : TimeZone) (d : DateValue) : string :=
  match d with
  | None => "Invalid Date"
  | Some t =>
      let lt := LocalTime zone t in
      let h := HourFromTime lt in
      decimal (MonthFromTime lt + 1) ++ "/" ++ decimal (DateFromTime lt) ++ "/"
      ++ decimal (YearFromTime lt) ++ ", "
      ++ decimal (if h mod 12 =? 0 then 12 else h mod 12) ++ ":"
      ++ pad2 (MinFromTime lt) ++ ":" ++ pad2 (SecFromTime lt)
      ++ (if h <? 12 then " AM" else " PM")
  end.

End JSDate.

Import JSDate.

(* ================================================================= *)
(** ** The program *)

(** Two zones come from the host and not from the program text: the
    zone the runtime resolves ["America/New_York"] to, and the zone of
    the machine the code runs on (the viewer's browser for the client,
    the edge runtime for the report generator), in which [Date] reads
    strings without designator and takes a date apart. *)

(** *** [utils/timezone.ts] *)

Module Timezone.
Section Host.

Variable TIMEZONE : TimeZone.   (* 'America/New_York' *)
Variable local : TimeZone.

(** [now] is the reading of the clock taken by [new Date()].  The
    result is [None] when a part of the destructured string is
    [undefined] and [padStart] is called on it. *)
Definition getCurrentDateInET (now : Z) : option string :=
  let etString := localeDate2 TIMEZONE (ofTime now) in
  let parts := split "/" etString in
  let* month := item parts 0 in
  let* day := item parts 1 in
  let* year := item parts 2 in
  Some (year ++ "-" ++ padStart month 2 "0" ++ "-" ++ padStart day 2 "0").

Definition getDateTimeLocalValueInET (dateString : string) : option string :=
  let date := ofString local dateString in
  let etString := localeDateTime2 TIMEZONE date in
  let parts := split ", " etString in
  let* datePart := item parts 0 in
  let timePart := item parts 1 in
  let dparts := split "/" datePart in
  let* month := item dparts 0 in
  let* day := item dparts 1 in
  let* year := item dparts 2 in
  Some (year ++ "-" ++ padStart month 2 "0" ++ "-" ++ padStart day 2 "0"
        ++ "T" ++ interp timePart).

(** Arithmetic on time values, NaN being contagious. *)
Definition numSub (a b : option Z) : option Z :=
  let* x := a in let* y := b in Some (x - y).
Definition numAdd (a b : option Z) : option Z :=
  let* x := a in let* y := b in Some (x + y).

Definition convertLocalDateTimeToUTC (localDateTimeString : string) : option string :=
  let etDate := ofString local localDateTimeString in
  let utcDate := ofString local (localeDefault utcZone etDate) in
  let offset := numSub (getTime etDate) (getTime utcDate) in
  let correctedDate := let* t := numAdd (getTime etDate) offset in ofTime t in
  toISOString correctedDate.

End Host.
End Timezone.

(** *** Payment records ([lib/supabase.ts]; the same interface, less the
    two audit columns, is declared again in the edge function)

    The type of amounts is left open: the program adds them up as
    JavaScript numbers, the database keeps them as [numeric(10,2)]. *)

Record Payment (A : Type) : Type := mkPayment {
  id : string;
  client_name : string;
  payment_method : string;
  amount_paid : A;
  timestamp : string;
  service_type : option string;
  created_at : string;
  updated_at : string
}.

Arguments mkPayment {A}.
Arguments id {A}.
Arguments client_name {A}.
Arguments payment_method {A}.
Arguments amount_paid {A}.
Arguments timestamp {A}.
Arguments service_type {A}.
Arguments created_at {A}.
Arguments updated_at {A}.

(** The filter criteria held by [App]. *)
Record FilterState : Type := mkFilter {
  searchTerm : string;
  dateFrom : string;
  dateTo : string;
  paymentMethod : string
}.

(** *** [App.tsx]: the filter engine *)

Module App.
Section Client.

Variable local : TimeZone.      (* the viewer's browser *)
Context {A : Type}.

(** [new Date(d.getFullYear(), d.getMonth(), d.getDate())] *)
Definition dateOnly (d : DateValue) : DateValue :=
  ofFields local (getFullYear local d) (getMonth local d) (getDate local d).

(** The callback given to [payments.filter].  [None] for [fromDateOnly]
    and [toDateOnly] is the [null] of the source. *)
Definition keeps (f : FilterState) (payment : Payment A) : bool :=
  let matchesSearch :=
    includes (toLowerCase (client_name payment)) (toLowerCase (searchTerm f)) in
  let matchesMethod :=
    negb (truthy (paymentMethod f))
    || String.eqb (payment_method payment) (paymentMethod f) in
  if truthy (dateFrom f) || truthy (dateTo f) then
    let paymentDate := ofString local (timestamp payment) in
    let paymentDateOnly := dateOnly paymentDate in
    let fromDate :=
      if truthy (dateFrom f)
      then Some (ofString local (dateFrom f ++ "T00:00:00")) else None in
    let fromDateOnly := option_map dateOnly fromDate in
    let toDate :=
      if truthy (dateTo f)
      then Some (ofString local (dateTo f ++ "T23:59:59")) else None in
    let toDateOnly := option_map dateOnly toDate in
    let matchesDateFrom :=
      match fromDateOnly with None => true | Some d => ge paymentDateOnly d end in
    let matchesDateTo :=
      match toDateOnly with None => true | Some d => le paymentDateOnly d end in
    if negb matchesDateFrom || negb matchesDateTo then false
    else matchesSearch && matchesMethod
  else matchesSearch && matchesMethod.

Definition filteredPayments (f : FilterState) (payments : list (Payment A))
  : list (Payment A) :=
  filter (keeps f) payments.

End Client.
End App.

(** *** [generate-payment-report/index.ts]: the filter of the report *)

Module Report.
Section Server.

Variable TIMEZONE : TimeZone.   (* "America/New_York" *)
Variable local : TimeZone.      (* the edge runtime *)
Context {A : Type}.

Definition getETDateString (utcTimestamp : string) : string :=
  let date := ofString local utcTimestamp in
  let etDateTimeString := localeDate2 TIMEZONE date in
  let datePart := item (split ", " etDateTimeString) 0 in
  let parts := split "/" (interp datePart) in
  let month := item parts 0 in
  let day := item parts 1 in
  let year := item parts 2 in
  interp year ++ "-" ++ interp month ++ "-" ++ interp day.

(** The callback given to [allPayments.filter]; [>=] and [<=] compare
    strings here. *)
Definition keeps (dateFrom dateTo paymentMethod : string) (payment : Payment A) : bool :=
  let paymentETDate := getETDateString (timestamp payment) in
  let inDateRange :=
    String.leb dateFrom paymentETDate && String.leb paymentETDate dateTo in
  let matchesMethod :=
    negb (truthy paymentMethod) || String.eqb (payment_method payment) paymentMethod in
  inDateRange && matchesMethod.

Definition filteredPayments (dateFrom dateTo paymentMethod : string)
  (allPayments : list (Payment A)) : list (Payment A) :=
  filter (keeps dateFrom dateTo paymentMethod) allPayments.

End Server.
End Report.

(** *** The Summary ([SummaryCards.tsx] and the edge function) *)

(** The numbers amounts are added in.  The program runs on [Num_float],
    the binary64 numbers of JavaScript; [Num_Z] is exact arithmetic on
    amounts counted in cents. *)
Class Num (A : Type) : Type := { zero : A; add : A -> A -> A }.

#[export] Instance Num_float : Num float := {| zero := 0%float; add := PrimFloat.add |}.
#[export] Instance Num_Z : Num Z := {| zero := 0%Z; add := Z.add |}.

Record Summary (A : Type) : Type := mkSummary {
  cash : A;
  zelle : A;
  check : A;
  bookerCC : A;
  total : A
}.

Arguments mkSummary {A}.
Arguments cash {A}.
Arguments zelle {A}.
Arguments check {A}.
Arguments bookerCC {A}.
Arguments total {A}.

Module SummaryCards.
Section Cards.

Context {A : Type} `{Num A}.

(** The reducer; [Number(payment.amount_paid)] is the amount itself.
    The [switch] has no default: another method adds to the total
    alone. *)
Definition reducer (acc : Summary A) (payment : Payment A) : Summary A :=
  let amount := amount_paid payment in
  let acc := mkSummary (cash acc) (zelle acc) (check acc) (bookerCC acc)
                       (add (total acc) amount) in
  let m := payment_method payment in
  if String.eqb m "Cash" then
    mkSummary (add (cash acc) amount) (zelle acc) (check acc) (bookerCC acc) (total acc)
  else if String.eqb m "Zelle" then
    mkSummary (cash acc) (add (zelle acc) amount) (check acc) (bookerCC acc) (total acc)
  else if String.eqb m "Check" then
    mkSummary (cash acc) (zelle acc) (add (check acc) amount) (bookerCC acc) (total acc)
  else if String.eqb m "Booker CC" then
    mkSummary (cash acc) (zelle acc) (check acc) (add (bookerCC acc) amount) (total acc)
  else acc.

Definition summary (payments : list (Payment A)) : Summary A :=
  fold_left reducer payments (mkSummary zero zero zero zero zero).

End Cards.
End SummaryCards.

Module ReportSummary.
Section Totals.

Context {A : Type} `{Num A}.

(** The body of [filteredPayments.forEach], which updates [summary] in
    place; [parseFloat(payment.amount_paid.toString())] is the amount
    itself. *)
Definition each (summary : Summary A) (payment : Payment A) : Summary A :=
  let amount := amount_paid payment in
  let summary := mkSummary (cash summary) (zelle summary) (check summary)
                           (bookerCC summary) (add (total summary) amount) in
  let m := payment_method payment in
  if String.eqb m "Cash" then
    mkSummary (add (cash summary) amount) (zelle summary) (check summary)
              (bookerCC summary) (total summary)
  else if String.eqb m "Zelle" then
    mkSummary (cash summary) (add (zelle summary) amount) (check summary)
              (bookerCC summary) (total summary)
  else if String.eqb m "Check" then
    mkSummary (cash summary) (zelle summary) (add (check summary) amount)
              (bookerCC summary) (total summary)
  else if String.eqb m "Booker CC" then
    mkSummary (cash summary) (zelle summary) (check summary)
              (add (bookerCC summary) amount) (total summary)
  else summary.

Definition summary (filteredPayments : list (Payment A)) : Summary A :=
  fold_left each filteredPayments (mkSummary zero zero zero zero zero).

End Totals.
End ReportSummary.

(** [summary.cash + summary.zelle + summary.check + summary.bookerCC] *)
Definition sumOfMethods {A : Type} `{Num A} (s : Summary A) : A :=
  add (add (add (cash s) (zelle s)) (check s)) (bookerCC s).

(** The payment methods the [payments_payment_method_check] constraint
    admits. *)
Definition validMethod (m : string) : Prop :=
  m = "Cash" \/ m = "Zelle" \/ m = "Check" \/ m = "Booker CC".

(** *** [SearchFilter.tsx]: day navigation *)

Module SearchFilter.
Section Nav.

Variable TIMEZONE : TimeZone.   (* 'America/New_York' *)
Variable local : TimeZone.      (* the viewer's browser *)

(** The two setters called one after the other. *)
Definition setBoth (f : FilterState) (d : string) : FilterState :=
  mkFilter (searchTerm f) d d (paymentMethod f).

(** [None] when the handler throws before it reaches the setters
    ([toISOString] on an invalid date): the criteria keep their value. *)
Definition goToPreviousDay (f : FilterState) : option FilterState :=
  if truthy (dateFrom f) then
    let date := ofString local (dateFrom f ++ "T12:00:00") in
    let date := setDate local date (option_map (fun d => d - 1) (getDate local date)) in
    let* iso := toISOString date in
    let* newDate := item (split "T" iso) 0 in
    Some (setBoth f newDate)
  else Some f.

Definition goToNextDay (f : FilterState) : option FilterState :=
  if truthy (dateFrom f) then
    let date := ofString local (dateFrom f ++ "T12:00:00") in
    let date := setDate local date (option_map (fun d => d + 1) (getDate local date)) in
    let* iso := toISOString date in
    let* newDate := item (split "T" iso) 0 in
    Some (setBoth f newDate)
  else Some f.

Definition setToday (now : Z) (f : FilterState) : option FilterState :=
  let* today := Timezone.getCurrentDateInET TIMEZONE now in
  Some (setBoth f today).

Definition clearDates (f : FilterState) : FilterState := setBoth f "".

End Nav.
End SearchFilter.

(** *** [App.tsx]: adding, updating and deleting a payment *)

(** The fields of [PaymentFormData]. *)
Record PaymentFormData (A : Type) : Type := mkForm {
  form_client_name : string;
  form_payment_method : string;
  form_amount_paid : A;
  form_timestamp : string;
  form_service_type : option string
}.

Arguments mkForm {A}.
Arguments form_client_name {A}.
Arguments form_payment_method {A}.
Arguments form_amount_paid {A}.
Arguments form_timestamp {A}.
Arguments form_service_type {A}.

Module Handlers.
Section WithAmounts.

Variable local : TimeZone.      (* the viewer's browser *)
Context {A : Type}.

(** The columns the client sends with an insert or an update. *)
Record Row : Type := mkRow {
  row_client_name : string;
  row_payment_method : string;
  row_amount_paid : A;
  row_timestamp : string;
  row_service_type : option string
}.

(** The requests the client sends to the [payments] table. *)
Inductive Request : Type :=
| Insert (r : Row)
| Update (r : Row) (id : string)
| Delete (id : string)
| SelectAll.

(** The record store and the state of [App], side by side.  [outcomes]
    tells for each coming request whether the store will carry it out
    ([true]) or answer with an error; past its end every request is
    carried out.  [requests] is the record of the requests sent, oldest
    first; [alerts] that of the notifications shown. *)
Record World : Type := mkWorld {
  table : list (Payment A);
  serial : Z;
  outcomes : list bool;
  requests : list Request;
  payments : list (Payment A);
  isFormOpen : bool;
  editingPayment : option (Payment A);
  isLoading : bool;
  alerts : list string
}.

(** Computations that read and change the world and may throw. *)
Definition M (X : Type) : Type := World -> (X + string) * World.

Definition ret {X} (x : X) : M X := fun w => (inl x, w).
Definition throw {X} (e : string) : M X := fun w => (inr e, w).
Definition bind {X Y} (m : M X) (k : X -> M Y) : M Y :=
  fun w => match m w with
           | (inl x, w') => k x w'
           | (inr e, w') => (inr e, w')
           end.
Definition tryCatch {X} (m : M X) (handler : string -> M X) : M X :=
  fun w => match m w with
           | (inl x, w') => (inl x, w')
           | (inr e, w') => handler e w'
           end.
(** [try ... finally]: the last block runs either way. *)
Definition finally {X} (m : M X) (last : M unit) : M X :=
  fun w => match m w with
           | (r, w') => match last w' with
                        | (inl _, w'') => (r, w'')
                        | (inr e, w'') => (inr e, w'')
                        end
           end.

Notation "x <- m ;; k" := (bind m (fun x => k))
  (at level 61, m at next level, right associativity).
Notation "m ;; k" := (bind m (fun _ => k))
  (at level 61, right associativity).

Definition exec {X} (m : M X) (w : World) : World := snd (m w).

Definition update (f : World -> World) : M unit := fun w => (inl tt, f w).

Definition setPayments (l : list (Payment A)) : M unit :=
  update (fun w => mkWorld (table w) (serial w) (outcomes w) (requests w)
                           l (isFormOpen w) (editingPayment w) (isLoading w) (alerts w)).
Definition setIsFormOpen (b : bool) : M unit :=
  update (fun w => mkWorld (table w) (serial w) (outcomes w) (requests w)
                           (payments w) b (editingPayment w) (isLoading w) (alerts w)).
Definition setEditingPayment (p : option (Payment A)) : M unit :=
  update (fun w => mkWorld (table w) (serial w) (outcomes w) (requests w)
                           (payments w) (isFormOpen w) p (isLoading w) (alerts w)).
Definition setIsLoading (b : bool) : M unit :=
  update (fun w => mkWorld (table w) (serial w) (outcomes w) (requests w)
                           (payments w) (isFormOpen w) (editingPayment w) b (alerts w)).
Definition alert (msg : string) : M unit :=
  update (fun w => mkWorld (table w) (serial w) (outcomes w) (requests w)
                           (payments w) (isFormOpen w) (editingPayment w) (isLoading w)
                           (alerts w ++ [msg])).

(** **** The record store *)

Definition timeOf (p : Payment A) : DateValue := ofString utcZone (timestamp p).

(** [order("timestamp", { ascending: false })], by insertion; a row
    whose time does not read comes last. *)
Definition later (p q : Payment A) : bool :=
  match timeOf p, timeOf q with
  | Some a, Some b => b <=? a
  | Some _, None => true
  | None, _ => false
  end.

Fixpoint insertDesc (p : Payment A) (l : list (Payment A)) : list (Payment A) :=
  match l with
  | [] => [p]
  | q :: l' => if later p q then p :: l else q :: insertDesc p l'
  end.

Definition newestFirst (l : list (Payment A)) : list (Payment A) :=
  fold_right insertDesc [] l.

(** What a request does to the table when the store carries it out.
    The store alone writes [id], [created_at] and [updated_at]. *)
Definition carryOut (c : Request) (rows : list (Payment A)) (n : Z) : list (Payment A) :=
  match c with
  | Insert r =>
      rows ++ [mkPayment (decimal n) (row_client_name r) (row_payment_method r)
                         (row_amount_paid r) (row_timestamp r) (row_service_type r)
                         ("t" ++ decimal n) ("t" ++ decimal n)]
  | Update r i =>
      map (fun p => if String.eqb (id p) i
                    then mkPayment (id p) (row_client_name r) (row_payment_method r)
                                   (row_amount_paid r) (row_timestamp r)
                                   (row_service_type r) (created_at p) ("t" ++ decimal n)
                    else p) rows
  | Delete i => filter (fun p => negb (String.eqb (id p) i)) rows
  | SelectAll => rows
  end.

(** Sends a request.  The answer is the [{ data, error }] of the
    source: [data] is the listing when the request is a select that
    went through. *)
Definition send (c : Request) : M (option (list (Payment A)) * option string) :=
  fun w =>
    let ok := match outcomes w with [] => true | b :: _ => b end in
    let rows := if ok then carryOut c (table w) (serial w) else table w in
    let answer :=
      if ok then
        (match c with SelectAll => Some (newestFirst rows) | _ => None end, None)
      else (None, Some "store error") in
    (inl answer,
     mkWorld rows (serial w + 1) (tl (outcomes w)) (requests w ++ [c])
             (payments w) (isFormOpen w) (editingPayment w) (isLoading w) (alerts w)).

Definition throwIf (error : option string) : M unit :=
  match error with Some e => throw e | None => ret tt end.

(** **** The handlers *)

Definition loadPayments : M unit :=
  finally
    (tryCatch
       (r <- send SelectAll ;;
        throwIf (snd r) ;;
        setPayments (match fst r with Some data => data | None => [] end))
       (fun _ => alert "Failed to load payments. Please try again."))
    (setIsLoading false).

(** [new Date(formData.timestamp).toISOString()], which throws on a
    string that is not a date. *)
Definition isoTimestamp (formData : PaymentFormData A) : M string :=
  match toISOString (ofString local (form_timestamp formData)) with
  | Some s => ret s
  | None => throw "RangeError: Invalid time value"
  end.

(** [formData.service_type || null] *)
Definition serviceOrNull (formData : PaymentFormData A) : option string :=
  match form_service_type formData with
  | Some s => if truthy s then Some s else None
  | None => None
  end.

Definition rowOf (formData : PaymentFormData A) (ts : string) : Row :=
  mkRow (form_client_name formData) (form_payment_method formData)
        (form_amount_paid formData) ts (serviceOrNull formData).

Definition handleAddPayment (formData : PaymentFormData A) : M unit :=
  tryCatch
    (ts <- isoTimestamp formData ;;
     r <- send (Insert (rowOf formData ts)) ;;
     throwIf (snd r) ;;
     loadPayments ;;
     setIsFormOpen false)
    (fun _ => alert "Failed to add payment. Please try again.").

Definition handleUpdatePayment (formData : PaymentFormData A) : M unit :=
  fun w =>
    match editingPayment w with
    | None => ret tt w
    | Some editing =>
        tryCatch
          (ts <- isoTimestamp formData ;;
           r <- send (Update (rowOf formData ts) (id editing)) ;;
           throwIf (snd r) ;;
           loadPayments ;;
           setEditingPayment None)
          (fun _ => alert "Failed to update payment. Please try again.") w
    end.

Definition handleDeletePayment (i : string) : M unit :=
  tryCatch
    (r <- send (Delete i) ;;
     throwIf (snd r) ;;
     loadPayments)
    (fun _ => alert "Failed to delete payment. Please try again.").

(** The three user actions that write to the store. *)
Inductive Action : Type :=
| AddPayment (formData : PaymentFormData A)
| UpdatePayment (formData : PaymentFormData A)
| DeletePayment (i : string).

Definition perform (a : Action) : M unit :=
  match a with
  | AddPayment formData => handleAddPayment formData
  | UpdatePayment formData => handleUpdatePayment formData
  | DeletePayment i => handleDeletePayment i
  end.

End WithAmounts.
End Handlers.

(** *** [App.tsx]: downloading the report *)

Module Download.
Section WithZone.

Variable TIMEZONE : TimeZone.

(** [fromDate === toDate ? ... : ...] *)
Definition filename (fromDate toDate : string) : string :=
  if String.eqb fromDate toDate
  then "payment-report-" ++ fromDate ++ ".html"
  else "payment-report-" ++ fromDate ++ "-to-" ++ toDate ++ ".html".

(** The query sent to the edge function. *)
Definition params (fromDate toDate paymentMethod : string) : list (string * string) :=
  [("dateFrom", fromDate); ("dateTo", toDate); ("paymentMethod", paymentMethod)].

(** [handleGenerateCurrentReport], given the clock reading [now] and
    the answer of [fetch] to a query: whether [response.ok], and the
    text.  The result is the file handed to the browser, name first;
    [None] when the handler ends in its [catch] (an alert, no file). *)
Definition handleGenerateCurrentReport (now : Z) (f : FilterState)
  (fetch : list (string * string) -> bool * string) : option (string * string) :=
  let* fromDate :=
    (if truthy (dateFrom f) then Some (dateFrom f)
     else Timezone.getCurrentDateInET TIMEZONE now) in
  let* toDate :=
    (if truthy (dateTo f) then Some (dateTo f)
     else Timezone.getCurrentDateInET TIMEZONE now) in
  let response := fetch (params fromDate toDate (paymentMethod f)) in
  if fst response then Some (filename fromDate toDate, snd response) else None.

End WithZone.
End Download.

(** *** [generate-payment-report/index.ts]: the request handler *)

Module Endpoint.
Section Serve.

Variable TIMEZONE : TimeZone.   (* "America/New_York" *)
Variable local : TimeZone.      (* the edge runtime *)
Context {A : Type} `{Num A}.

Record HttpRequest : Type := mkRequest {
  method : string;
  searchParams : list (string * string)
}.

(** [url.searchParams.get(name)]: the first value given for [name],
    [None] (that is [null]) when the query has none. *)
Fixpoint get (name : string) (q : list (string * string)) : option string :=
  match q with
  | [] => None
  | (k, v) :: q' => if String.eqb k name then Some v else get name q'
  end.

(** [!x] for a string or [null]. *)
Definition absent (x : option string) : bool :=
  match x with Some s => negb (truthy s) | None => true end.

(** What [generateHTMLReport] puts into its template: the title, the
    line naming the method, the five totals, and either the rows of
    the table or ([None]) the "No payments recorded for this period"
    block. *)
Record Document : Type := mkDocument {
  reportTitle : string;
  methodFilter : string;
  totals : Summary A;
  tableRows : option (list (Payment A));
  count : nat
}.

Inductive Body : Type :=
| NoBody
| Json (fields : list (string * option string))
| Html (doc : Document).

Record Response : Type := mkResponse {
  status : Z;
  contentType : option string;
  body : Body
}.

Definition monthName (m : Z) : string :=
  nth (Z.to_nat m)
      ["January"; "February"; "March"; "April"; "May"; "June"; "July";
       "August"; "September"; "October"; "November"; "December"] "".

(** [parseInt(s)] for an optional leading numeral; [None] is NaN. *)
Definition parseInt (s : option string) : option Z :=
  let* str := s in let* r := readNumber str in Some (fst r).

Definition formatDateOnly (dateString : string) : string :=
  let parts := split "-" dateString in
  let d := ofFields local (parseInt (item parts 0))
                    (option_map (fun m => m - 1) (parseInt (item parts 1)))
                    (parseInt (item parts 2)) in
  match d with
  | None => "Invalid Date"
  | Some t =>
      let lt := LocalTime local t in
      monthName (MonthFromTime lt) ++ " " ++ decimal (DateFromTime lt) ++ ", "
      ++ decimal (YearFromTime lt)
  end.

Definition generateHTMLReport (payments : list (Payment A)) (summary : Summary A)
  (dateFrom dateTo paymentMethod : string) : Document :=
  let reportTitle :=
    if String.eqb dateFrom dateTo then formatDateOnly dateFrom
    else formatDateOnly dateFrom ++ " - " ++ formatDateOnly dateTo in
  let methodFilter :=
    if truthy paymentMethod then " (" ++ paymentMethod ++ " only)"
    else " (All Payment Methods)" in
  mkDocument reportTitle methodFilter summary
             (if (0 <? List.length payments)%nat then Some payments else None)
             (List.length payments).

(** The handler passed to [Deno.serve].  [queried] is what comes of the
    [try] block once the parameters are accepted: the rows the store
    lists, or the message of the error thrown on the way, by the
    client of the store or by the handler itself on the store's error;
    whatever is thrown there lands in the one [catch]. *)
Definition serve (req : HttpRequest) (queried : string + list (Payment A)) : Response :=
  if String.eqb (method req) "OPTIONS" then mkResponse 200 None NoBody
  else
    let dateFrom := get "dateFrom" (searchParams req) in
    let dateTo := get "dateTo" (searchParams req) in
    let paymentMethod :=
      match get "paymentMethod" (searchParams req) with
      | Some s => orElse s ""
      | None => ""
      end in
    if absent dateFrom || absent dateTo then
      mkResponse 400 (Some "application/json")
                 (Json [("error", Some "dateFrom and dateTo parameters are required")])
    else
      match queried with
      | inl message =>
          mkResponse 500 (Some "application/json")
                     (Json [("error", Some message);
                            ("dateFrom", get "dateFrom" (searchParams req));
                            ("dateTo", get "dateTo" (searchParams req))])
      | inr allPayments =>
          let from := interp dateFrom in
          let to := interp dateTo in
          let filteredPayments :=
            Report.filteredPayments TIMEZONE local from to paymentMethod allPayments in
          let summary := ReportSummary.summary filteredPayments in
          mkResponse 200 (Some "text/html")
                     (Html (generateHTMLReport filteredPayments summary from to
                                               paymentMethod))
      end.

End Serve.
End Endpoint.

(** *** [utils/timezone.ts]: the dates shown *)

Module TimezoneFormat.

Definition shortMonthName (m : Z) : string :=
  nth (Z.to_nat m)
      ["Jan"; "Feb"; "Mar"; "Apr"; "May"; "Jun"; "Jul"; "Aug"; "Sep"; "Oct"; "Nov";
       "Dec"] "".

(** [toLocaleDateString("en-US", options)] with the month in words, for
    the years from 1 on, in the zone named by [timeZone].

    [{ month: "long", day: "numeric", year: "numeric" }]:
    [October 19, 2025]. *)
Definition localeLongDate (zone : TimeZone) (d : DateValue) : string :=
  match d with
  | None => "Invalid Date"
  | Some t =>
      let lt := LocalTime zone t in
      Endpoint.monthName (MonthFromTime lt) ++ " " ++ decimal (DateFromTime lt) ++ ", "
      ++ decimal (YearFromTime lt)
  end.

(** [{ month: "short", day: "numeric" }]: [Oct 19]. *)
Definition localeShortDay (zone : TimeZone) (d : DateValue) : string :=
  match d with
  | None => "Invalid Date"
  | Some t =>
      let lt := LocalTime zone t in
      shortMonthName (MonthFromTime lt) ++ " " ++ decimal (DateFromTime lt)
  end.

(** [{ month: "short", day: "numeric", year: "numeric" }]:
    [Oct 19, 2025]. *)
Definition localeShortDate (zone : TimeZone) (d : DateValue) : string :=
  match d with
  | None => "Invalid Date"
  | Some t =>
      let lt := LocalTime zone t in
      shortMonthName (MonthFromTime lt) ++ " " ++ decimal (DateFromTime lt) ++ ", "
      ++ decimal (YearFromTime lt)
  end.

Section Host.

Variable TIMEZONE : TimeZone.   (* 'America/New_York' *)
Variable local : TimeZone.

Definition formatDateOnlyInET (dateString : string) : string :=
  localeLongDate TIMEZONE (ofString local dateString).

Definition formatShortDateInET (dateString : string) : string :=
  localeShortDay TIMEZONE (ofString local dateString).

Definition formatShortDateWithYearInET (dateString : string) : string :=
  localeShortDate TIMEZONE (ofString local dateString).

End Host.
End TimezoneFormat.

(** *** [SearchFilter.tsx]: the label of the navigator and the Today
    button *)

Module DateNavigator.
Section Nav.

Variable TIMEZONE : TimeZone.   (* 'America/New_York' *)
Variable local : TimeZone.      (* the viewer's browser *)

(** [now] is the reading of the clock. *)
Definition getTodayDate (now : Z) : option string :=
  Timezone.getCurrentDateInET TIMEZONE now.

Definition formatDisplayDate (f : FilterState) : string :=
  if negb (truthy (dateFrom f)) && negb (truthy (dateTo f)) then "All Time"
  else if String.eqb (dateFrom f) (dateTo f) && truthy (dateFrom f) then
    TimezoneFormat.formatDateOnlyInET TIMEZONE local (dateFrom f ++ "T12:00:00")
  else if truthy (dateFrom f) && truthy (dateTo f) then
    let fromFormatted :=
      TimezoneFormat.formatShortDateInET TIMEZONE local (dateFrom f ++ "T12:00:00") in
    let toFormatted :=
      TimezoneFormat.formatShortDateWithYearInET TIMEZONE local
        (dateTo f ++ "T12:00:00") in
    fromFormatted ++ " - " ++ toFormatted
  else "Custom Range".

(** [dateFrom === getTodayDate() && dateTo === getTodayDate()], the two
    readings of the clock within one rendering taken as one; the Today
    button shows when it is false. *)
Definition isToday (now : Z) (f : FilterState) : option bool :=
  let* today := getTodayDate now in
  if String.eqb (dateFrom f) today then
    let* again := getTodayDate now in Some (String.eqb (dateTo f) again)
  else Some false.

End Nav.
End DateNavigator.

(** *** [PaymentForm.tsx] *)

Module PaymentForm.
Section Form.

Variable TIMEZONE : TimeZone.   (* 'America/New_York' *)
Variable local : TimeZone.      (* the viewer's browser *)
Context {A : Type} `{Num A}.

(** The state of the form. *)
Record FormState : Type := mkFormState {
  formData : PaymentFormData A;
  isSubmitting : bool
}.

(** The form for a new payment, opened at the clock reading [now];
    [None] when computing the default time throws. *)
Definition initialFormData (now : Z) : option (PaymentFormData A) :=
  let* iso := toISOString (ofTime now) in
  let* ts := Timezone.getDateTimeLocalValueInET TIMEZONE local iso in
  Some (mkForm "" "Cash" zero ts (Some "")).

(** The effect that fills the form with the payment to edit. *)
Definition populate (initialData : Payment A) : option (PaymentFormData A) :=
  let* ts := Timezone.getDateTimeLocalValueInET TIMEZONE local (timestamp initialData) in
  Some (mkForm (client_name initialData) (payment_method initialData)
               (amount_paid initialData) ts
               (Some (match service_type initialData with
                      | Some s => orElse s ""
                      | None => ""
                      end))).

(** [{ ...formData, timestamp: utcTimestamp }] *)
Definition withTimestamp (fd : PaymentFormData A) (utcTimestamp : string)
  : PaymentFormData A :=
  mkForm (form_client_name fd) (form_payment_method fd) (form_amount_paid fd)
         utcTimestamp (form_service_type fd).

(** [handleSubmit], beside the world of [App] that [onSubmit] acts on.
    A form time that does not convert throws out of the handler; the
    [finally] block clears [isSubmitting] either way. *)
Definition handleSubmit (onSubmit : PaymentFormData A -> @Handlers.M A unit)
  (s : FormState) (w : @Handlers.World A)
  : (unit + string) * (FormState * @Handlers.World A) :=
  let s := mkFormState (formData s) true in
  let r :=
    match Timezone.convertLocalDateTimeToUTC local (form_timestamp (formData s)) with
    | Some utcTimestamp => onSubmit (withTimestamp (formData s) utcTimestamp) w
    | None => (inr "RangeError: Invalid time value", w)
    end in
  (fst r, (mkFormState (formData s) false, snd r)).

End Form.
End PaymentForm.

(* ================================================================= *)
(** * The vocabulary of the properties *)

(** ** Date keys and days *)

(** The date key of day number [n], [YYYY-MM-DD]. *)
Definition dateKey (n : Z) : string :=
  pad4 (YearFromDay n) ++ "-" ++ pad2 (MonthFromDay n + 1) ++ "-" ++ pad2 (DateFromDay n).

(** The day number a date key stands for. *)
Definition dayOfKey (s : string) : option Z :=
  let* t := parseISO utcZone s in
  if (String.length s =? 10)%nat then Some (Day t) else None.

(** The days whose year is written with four digits. *)
Definition fourDigitDay (n : Z) : Prop := DayFromYear 0 <= n < DayFromYear 10000.

(** The days of the years 100 to 9999: four digits, and no year that
    [new Date(y, m, d)] takes for a year of the twentieth century. *)
Definition plainDay (n : Z) : Prop := DayFromYear 100 <= n < DayFromYear 10000.

(** The days of the years 1000 to 9999, whose year the locale writes
    with four digits. *)
Definition modernDay (n : Z) : Prop := DayFromYear 1000 <= n < DayFromYear 10000.

(** Twelve o'clock on day [n]. *)
Definition noonOf (n : Z) : Z := MakeDate n (MakeTime 12 0 0 0).

(** Two times of day, 23:30 and 03:30. *)
Definition lateEvening : Z := MakeTime 23 30 0 0.
Definition smallHours : Z := MakeTime 3 30 0 0.

(** ** Zones *)

(** What the filter and the navigation need of a zone: offsets of at
    most 16 hours that never differ by a whole day, and a midnight and
    a last second of the day that fall on their own date. *)
Record regularZone (tz : TimeZone) : Prop := {
  zone_bound : forall t b, - (16 * msPerHour) <= LocalTZA tz t b <= 16 * msPerHour;
  zone_spread : forall s t, LocalTZA tz s false - LocalTZA tz t false < msPerDay;
  zone_midnight : forall n, Day (LocalTime tz (UTC tz (MakeDate n 0))) = n;
  zone_lastSecond :
    forall n, Day (LocalTime tz (UTC tz (MakeDate n (MakeTime 23 59 59 0)))) = n
}.

(** Noon local time is noon when read back. *)
Definition noonStable (tz : TimeZone) : Prop :=
  forall n, LocalTime tz (UTC tz (MakeDate n (MakeTime 12 0 0 0)))
            = MakeDate n (MakeTime 12 0 0 0).

(** A zone that is at every moment between five and four hours behind
    UTC, as ["America/New_York"] is under each of its rules: local mean
    time, standard time, daylight time. *)
Definition easternOffsets (tz : TimeZone) : Prop :=
  forall t b, - (5 * msPerHour) <= LocalTZA tz t b <= - (4 * msPerHour).

(** ["America/Phoenix"]: Arizona keeps Mountain Standard Time, seven
    hours behind UTC, all year. *)
Definition phoenixTime : TimeZone := fixedZone (-7 * msPerHour).

(** ["Pacific/Tongatapu"]: Tonga is thirteen hours ahead of UTC all
    year. *)
Definition tongaTime : TimeZone := fixedZone (13 * msPerHour).

(** ** Strings *)

(** No occurrence of the character [x]. *)
Definition lacks (x : ascii) (s : string) : bool :=
  forallb (fun c => negb (Ascii.eqb c x)) (list_ascii_of_string s).

Definition allDigits (s : string) : bool := forallb isDigit (list_ascii_of_string s).

(** Not starting with a digit. *)
Definition stops (s : string) : bool :=
  match s with EmptyString => true | String c _ => negb (isDigit c) end.

(** No digit anywhere: a string no date can be read from. *)
Definition digitless (s : string) : bool :=
  forallb (fun c => negb (isDigit c)) (list_ascii_of_string s).

(** Characters of the ASCII range only; among them [toLowerCase]
    changes the letters A to Z and nothing else. *)
Definition plainAscii (s : string) : bool :=
  forallb (fun c => (nat_of_ascii c <? 128)%nat) (list_ascii_of_string s).

(** ** Filters and clicks *)

(** The two tests of the filter that do not look at dates. *)
Definition searchAndMethod {A} (f : FilterState) (p : Payment A) : bool :=
  includes (toLowerCase (client_name p)) (toLowerCase (searchTerm f))
  && (negb (truthy (paymentMethod f))
      || String.eqb (payment_method p) (paymentMethod f)).

(** The date a bound of the range resolves to: itself, or today's date
    on Eastern time when it is empty. *)
Definition resolved (TIMEZONE : TimeZone) (now : Z) (d : string) : option string :=
  if truthy d then Some d else Timezone.getCurrentDateInET TIMEZONE now.

(** ** Writes to the store *)

Section WriteVocabulary.

Variable local : TimeZone.
Context {A : Type}.

Abbreviation World := (@Handlers.World A).
Abbreviation Request := (@Handlers.Request A).
Abbreviation Action := (@Handlers.Action A).

(** The request an action sends to the store, if it gets that far:
    adding and updating stop before it on a time that does not read,
    updating also when no payment is being edited. *)
Definition mutation (a : Action) (w : World) : option Request :=
  match a with
  | Handlers.AddPayment fd =>
      option_map (fun ts => Handlers.Insert (Handlers.rowOf fd ts))
                 (toISOString (ofString local (form_timestamp fd)))
  | Handlers.UpdatePayment fd =>
      match Handlers.editingPayment w with
      | None => None
      | Some e =>
          option_map (fun ts => Handlers.Update (Handlers.rowOf fd ts) (id e))
                     (toISOString (ofString local (form_timestamp fd)))
      end
  | Handlers.DeletePayment i => Some (Handlers.Delete i)
  end.

(** Whether the store carries out the [k]-th request from now. *)
Definition outcome (k : nat) (w : World) : bool := nth k (Handlers.outcomes w) true.

Definition failureNotice (a : Action) : string :=
  match a with
  | Handlers.AddPayment _ => "Failed to add payment. Please try again."
  | Handlers.UpdatePayment _ => "Failed to update payment. Please try again."
  | Handlers.DeletePayment _ => "Failed to delete payment. Please try again."
  end.

(** The world after a request has been sent. *)
Definition sent (c : Request) (w : World) : World :=
  Handlers.mkWorld
    (if outcome 0 w then Handlers.carryOut c (Handlers.table w) (Handlers.serial w)
     else Handlers.table w)
    (Handlers.serial w + 1) (tl (Handlers.outcomes w)) (Handlers.requests w ++ [c])
    (Handlers.payments w) (Handlers.isFormOpen w) (Handlers.editingPayment w)
    (Handlers.isLoading w) (Handlers.alerts w).

End WriteVocabulary.

(** ** Sums of amounts *)

(** One more amount on a running sum. *)
Definition plus {A : Type} `{Num A} (acc : A) (p : Payment A) : A :=
  add acc (amount_paid p).

(** The amounts of a list, added from the left as a loop adds them. *)
Definition sumOf {A : Type} `{Num A} (l : list (Payment A)) : A :=
  fold_left plus l zero.

Definition ofMethod {A : Type} (m : string) (l : list (Payment A)) : list (Payment A) :=
  filter (fun p => String.eqb (payment_method p) m) l.

(** The methods that have a card of their own. *)
Definition knownMethod (m : string) : bool :=
  String.eqb m "Cash" || String.eqb m "Zelle" || String.eqb m "Check"
  || String.eqb m "Booker CC".

Definition otherMethods {A : Type} (l : list (Payment A)) : list (Payment A) :=
  filter (fun p => negb (knownMethod (payment_method p))) l.

(** ** Additions that do not round *)

Section Values.

Context {A : Type} `{Num A}.

(** The number an amount stands for, [None] when it stands for none. *)
Variable value : A -> option Z.

(** [x + y] stands for the sum of the numbers [x] and [y] stand for. *)
Definition addsExactly (x y : A) : bool :=
  match value x, value y, value (add x y) with
  | Some a, Some b, Some c => c =? a + b
  | _, _, _ => false
  end.

(** None of the additions the aggregation makes rounds: for each
    payment in turn, the one into the total and the one into the card
    of its method. *)
Fixpoint noRoundingFrom (acc : Summary A) (payments : list (Payment A)) : bool :=
  match payments with
  | [] => true
  | payment :: rest =>
      let amount := amount_paid payment in
      let m := payment_method payment in
      addsExactly (total acc) amount
      && (if String.eqb m "Cash" then addsExactly (cash acc) amount
          else if String.eqb m "Zelle" then addsExactly (zelle acc) amount
          else if String.eqb m "Check" then addsExactly (check acc) amount
          else if String.eqb m "Booker CC" then addsExactly (bookerCC acc) amount
          else true)
      && noRoundingFrom (SummaryCards.reducer acc payment) rest
  end.

Definition noRounding (payments : list (Payment A)) : bool :=
  noRoundingFrom (mkSummary zero zero zero zero zero) payments.

(** Nor does any of the three additions of
    [cash + zelle + check + bookerCC]. *)
Definition cardsAddExactly (s : Summary A) : bool :=
  addsExactly (cash s) (zelle s)
  && addsExactly (add (cash s) (zelle s)) (check s)
  && addsExactly (add (add (cash s) (zelle s)) (check s)) (bookerCC s).

Definition worth (x : A) : Z := match value x with Some v => v | None => 0 end.

(** The number the amounts of a list add up to. *)
Definition amounts (l : list (Payment A)) : Z :=
  fold_right (fun p s => worth (amount_paid p) + s) 0 l.

(** The absolute values of the amounts, added up. *)
Definition magnitude (l : list (Payment A)) : Z :=
  fold_right (fun p s => Z.abs (worth (amount_paid p)) + s) 0 l.

(** A whole multiple of the unit [u]. *)
Definition inUnits (u : Z) (x : A) : bool :=
  match value x with Some v => v mod u =? 0 | None => false end.

(** Standing for a whole multiple of [u] of absolute value at most
    [M]. *)
Definition fits (u M : Z) (x : A) : Prop :=
  exists v, value x = Some v /\ v mod u = 0 /\ Z.abs v <= M.

End Values.

(** The number a binary64 datum stands for, counted in units of
    2^-1074, of which every finite double is a whole multiple; the
    infinities and NaN stand for none. *)
Definition binaryValue (x : spec_float) : option Z :=
  match x with
  | S754_zero _ => Some 0
  | S754_finite s m e => Some ((if s then Z.neg m else Z.pos m) * 2 ^ (e + 1074))
  | _ => None
  end.

Definition floatValue (x : float) : option Z := binaryValue (Prim2SF x).

(** [total == cash + zelle + check + bookerCC] in the Summary of the
    dashboard and in that of the report. *)
Definition balanced (payments : list (Payment float)) : Prop :=
  PrimFloat.eqb (total (SummaryCards.summary payments))
                (sumOfMethods (SummaryCards.summary payments)) = true
  /\ PrimFloat.eqb (total (ReportSummary.summary payments))
                   (sumOfMethods (ReportSummary.summary payments)) = true.

(** ** Payments read on both sides *)

(** A payment whose time reads alike in the browser and on the server,
    and falls in the years 1000 to 9999. *)
Definition readsAlike {A : Type} (browser server : TimeZone) (p : Payment A) : Prop :=
  exists t, ofString browser (timestamp p) = Some t
            /\ ofString server (timestamp p) = Some t
            /\ modernDay (Day (LocalTime browser t)).

(** ** Days in words *)

(** The renderings of day [n]: [October 19, 2025], [Oct 19] and
    [Oct 19, 2025]. *)
Definition longDate (n : Z) : string :=
  Endpoint.monthName (MonthFromDay n) ++ " " ++ decimal (DateFromDay n) ++ ", "
  ++ decimal (YearFromDay n).

Definition shortDay (n : Z) : string :=
  TimezoneFormat.shortMonthName (MonthFromDay n) ++ " " ++ decimal (DateFromDay n).

Definition shortDate (n : Z) : string :=
  TimezoneFormat.shortMonthName (MonthFromDay n) ++ " " ++ decimal (DateFromDay n) ++ ", "
  ++ decimal (YearFromDay n).

(** ** Times on their way to the store *)

(** The ISO rendering of a time of a year written with four digits. *)
Definition isoOf (t : Z) : string :=
  dateKey (Day t) ++ "T" ++ pad2 (HourFromTime t) ++ ":" ++ pad2 (MinFromTime t) ++ ":"
  ++ pad2 (SecFromTime t) ++ "." ++ pad3 (msFromTime t) ++ "Z".

(** The wall-clock reading of [t] in the zone of the program, cut to
    the minute and taken for a UTC time. *)
Definition wallClock (TIMEZONE : TimeZone) (t : Z) : Z :=
  LocalTime TIMEZONE t - LocalTime TIMEZONE t mod msPerMinute.

(** A service type, [null] when it is missing or empty. *)
Definition nonEmpty (o : option string) : option string :=
  match o with
  | Some s => if truthy s then Some s else None
  | None => None
  end.

(** ** Worlds after a handler *)

Section RunVocabulary.

Context {A : Type}.

Abbreviation World := (@Handlers.World A).
Abbreviation Request := (@Handlers.Request A).

(** The world after [loadPayments]. *)
Definition reloaded (w : World) : World :=
  Handlers.mkWorld (Handlers.table w) (Handlers.serial w + 1) (tl (Handlers.outcomes w))
    (Handlers.requests w ++ [Handlers.SelectAll])
    (if outcome 0 w then Handlers.newestFirst (Handlers.table w) else Handlers.payments w)
    (Handlers.isFormOpen w) (Handlers.editingPayment w) false
    (if outcome 0 w then Handlers.alerts w
     else Handlers.alerts w ++ ["Failed to load payments. Please try again."]).

(** The world after a write: the request sent, then either the reload
    and what follows it, or the notice of failure. *)
Definition written (c : Request) (after : World -> World) (notice : string) (w : World)
  : World :=
  if outcome 0 w then after (reloaded (sent c w))
  else Handlers.exec (Handlers.alert notice) (sent c w).

End RunVocabulary.

(** ** Sample data *)

(** The double nearest to [n] cents. *)
Definition cents (n : Z) : float :=
  (PrimFloat.of_uint63 (Uint63.of_Z n) / 100)%float.

Definition paid {A : Type} (method : string) (amount : A) : Payment A :=
  mkPayment "" "Client" method amount "2025-10-19T14:00:00+00:00" None "" "".

(** 100.00 in cash, 50.25 by Zelle and 20.50 by check: amounts that
    binary64 holds and adds exactly. *)
Definition wholePayments : list (Payment float) :=
  [paid "Cash" (cents 10000); paid "Zelle" (cents 5025); paid "Check" (cents 2050)].

(** The same with a payment of a method that has no card. *)
Definition mixedPayments : list (Payment float) :=
  [paid "Cash" (cents 10000); paid "Venmo" (cents 2500); paid "Zelle" (cents 5025)].

(** A payment made on 19 October 2025 at 1:30 in the morning, Eastern
    time; in Arizona it is still the evening of the 18th. *)
Definition earlyPayment : Payment Z :=
  mkPayment "7" "Ann" "Cash" 10000 "2025-10-19T05:30:00+00:00" None "" "".

(** A payment made at 23:30 UTC on 19 October 2025. *)
Definition lateEveningPayment : Payment Z :=
  mkPayment "8" "Bob" "Zelle" 5000 "2025-10-19T23:30:00+00:00" None "" "".

Definition smallHoursPayment : Payment Z :=
  mkPayment "9" "Bob" "Zelle" 5000 "2025-10-19T03:30:00+00:00" None "" "".

(** A payment of June 1999. *)
Definition oldPayment : Payment Z :=
  mkPayment "3" "Carl" "Check" 2000 "1999-06-15T14:00:00+00:00" None "" "".

Definition weekRange : FilterState := mkFilter "" "2025-10-19" "2025-10-25" "Cash".
Definition oneDay (d : string) : FilterState := mkFilter "" d d "Cash".

Definition sampleForm : PaymentFormData Z :=
  mkForm "Ann" "Cash" 10000 "2025-10-19T14:00:00.000Z" (Some "").

Definition sampleRow : Handlers.Row :=
  Handlers.mkRow "Ann" "Cash" 10000 "2025-10-19T14:00:00.000Z" None.

(** One payment on the dashboard and in the table; the store is about
    to carry out [outcomes] in turn. *)
Definition sampleWorld (outcomes : list bool) : Handlers.World :=
  Handlers.mkWorld [earlyPayment] 8 outcomes [] [earlyPayment] true None false [].

Definition getRequest (q : list (string * string)) : Endpoint.HttpRequest :=
  Endpoint.mkRequest "GET" q.

(** A payment whose time does not read. *)
Definition unreadablePayment : Payment Z :=
  mkPayment "4" "Dan" "Cash" 10000 "yesterday" None "" "".

(** The form is open on [earlyPayment]; the store is about to carry out
    [outcomes] in turn. *)
Definition editingWorld (outcomes : list bool) : Handlers.World :=
  Handlers.mkWorld [earlyPayment] 8 outcomes [] [earlyPayment] false (Some earlyPayment)
    false [].

(* ================================================================= *)
(** * Properties *)

(** ** The calendar *)

(** Linear arithmetic with division and remainder by constants. *)
Ltac div_lia := Z.to_euclidean_division_equations; lia.

Lemma DaysInYear_step y : DayFromYear (y + 1) - DayFromYear y = DaysInYear y.
Proof.
  unfold DayFromYear, DaysInYear, InLeapYear.
  destruct (y mod 4 =? 0) eqn:E4; destruct (y mod 100 =? 0) eqn:E100;
    destruct (y mod 400 =? 0) eqn:E400; cbn [andb orb negb];
    rewrite ?Z.eqb_eq, ?Z.eqb_neq in *; div_lia.
Qed.

Lemma YearFromDay_spec d :
  DayFromYear (YearFromDay d) <= d < DayFromYear (YearFromDay d + 1).
Proof.
  unfold YearFromDay.
  set (y0 := 1970 + 400 * d / 146097).
  assert (DayFromYear (y0 - 1) <= d < DayFromYear (y0 + 2)).
  { unfold DayFromYear, y0. div_lia. }
  destruct (d <? DayFromYear y0) eqn:E1.
  - apply Z.ltb_lt in E1. replace (y0 - 1 + 1) with y0 by lia. lia.
  - apply Z.ltb_ge in E1.
    destruct (DayFromYear (y0 + 1) <=? d) eqn:E2.
    + apply Z.leb_le in E2. replace (y0 + 1 + 1) with (y0 + 2) by lia. lia.
    + apply Z.leb_gt in E2. lia.
Qed.

Lemma DayFromYear_mono a b : a <= b -> DayFromYear a <= DayFromYear b.
Proof. unfold DayFromYear. intros. div_lia. Qed.

(** The year of a day is determined by the bracket it falls in. *)
Lemma YearFromDay_unique d y :
  DayFromYear y <= d < DayFromYear (y + 1) -> YearFromDay d = y.
Proof.
  intros H. pose proof (YearFromDay_spec d) as S.
  destruct (Z.lt_trichotomy (YearFromDay d) y) as [L | [E | G]]; [ | exact E | ].
  - pose proof (DayFromYear_mono (YearFromDay d + 1) y ltac:(lia)). lia.
  - pose proof (DayFromYear_mono (y + 1) (YearFromDay d) ltac:(lia)). lia.
Qed.

Lemma DayWithinYear_range d :
  0 <= DayWithinYear d < DaysInYear (YearFromDay d).
Proof.
  unfold DayWithinYear. pose proof (YearFromDay_spec d).
  pose proof (DaysInYear_step (YearFromDay d)). lia.
Qed.

Lemma MonthFromDay_range d : 0 <= MonthFromDay d <= 11.
Proof.
  unfold MonthFromDay.
  repeat match goal with
         | |- context [if ?c then _ else _] => destruct c
         end; lia.
Qed.

Lemma DateFromDay_range d : 1 <= DateFromDay d <= 31.
Proof.
  pose proof (DayWithinYear_range d) as W.
  unfold DateFromDay, MonthFromDay, DaysInYear in *.
  destruct (InLeapYear (YearFromDay d)); cbn in *;
  repeat match goal with
         | |- context [?a <? ?b] => destruct (Z.ltb_spec a b)
         end; cbn; lia.
Qed.

(** Rebuilding a day from its own year, month and date gives it back. *)
Lemma MakeDay_fields d :
  MakeDay (YearFromDay d) (MonthFromDay d) (DateFromDay d) = d.
Proof.
  pose proof (MonthFromDay_range d) as M.
  unfold MakeDay.
  replace (MonthFromDay d / 12) with 0 by div_lia.
  replace (MonthFromDay d mod 12) with (MonthFromDay d) by div_lia.
  rewrite Z.add_0_r. unfold DateFromDay, DayWithinYear. lia.
Qed.

(** ** Numerals *)

Lemma digitValue_digitChar n : 0 <= n <= 9 -> digitValue (digitChar n) = Some n.
Proof.
  intros R. rewrite <- (Z2Nat.id n) by lia.
  assert (K : (Z.to_nat n < 10)%nat) by lia.
  set (k := Z.to_nat n) in *. clearbody k.
  do 10 (destruct k as [| k]; [reflexivity |]). lia.
Qed.

Lemma digitChar_isDigit n : 0 <= n <= 9 -> isDigit (digitChar n) = true.
Proof.
  intros R. pose proof (digitValue_digitChar n R) as E. unfold digitValue in E.
  destruct (isDigit (digitChar n)); [reflexivity | discriminate].
Qed.

Lemma decimal_1 n : 0 <= n <= 9 -> decimal n = String (digitChar n) "".
Proof.
  intros R. unfold decimal. cbn [decimalAux].
  replace (n <? 10) with true by (symmetry; apply Z.ltb_lt; lia).
  now rewrite Z.mod_small by lia.
Qed.

Lemma decimal_2 n :
  10 <= n <= 99 ->
  decimal n = String (digitChar (n / 10)) (String (digitChar (n mod 10)) "").
Proof.
  intros R. unfold decimal. cbn [decimalAux].
  replace (n <? 10) with false by (symmetry; apply Z.ltb_ge; lia).
  replace (n / 10 <? 10) with true by (symmetry; apply Z.ltb_lt; div_lia).
  now rewrite (Z.mod_small (n / 10)) by div_lia.
Qed.

Lemma decimal_3 n :
  100 <= n <= 999 ->
  decimal n = String (digitChar (n / 100))
                (String (digitChar (n / 10 mod 10)) (String (digitChar (n mod 10)) "")).
Proof.
  intros R. unfold decimal. cbn [decimalAux].
  replace (n <? 10) with false by (symmetry; apply Z.ltb_ge; lia).
  replace (n / 10 <? 10) with false by (symmetry; apply Z.ltb_ge; div_lia).
  replace (n / 10 / 10 <? 10) with true by (symmetry; apply Z.ltb_lt; div_lia).
  replace (n / 10 / 10) with (n / 100) by div_lia.
  now rewrite (Z.mod_small (n / 100)) by div_lia.
Qed.

Lemma decimal_4 n :
  1000 <= n <= 9999 ->
  decimal n = String (digitChar (n / 1000))
                (String (digitChar (n / 100 mod 10))
                   (String (digitChar (n / 10 mod 10)) (String (digitChar (n mod 10)) ""))).
Proof.
  intros R. unfold decimal. cbn [decimalAux].
  replace (n <? 10) with false by (symmetry; apply Z.ltb_ge; lia).
  replace (n / 10 <? 10) with false by (symmetry; apply Z.ltb_ge; div_lia).
  replace (n / 10 / 10 <? 10) with false by (symmetry; apply Z.ltb_ge; div_lia).
  replace (n / 10 / 10 / 10 <? 10) with true by (symmetry; apply Z.ltb_lt; div_lia).
  replace (n / 10 / 10 / 10) with (n / 1000) by div_lia.
  replace (n / 10 / 10) with (n / 100) by div_lia.
  now rewrite (Z.mod_small (n / 1000)) by div_lia.
Qed.

(** Two digits, zero-padded. *)
Lemma pad2_digits n :
  0 <= n <= 99 ->
  pad2 n = String (digitChar (n / 10)) (String (digitChar (n mod 10)) "").
Proof.
  intros R. unfold pad2, padStart.
  destruct (Z.lt_ge_cases n 10).
  - rewrite decimal_1 by lia. cbn [String.length Nat.sub repeatChar append readDigits].
    replace (n / 10) with 0 by div_lia. now rewrite Z.mod_small by lia.
  - rewrite decimal_2 by lia. reflexivity.
Qed.

(** Four digits, zero-padded. *)
Lemma pad4_digits n :
  0 <= n <= 9999 ->
  pad4 n = String (digitChar (n / 1000))
             (String (digitChar (n / 100 mod 10))
                (String (digitChar (n / 10 mod 10)) (String (digitChar (n mod 10)) ""))).
Proof.
  intros R. unfold pad4, padStart.
  destruct (Z.lt_ge_cases n 10); [| destruct (Z.lt_ge_cases n 100);
                                     [| destruct (Z.lt_ge_cases n 1000)]].
  - rewrite decimal_1 by lia. cbn [String.length Nat.sub repeatChar append readDigits].
    replace (n / 1000) with 0 by div_lia. replace (n / 100) with 0 by div_lia.
    replace (n / 10) with 0 by div_lia. now rewrite (Z.mod_small n) by lia.
  - rewrite decimal_2 by lia. cbn [String.length Nat.sub repeatChar append readDigits].
    replace (n / 1000) with 0 by div_lia. replace (n / 100) with 0 by div_lia.
    now rewrite (Z.mod_small (n / 10)) by div_lia.
  - rewrite decimal_3 by lia. cbn [String.length Nat.sub repeatChar append readDigits].
    replace (n / 1000) with 0 by div_lia.
    now rewrite (Z.mod_small (n / 100)) by div_lia.
  - rewrite decimal_4 by lia. reflexivity.
Qed.

Lemma readDigits_pad2 n rest :
  0 <= n <= 99 -> readDigits 2 0 (pad2 n ++ rest) = Some (n, rest).
Proof.
  intros R. rewrite pad2_digits by lia. cbn [append readDigits].
  rewrite !digitValue_digitChar by div_lia. do 2 f_equal. div_lia.
Qed.

Lemma readDigits_pad4 n rest :
  0 <= n <= 9999 -> readDigits 4 0 (pad4 n ++ rest) = Some (n, rest).
Proof.
  intros R. rewrite pad4_digits by lia. cbn [append readDigits].
  rewrite !digitValue_digitChar by div_lia. do 2 f_equal. div_lia.
Qed.

(** ** Days and date keys *)

Lemma Day_MakeDate n r : 0 <= r < msPerDay -> Day (MakeDate n r) = n.
Proof. unfold Day, MakeDate, msPerDay. intros R. div_lia. Qed.

Lemma YearFromDay_lower d y : DayFromYear y <= d -> y <= YearFromDay d.
Proof.
  intros L. pose proof (YearFromDay_spec d) as S.
  destruct (Z_le_gt_dec y (YearFromDay d)) as [|G]; [assumption |].
  pose proof (DayFromYear_mono (YearFromDay d + 1) y ltac:(lia)). lia.
Qed.

Lemma YearFromDay_upper d y : d < DayFromYear y -> YearFromDay d < y.
Proof.
  intros L. pose proof (YearFromDay_spec d) as S.
  destruct (Z_lt_ge_dec (YearFromDay d) y) as [|G]; [assumption |].
  pose proof (DayFromYear_mono y (YearFromDay d) ltac:(lia)). lia.
Qed.

Lemma DateFromDay_in_month d :
  DateFromDay d <= DaysInMonth (YearFromDay d) (MonthFromDay d).
Proof.
  pose proof (DayWithinYear_range d) as W.
  unfold DateFromDay, DaysInMonth, MonthFromDay, DaysInYear in *.
  destruct (InLeapYear (YearFromDay d)); cbn in *;
  repeat match goal with
         | |- context [?a <? ?b] => destruct (Z.ltb_spec a b)
         end; cbn; lia.
Qed.

Lemma fourDigitDay_year n : fourDigitDay n -> 0 <= YearFromDay n <= 9999.
Proof.
  intros [L U]. pose proof (YearFromDay_lower n 0 L).
  pose proof (YearFromDay_upper n 10000 U). lia.
Qed.

Lemma dateKey_nonempty n : fourDigitDay n -> truthy (dateKey n) = true.
Proof.
  intros R. unfold dateKey. rewrite pad4_digits by now apply fourDigitDay_year.
  reflexivity.
Qed.

Lemma append_assoc (a b c : string) : (a ++ b) ++ c = a ++ (b ++ c).
Proof. induction a as [| x a IH]; cbn; [reflexivity | now rewrite IH]. Qed.

Lemma append_nil_r (a : string) : a ++ "" = a.
Proof. induction a as [| x a IH]; cbn; [reflexivity | now rewrite IH]. Qed.

(** Reading back a date key followed by a time of day. *)
Lemma parseISO_dateKey tz n h mi sec :
  fourDigitDay n -> 0 <= h <= 23 -> 0 <= mi <= 59 -> 0 <= sec <= 59 ->
  parseISO tz (dateKey n ++ "T" ++ pad2 h ++ ":" ++ pad2 mi ++ ":" ++ pad2 sec)
  = Some (UTC tz (MakeDate n (MakeTime h mi sec 0))).
Proof.
  intros R Hh Hm Hs.
  pose proof (fourDigitDay_year n R) as Y.
  pose proof (MonthFromDay_range n) as Mo.
  pose proof (DateFromDay_range n) as Da.
  pose proof (DateFromDay_in_month n) as Dm.
  unfold parseISO, dateKey.
  rewrite !append_assoc.
  rewrite readDigits_pad4 by lia. cbn [expect append Ascii.eqb Bool.eqb].
  rewrite readDigits_pad2 by lia. cbn [expect append Ascii.eqb Bool.eqb].
  rewrite readDigits_pad2 by lia.
  replace (MonthFromDay n + 1 - 1) with (MonthFromDay n) by lia.
  rewrite MakeDay_fields.
  replace ((1 <=? MonthFromDay n + 1) && (MonthFromDay n + 1 <=? 12)
           && (1 <=? DateFromDay n)
           && (DateFromDay n <=? 31))
    with true
    by (symmetry; rewrite !andb_true_iff, !Z.leb_le; lia).
  cbn [expect append Ascii.eqb Bool.eqb].
  rewrite readDigits_pad2 by lia. cbn [expect append Ascii.eqb Bool.eqb].
  rewrite readDigits_pad2 by lia.
  unfold readSeconds. cbn [expect append Ascii.eqb Bool.eqb].
  replace (pad2 sec) with (pad2 sec ++ "") by apply append_nil_r.
  rewrite readDigits_pad2 by lia. cbn [expect readOffset].
  replace ((h <=? 23) && (mi <=? 59) && (sec <=? 59)) with true
    by (symmetry; rewrite !andb_true_iff, !Z.leb_le; lia).
  reflexivity.
Qed.

Lemma modernDay_plain n : modernDay n -> plainDay n.
Proof.
  unfold modernDay, plainDay. intros [L U]. split; [| exact U].
  pose proof (DayFromYear_mono 100 1000 ltac:(lia)). lia.
Qed.

Lemma decimal_pad4 y : 1000 <= y <= 9999 -> decimal y = pad4 y.
Proof. intros R. rewrite pad4_digits, decimal_4 by lia. reflexivity. Qed.

(** ** Splitting and comparing date strings *)

Lemma lacks_app x a b : lacks x (a ++ b) = lacks x a && lacks x b.
Proof.
  unfold lacks. induction a as [| c a IH]; cbn; [reflexivity |].
  now rewrite IH, andb_assoc.
Qed.

Lemma allDigits_app a b : allDigits (a ++ b) = allDigits a && allDigits b.
Proof.
  unfold allDigits. induction a as [| c a IH]; cbn; [reflexivity |].
  now rewrite IH, andb_assoc.
Qed.

Lemma allDigits_lacks x s : isDigit x = false -> allDigits s = true -> lacks x s = true.
Proof.
  intros X. unfold allDigits, lacks.
  induction s as [| c s IH]; cbn; [reflexivity |].
  intros D. apply andb_true_iff in D. destruct D as [Dc Ds].
  rewrite IH by exact Ds. rewrite andb_true_r.
  destruct (Ascii.eqb_spec c x) as [-> | _]; [congruence | reflexivity].
Qed.

Lemma pad2_allDigits n : 0 <= n <= 99 -> allDigits (pad2 n) = true.
Proof.
  intros R. rewrite pad2_digits by lia. unfold allDigits.
  cbn [list_ascii_of_string forallb]. rewrite !digitChar_isDigit by div_lia. reflexivity.
Qed.

Lemma pad4_allDigits n : 0 <= n <= 9999 -> allDigits (pad4 n) = true.
Proof.
  intros R. rewrite pad4_digits by lia. unfold allDigits.
  cbn [list_ascii_of_string forallb]. rewrite !digitChar_isDigit by div_lia. reflexivity.
Qed.

Lemma prefix_nil s : prefix "" s = true.
Proof. destruct s; reflexivity. Qed.

(** A separator whose first character is nowhere in the string leaves
    the string in one piece. *)
Lemma splitAux_lacks x sep s cur :
  lacks x s = true -> splitAux (String x sep) 0 cur s = [revString s cur].
Proof.
  revert cur. induction s as [| c s IH]; intros cur L; [reflexivity |].
  unfold lacks in L. cbn [list_ascii_of_string forallb] in L.
  apply andb_true_iff in L. destruct L as [Lc Ls].
  cbn [splitAux prefix].
  destruct (ascii_dec x c) as [<- | _].
  - rewrite Ascii.eqb_refl in Lc. discriminate.
  - rewrite IH by exact Ls. reflexivity.
Qed.

(** A one-character separator cuts after a piece that lacks it. *)
Lemma splitAux_piece x s rest cur :
  lacks x s = true ->
  splitAux (String x "") 0 cur (s ++ String x rest)
  = revString s cur :: splitAux (String x "") 0 [] rest.
Proof.
  revert cur. induction s as [| c s IH]; intros cur L.
  - cbn [append splitAux prefix]. destruct (ascii_dec x x); [| congruence].
    rewrite prefix_nil. reflexivity.
  - unfold lacks in L. cbn [list_ascii_of_string forallb] in L.
    apply andb_true_iff in L. destruct L as [Lc Ls].
    cbn [append splitAux prefix].
    destruct (ascii_dec x c) as [<- | _].
    + rewrite Ascii.eqb_refl in Lc. discriminate.
    + rewrite IH by exact Ls. reflexivity.
Qed.

(** ** The order of date keys *)

Lemma N_of_digitChar n : 0 <= n <= 9 -> N_of_ascii (digitChar n) = Z.to_N (48 + n).
Proof.
  intros R. rewrite <- (Z2Nat.id n) by lia.
  assert (K : (Z.to_nat n < 10)%nat) by lia.
  set (k := Z.to_nat n) in *. clearbody k.
  do 10 (destruct k as [| k]; [reflexivity |]). lia.
Qed.

Lemma compare_digitChar i j :
  0 <= i <= 9 -> 0 <= j <= 9 -> Ascii.compare (digitChar i) (digitChar j) = (i ?= j).
Proof.
  intros Ri Rj. unfold Ascii.compare. rewrite !N_of_digitChar by assumption.
  rewrite Z2N.inj_compare by lia. apply Z.add_compare_mono_l.
Qed.

(** Two numerals of equal width compare as the numbers do. *)
Lemma compare_pad2 x y r1 r2 :
  0 <= x <= 99 -> 0 <= y <= 99 ->
  String.compare (pad2 x ++ r1) (pad2 y ++ r2)
  = match x ?= y with Eq => String.compare r1 r2 | c => c end.
Proof.
  intros Rx Ry. rewrite !pad2_digits by assumption.
  cbn [append String.compare]. rewrite !compare_digitChar by div_lia.
  destruct (Z.compare_spec (x / 10) (y / 10));
    destruct (Z.compare_spec (x mod 10) (y mod 10));
    destruct (Z.compare_spec x y); try reflexivity; div_lia.
Qed.

Lemma compare_pad4 x y r1 r2 :
  0 <= x <= 9999 -> 0 <= y <= 9999 ->
  String.compare (pad4 x ++ r1) (pad4 y ++ r2)
  = match x ?= y with Eq => String.compare r1 r2 | c => c end.
Proof.
  intros Rx Ry. rewrite !pad4_digits by assumption.
  cbn [append String.compare]. rewrite !compare_digitChar by div_lia.
  destruct (Z.compare_spec (x / 1000) (y / 1000));
    destruct (Z.compare_spec (x / 100 mod 10) (y / 100 mod 10));
    destruct (Z.compare_spec (x / 10 mod 10) (y / 10 mod 10));
    destruct (Z.compare_spec (x mod 10) (y mod 10));
    destruct (Z.compare_spec x y); try reflexivity; div_lia.
Qed.

Lemma DaysBeforeMonth_mono l m1 m2 :
  0 <= m1 -> m1 <= m2 -> m2 <= 11 -> DaysBeforeMonth l m1 <= DaysBeforeMonth l m2.
Proof.
  intros R1 R2 R3.
  assert (K1 : (Z.to_nat m1 < 12)%nat) by lia.
  assert (K2 : (Z.to_nat m2 < 12)%nat) by lia.
  assert (K : (Z.to_nat m1 <= Z.to_nat m2)%nat) by lia.
  rewrite <- (Z2Nat.id m1), <- (Z2Nat.id m2) by lia.
  set (a := Z.to_nat m1) in *. set (b := Z.to_nat m2) in *. clearbody a b.
  clear R1 R2 R3.
  do 12 (destruct a as [| a]; [
    do 12 (destruct b as [| b]; [destruct l; cbn; lia |]); lia |]).
  lia.
Qed.

(** Within a year, a later month starts after the earlier one ends. *)
Lemma same_year_month_order a b :
  YearFromDay a = YearFromDay b -> MonthFromDay a < MonthFromDay b -> a < b.
Proof.
  intros Y M.
  pose proof (MakeDay_fields a) as Fa. pose proof (MakeDay_fields b) as Fb.
  pose proof (MonthFromDay_range a) as Ma. pose proof (MonthFromDay_range b) as Mb.
  pose proof (DateFromDay_in_month a) as Ia. pose proof (DateFromDay_range b) as Rb.
  unfold MakeDay in Fa, Fb.
  replace (MonthFromDay a / 12) with 0 in Fa by div_lia.
  replace (MonthFromDay b / 12) with 0 in Fb by div_lia.
  replace (MonthFromDay a mod 12) with (MonthFromDay a) in Fa by div_lia.
  replace (MonthFromDay b mod 12) with (MonthFromDay b) in Fb by div_lia.
  rewrite Z.add_0_r in Fa, Fb. rewrite Y in *.
  unfold DaysInMonth in Ia.
  replace (MonthFromDay a =? 11) with false in Ia by (symmetry; apply Z.eqb_neq; lia).
  pose proof (DaysBeforeMonth_mono (InLeapYear (YearFromDay b))
                (MonthFromDay a + 1) (MonthFromDay b) ltac:(lia) ltac:(lia) ltac:(lia)).
  lia.
Qed.

(** The calendar fields, compared in turn, order the days. *)
Lemma fields_compare a b :
  match YearFromDay a ?= YearFromDay b with
  | Eq => match MonthFromDay a + 1 ?= MonthFromDay b + 1 with
          | Eq => DateFromDay a ?= DateFromDay b
          | c => c
          end
  | c => c
  end = (a ?= b).
Proof.
  pose proof (YearFromDay_spec a) as Sa. pose proof (YearFromDay_spec b) as Sb.
  destruct (Z.compare_spec (YearFromDay a) (YearFromDay b)) as [Y | Y | Y].
  - destruct (Z.compare_spec (MonthFromDay a + 1) (MonthFromDay b + 1)) as [M | M | M].
    + pose proof (MakeDay_fields a) as Fa. pose proof (MakeDay_fields b) as Fb.
      assert (M' : MonthFromDay a = MonthFromDay b) by lia.
      rewrite Y, M' in Fa. unfold MakeDay in Fa, Fb.
      destruct (Z.compare_spec (DateFromDay a) (DateFromDay b));
        symmetry; [apply Z.compare_eq_iff | apply Z.compare_lt_iff
                   | apply Z.compare_gt_iff]; lia.
    + symmetry. apply Z.compare_lt_iff. apply same_year_month_order; [exact Y | lia].
    + symmetry. apply Z.compare_gt_iff. apply same_year_month_order; [now symmetry | lia].
  - symmetry. apply Z.compare_lt_iff.
    pose proof (DayFromYear_mono (YearFromDay a + 1) (YearFromDay b) ltac:(lia)). lia.
  - symmetry. apply Z.compare_gt_iff.
    pose proof (DayFromYear_mono (YearFromDay b + 1) (YearFromDay a) ltac:(lia)). lia.
Qed.

(** Date keys compare as strings the way their days compare. *)
Lemma compare_dateKey a b :
  fourDigitDay a -> fourDigitDay b ->
  String.compare (dateKey a) (dateKey b) = (a ?= b).
Proof.
  intros Ra Rb.
  pose proof (fourDigitDay_year a Ra). pose proof (fourDigitDay_year b Rb).
  pose proof (MonthFromDay_range a). pose proof (MonthFromDay_range b).
  pose proof (DateFromDay_range a). pose proof (DateFromDay_range b).
  rewrite <- fields_compare. unfold dateKey.
  rewrite compare_pad4 by lia.
  destruct (YearFromDay a ?= YearFromDay b); try reflexivity.
  cbn [append String.compare]. change (Ascii.compare "-" "-") with Eq. cbv iota.
  rewrite compare_pad2 by lia.
  destruct (MonthFromDay a + 1 ?= MonthFromDay b + 1); try reflexivity.
  cbn [append String.compare]. change (Ascii.compare "-" "-") with Eq. cbv iota.
  rewrite <- (append_nil_r (pad2 (DateFromDay a))).
  rewrite <- (append_nil_r (pad2 (DateFromDay b))).
  rewrite compare_pad2 by lia.
  destruct (DateFromDay a ?= DateFromDay b); reflexivity.
Qed.

Lemma leb_dateKey a b :
  fourDigitDay a -> fourDigitDay b -> String.leb (dateKey a) (dateKey b) = (a <=? b).
Proof.
  intros Ra Rb. unfold String.leb. rewrite compare_dateKey by assumption.
  unfold Z.leb. destruct (a ?= b); reflexivity.
Qed.

(** ** Zones *)

Lemma fixedZone_regular off :
  - (16 * msPerHour) <= off <= 16 * msPerHour -> regularZone (fixedZone off).
Proof.
  intros R. split; unfold LocalTime, UTC; cbn [LocalTZA fixedZone]; intros.
  - lia.
  - unfold msPerDay. lia.
  - replace (MakeDate n 0 - off + off) with (MakeDate n 0) by lia.
    apply Day_MakeDate. unfold msPerDay. lia.
  - match goal with |- Day (?a - off + off) = _ => replace (a - off + off) with a by lia end.
    apply Day_MakeDate. unfold MakeTime, msPerDay, msPerHour, msPerMinute, msPerSecond. lia.
Qed.

Lemma fixedZone_noonStable off : noonStable (fixedZone off).
Proof. intros n. unfold LocalTime, UTC. cbn [LocalTZA fixedZone]. lia. Qed.

Lemma Day_bounds t : Day t * msPerDay <= t < Day t * msPerDay + msPerDay.
Proof. unfold Day, msPerDay. div_lia. Qed.

Lemma dst_days y :
  DayFromYear y + 66 <= dstStartDay y <= DayFromYear y + 73
  /\ DayFromYear y + 304 <= dstEndDay y <= DayFromYear y + 311.
Proof.
  unfold dstStartDay, dstEndDay, nthSunday, WeekDayOfDay, MakeDay.
  replace (2 / 12) with 0 by reflexivity. replace (10 / 12) with 0 by reflexivity.
  replace (2 mod 12) with 2 by reflexivity. replace (10 mod 12) with 10 by reflexivity.
  rewrite Z.add_0_r.
  change (DaysBeforeMonth (InLeapYear y) 2) with (59 + if InLeapYear y then 1 else 0).
  change (DaysBeforeMonth (InLeapYear y) 10) with (304 + if InLeapYear y then 1 else 0).
  destruct (InLeapYear y); div_lia.
Qed.

Lemma eastern_offsets t b : easternTZA t b = EST \/ easternTZA t b = EDT.
Proof.
  unfold easternTZA.
  destruct b; match goal with |- context [if ?c then _ else _] => destruct c end; auto.
Qed.

(** A wall-clock reading of US Eastern time is read back unchanged,
    unless it lies in the hour from 2:00 to 3:00 that the spring
    transition skips. *)
Lemma eastern_roundtrip L :
  TimeWithinDay L < 2 * msPerHour \/ 3 * msPerHour <= TimeWithinDay L ->
  LocalTime usEastern (UTC usEastern L) = L.
Proof.
  intros NG.
  unfold LocalTime, UTC. cbn [LocalTZA usEastern].
  pose proof (Day_bounds L) as BL.
  assert (TW : TimeWithinDay L = L - Day L * msPerDay).
  { unfold TimeWithinDay, Day, msPerDay. div_lia. }
  rewrite TW in NG. clear TW.
  pose proof (YearFromDay_spec (Day L)) as YL.
  pose proof (DaysInYear_step (YearFromDay (Day L))) as S1.
  pose proof (DaysInYear_step (YearFromDay (Day L) + 1)) as S2.
  assert (D1 : 365 <= DaysInYear (YearFromDay (Day L)) <= 366)
    by (unfold DaysInYear; destruct InLeapYear; lia).
  assert (D2 : 365 <= DaysInYear (YearFromDay (Day L) + 1) <= 366)
    by (unfold DaysInYear; destruct InLeapYear; lia).
  pose proof (dst_days (YearFromDay (Day L))) as [SS EE].
  pose proof (dst_days (YearFromDay (Day L) + 1)) as [SS' EE'].
  set (y := YearFromDay (Day L)) in *.
  assert (OFF : easternTZA L false
                = if (dstStartDay y * msPerDay + 3 * msPerHour <=? L)
                     && (L <? dstEndDay y * msPerDay + 2 * msPerHour)
                  then EDT else EST) by reflexivity.
  rewrite OFF. clear OFF.
  set (s := dstStartDay y) in *. set (e := dstEndDay y) in *.
  unfold EST, EDT, msPerHour, msPerDay in *.
  destruct ((s * 86400000 + 3 * 3600000 <=? L) && (L <? e * 86400000 + 2 * 3600000)) eqn:C.
  - apply andb_true_iff in C. destruct C as [C1 C2].
    apply Z.leb_le in C1. apply Z.ltb_lt in C2.
    pose proof (Day_bounds (L - -4 * 3600000)) as BU. unfold msPerDay in BU.
    assert (YU : YearFromDay (Day (L - -4 * 3600000)) = y).
    { apply YearFromDay_unique. lia. }
    unfold easternTZA, YearFromTime. rewrite YU. fold s e.
    unfold EST, EDT, msPerHour, msPerDay.
    replace ((s * 86400000 + 7 * 3600000 <=? L - -4 * 3600000)
             && (L - -4 * 3600000 <? e * 86400000 + 6 * 3600000)) with true
      by (symmetry; rewrite andb_true_iff, Z.leb_le, Z.ltb_lt; lia).
    lia.
  - apply andb_false_iff in C.
    rewrite Z.leb_gt, Z.ltb_ge in C.
    pose proof (Day_bounds (L - -5 * 3600000)) as BU. unfold msPerDay in BU.
    destruct (Z_lt_ge_dec (Day (L - -5 * 3600000)) (DayFromYear (y + 1))) as [In | Out].
    + assert (YU : YearFromDay (Day (L - -5 * 3600000)) = y).
      { apply YearFromDay_unique. lia. }
      unfold easternTZA, YearFromTime. rewrite YU. fold s e.
      unfold EST, EDT, msPerHour, msPerDay.
      replace ((s * 86400000 + 7 * 3600000 <=? L - -5 * 3600000)
               && (L - -5 * 3600000 <? e * 86400000 + 6 * 3600000)) with false
        by (symmetry; rewrite andb_false_iff, Z.leb_gt, Z.ltb_ge; lia).
      lia.
    + assert (YU : YearFromDay (Day (L - -5 * 3600000)) = y + 1).
      { apply YearFromDay_unique. lia. }
      unfold easternTZA, YearFromTime. rewrite YU.
      unfold EST, EDT, msPerHour, msPerDay.
      replace ((dstStartDay (y + 1) * 86400000 + 7 * 3600000 <=? L - -5 * 3600000)
               && (L - -5 * 3600000 <? dstEndDay (y + 1) * 86400000 + 6 * 3600000))
        with false
        by (symmetry; rewrite andb_false_iff, Z.leb_gt, Z.ltb_ge; lia).
      lia.
Qed.

Lemma TimeWithinDay_MakeDate n r : 0 <= r < msPerDay -> TimeWithinDay (MakeDate n r) = r.
Proof. unfold TimeWithinDay, MakeDate, msPerDay. intros. div_lia. Qed.

Lemma usEastern_regular : regularZone usEastern.
Proof.
  split; intros.
  - cbn [LocalTZA usEastern].
    destruct (eastern_offsets t b) as [E | E]; rewrite E;
      unfold EST, EDT, msPerHour; lia.
  - cbn [LocalTZA usEastern].
    destruct (eastern_offsets s false) as [E | E]; rewrite E;
      destruct (eastern_offsets t false) as [E' | E']; rewrite E';
      unfold EST, EDT, msPerHour, msPerDay; lia.
  - rewrite eastern_roundtrip.
    + apply Day_MakeDate. unfold msPerDay. lia.
    + rewrite TimeWithinDay_MakeDate by (unfold msPerDay; lia).
      unfold msPerHour. lia.
  - rewrite eastern_roundtrip.
    + apply Day_MakeDate. unfold MakeTime, msPerDay, msPerHour, msPerMinute, msPerSecond. lia.
    + rewrite TimeWithinDay_MakeDate
        by (unfold MakeTime, msPerDay, msPerHour, msPerMinute, msPerSecond; lia).
      unfold MakeTime, msPerHour, msPerMinute, msPerSecond. lia.
Qed.

Lemma usEastern_noonStable : noonStable usEastern.
Proof.
  intros n. apply eastern_roundtrip.
  rewrite TimeWithinDay_MakeDate
    by (unfold MakeTime, msPerDay, msPerHour, msPerMinute, msPerSecond; lia).
  unfold MakeTime, msPerHour, msPerMinute, msPerSecond. lia.
Qed.

(** ** The client filter in a regular zone *)

Lemma plainDay_fourDigit n : plainDay n -> fourDigitDay n.
Proof.
  unfold plainDay, fourDigitDay. intros [L U]. split; [| exact U].
  pose proof (DayFromYear_mono 0 100 ltac:(lia)). lia.
Qed.

Lemma fourDigitDay_bounds n : fourDigitDay n -> -719528 <= n < 2932897.
Proof.
  unfold fourDigitDay. change (DayFromYear 0) with (-719528).
  change (DayFromYear 10000) with 2932897. lia.
Qed.

Section RegularZone.

Variable tz : TimeZone.
Hypothesis regular : regularZone tz.
Context {A : Type}.

Lemma TimeClip_day n r :
  fourDigitDay n -> 0 <= r < msPerDay ->
  TimeClip (UTC tz (MakeDate n r)) = Some (UTC tz (MakeDate n r)).
Proof.
  intros P R. apply fourDigitDay_bounds in P.
  pose proof (zone_bound tz regular (MakeDate n r) false) as B.
  unfold TimeClip, UTC, MakeDate, msPerDay, msPerHour in *.
  replace (Z.abs _ <=? _) with true; [reflexivity |].
  symmetry. apply Z.leb_le. lia.
Qed.

(** Midnights come in the order of their days. *)
Lemma midnight_leb a b :
  (UTC tz (MakeDate a 0) <=? UTC tz (MakeDate b 0)) = (a <=? b).
Proof.
  pose proof (zone_spread tz regular (MakeDate a 0) (MakeDate b 0)) as S1.
  pose proof (zone_spread tz regular (MakeDate b 0) (MakeDate a 0)) as S2.
  destruct (Z.eq_dec a b) as [-> | NE].
  - rewrite !Z.leb_refl. reflexivity.
  - unfold UTC, MakeDate, msPerDay in *.
    destruct (Z.leb_spec a b); [apply Z.leb_le | apply Z.leb_gt]; lia.
Qed.

(** The date of a time, made a date again: its local midnight. *)
Lemma dateOnly_day t :
  plainDay (Day (LocalTime tz t)) ->
  App.dateOnly tz (Some t) = Some (UTC tz (MakeDate (Day (LocalTime tz t)) 0)).
Proof.
  intros P. unfold App.dateOnly, getFullYear, getMonth, getDate, ofFields.
  cbn [option_map]. unfold YearFromTime, MonthFromTime, DateFromTime.
  set (n := Day (LocalTime tz t)) in *.
  assert (Y : 100 <= YearFromDay n) by (apply YearFromDay_lower, P).
  replace ((0 <=? YearFromDay n) && (YearFromDay n <=? 99)) with false
    by (symmetry; apply andb_false_iff; right; apply Z.leb_gt; lia).
  rewrite MakeDay_fields. change (MakeTime 0 0 0 0) with 0.
  apply TimeClip_day; [now apply plainDay_fourDigit | unfold msPerDay; lia].
Qed.

Lemma ofString_dateKey n h mi sec :
  fourDigitDay n -> 0 <= h <= 23 -> 0 <= mi <= 59 -> 0 <= sec <= 59 ->
  ofString tz (dateKey n ++ "T" ++ pad2 h ++ ":" ++ pad2 mi ++ ":" ++ pad2 sec)
  = Some (UTC tz (MakeDate n (MakeTime h mi sec 0))).
Proof.
  intros P Hh Hm Hs. unfold ofString, parse.
  rewrite parseISO_dateKey by assumption.
  apply TimeClip_day; [exact P |].
  unfold MakeTime, msPerDay, msPerHour, msPerMinute, msPerSecond. lia.
Qed.

Lemma fromDateOnly_day n :
  plainDay n ->
  App.dateOnly tz (ofString tz (dateKey n ++ "T00:00:00"))
  = Some (UTC tz (MakeDate n 0)).
Proof.
  intros P.
  change "T00:00:00" with ("T" ++ pad2 0 ++ ":" ++ pad2 0 ++ ":" ++ pad2 0).
  rewrite ofString_dateKey by (auto using plainDay_fourDigit; lia).
  change (MakeTime 0 0 0 0) with 0.
  rewrite dateOnly_day; rewrite (zone_midnight tz regular); [reflexivity | exact P].
Qed.

Lemma toDateOnly_day n :
  plainDay n ->
  App.dateOnly tz (ofString tz (dateKey n ++ "T23:59:59"))
  = Some (UTC tz (MakeDate n 0)).
Proof.
  intros P.
  change "T23:59:59" with ("T" ++ pad2 23 ++ ":" ++ pad2 59 ++ ":" ++ pad2 59).
  rewrite ofString_dateKey by (auto using plainDay_fourDigit; lia).
  rewrite dateOnly_day; rewrite (zone_lastSecond tz regular); [reflexivity | exact P].
Qed.

(** In a regular zone the client filter keeps a payment when the
    calendar day of its time, read in the zone of the browser, lies
    between the two date keys, and the search and the method agree. *)
Lemma client_keeps_days search method from to (p : Payment A) t :
  plainDay from -> plainDay to ->
  ofString tz (timestamp p) = Some t ->
  plainDay (Day (LocalTime tz t)) ->
  let f := mkFilter search (dateKey from) (dateKey to) method in
  App.keeps tz f p
  = (from <=? Day (LocalTime tz t)) && (Day (LocalTime tz t) <=? to)
    && searchAndMethod f p.
Proof.
  intros PF PT TS PP f. unfold App.keeps, searchAndMethod.
  cbn [dateFrom dateTo searchTerm paymentMethod f].
  rewrite (dateKey_nonempty from) by now apply plainDay_fourDigit.
  rewrite (dateKey_nonempty to) by now apply plainDay_fourDigit.
  cbn [orb option_map]. rewrite TS.
  rewrite fromDateOnly_day, toDateOnly_day, dateOnly_day by assumption.
  cbn [ge le]. rewrite !midnight_leb.
  destruct (from <=? Day (LocalTime tz t)); destruct (Day (LocalTime tz t) <=? to);
    reflexivity.
Qed.

(** With dateFrom after dateTo no payment passes, whatever its time. *)
Lemma inverted_range_drops search method from to (p : Payment A) :
  plainDay from -> plainDay to -> to < from ->
  App.keeps tz (mkFilter search (dateKey from) (dateKey to) method) p = false.
Proof.
  intros PF PT Inv. unfold App.keeps.
  cbn [dateFrom dateTo searchTerm paymentMethod].
  rewrite (dateKey_nonempty from) by now apply plainDay_fourDigit.
  rewrite (dateKey_nonempty to) by now apply plainDay_fourDigit.
  cbn [orb option_map].
  rewrite fromDateOnly_day, toDateOnly_day by assumption.
  pose proof (midnight_leb from to) as M.
  replace (from <=? to) with false in M by (symmetry; apply Z.leb_gt; lia).
  apply Z.leb_gt in M.
  destruct (App.dateOnly tz (ofString tz (timestamp p))) as [x |]; cbn [ge le];
    [| reflexivity].
  destruct (Z.leb_spec (UTC tz (MakeDate from 0)) x);
    destruct (Z.leb_spec x (UTC tz (MakeDate to 0))); try reflexivity; lia.
Qed.

Lemma inverted_range_empty search method from to (payments : list (Payment A)) :
  plainDay from -> plainDay to -> to < from ->
  App.filteredPayments tz (mkFilter search (dateKey from) (dateKey to) method) payments
  = [].
Proof.
  intros PF PT Inv. unfold App.filteredPayments.
  induction payments as [| p l IH]; cbn [filter]; [reflexivity |].
  now rewrite inverted_range_drops by assumption.
Qed.

(** X8. In a regular zone, for date keys of the years 100 to 9999 with
    dateFrom after dateTo, the client filter keeps no payment, whatever
    the payments, the search text and the method: nothing is left to
    count, and every total of the Summary is zero. *)
Lemma inverted_range_summary `{Num A} search method from to
  (payments : list (Payment A)) :
  plainDay from -> plainDay to -> to < from ->
  let visible :=
    App.filteredPayments tz (mkFilter search (dateKey from) (dateKey to) method)
      payments in
  List.length visible = 0%nat
  /\ SummaryCards.summary visible = mkSummary zero zero zero zero zero.
Proof.
  intros PF PT Inv visible. subst visible.
  rewrite inverted_range_empty by assumption. split; reflexivity.
Qed.

End RegularZone.

(** ** Dashboard and report on the same criteria *)

(** The edge function's date string is the date key of the Eastern
    calendar day. *)
Lemma getETDateString_day (TIMEZONE local : TimeZone) ts t :
  ofString local ts = Some t ->
  modernDay (Day (LocalTime TIMEZONE t)) ->
  Report.getETDateString TIMEZONE local ts = dateKey (Day (LocalTime TIMEZONE t)).
Proof.
  intros TS M. unfold Report.getETDateString. rewrite TS.
  unfold localeDate2, YearFromTime, MonthFromTime, DateFromTime.
  set (n := Day (LocalTime TIMEZONE t)) in *.
  assert (Y : 1000 <= YearFromDay n <= 9999).
  { destruct M as [L U]. pose proof (YearFromDay_lower n 1000 L).
    pose proof (YearFromDay_upper n 10000 U). lia. }
  pose proof (MonthFromDay_range n) as Mo. pose proof (DateFromDay_range n) as Da.
  rewrite decimal_pad4 by exact Y.
  set (mm := pad2 (MonthFromDay n + 1)). set (dd := pad2 (DateFromDay n)).
  set (yyyy := pad4 (YearFromDay n)).
  assert (Dm : allDigits mm = true) by (apply pad2_allDigits; lia).
  assert (Dd : allDigits dd = true) by (apply pad2_allDigits; lia).
  assert (Dy : allDigits yyyy = true) by (apply pad4_allDigits; lia).
  assert (C : lacks "," (mm ++ "/" ++ dd ++ "/" ++ yyyy) = true).
  { rewrite !lacks_app.
    rewrite (allDigits_lacks "," mm), (allDigits_lacks "," dd),
      (allDigits_lacks "," yyyy) by (reflexivity || assumption).
    reflexivity. }
  assert (S1 : split ", " (mm ++ "/" ++ dd ++ "/" ++ yyyy)
               = [mm ++ "/" ++ dd ++ "/" ++ yyyy]).
  { unfold split. now rewrite (splitAux_lacks "," " " _ [] C). }
  assert (S2 : split "/" (mm ++ "/" ++ dd ++ "/" ++ yyyy) = [mm; dd; yyyy]).
  { unfold split.
    change (mm ++ "/" ++ dd ++ "/" ++ yyyy)
      with (mm ++ String "/" (dd ++ String "/" yyyy)).
    rewrite (splitAux_piece "/" mm _ []) by now apply allDigits_lacks.
    rewrite (splitAux_piece "/" dd _ []) by now apply allDigits_lacks.
    rewrite (splitAux_lacks "/" "" yyyy []) by now apply allDigits_lacks.
    reflexivity. }
  rewrite S1. cbn [item nth_error interp]. rewrite S2.
  cbn [item nth_error interp]. reflexivity.
Qed.

Lemma includes_nothing s : includes s "" = true.
Proof. destruct s; reflexivity. Qed.

(** In a browser on US Eastern time, for date keys and payments of the
    years 1000 to 9999, the filter of the report and the filter of the
    dashboard (empty search text) keep the same payments. *)
Lemma filters_agree_on_eastern {A : Type} (server : TimeZone) from to method
  (p : Payment A) t :
  modernDay from -> modernDay to ->
  ofString usEastern (timestamp p) = Some t ->
  ofString server (timestamp p) = Some t ->
  modernDay (Day (LocalTime usEastern t)) ->
  Report.keeps usEastern server (dateKey from) (dateKey to) method p
  = App.keeps usEastern (mkFilter "" (dateKey from) (dateKey to) method) p.
Proof.
  intros Mf Mt Tb Ts Mp.
  rewrite (client_keeps_days usEastern usEastern_regular "" method from to p t)
    by auto using modernDay_plain.
  unfold Report.keeps, searchAndMethod. cbn [searchTerm paymentMethod].
  rewrite (getETDateString_day usEastern server _ t Ts Mp).
  rewrite !leb_dateKey by auto using plainDay_fourDigit, modernDay_plain.
  change (toLowerCase "") with "". rewrite includes_nothing. reflexivity.
Qed.

Lemma filtered_agree_on_eastern {A : Type} (server : TimeZone) from to method
  (payments : list (Payment A)) :
  modernDay from -> modernDay to ->
  Forall (fun p => exists t,
            ofString usEastern (timestamp p) = Some t
            /\ ofString server (timestamp p) = Some t
            /\ modernDay (Day (LocalTime usEastern t))) payments ->
  Report.filteredPayments usEastern server (dateKey from) (dateKey to) method payments
  = App.filteredPayments usEastern (mkFilter "" (dateKey from) (dateKey to) method)
      payments.
Proof.
  intros Mf Mt All. unfold Report.filteredPayments, App.filteredPayments.
  induction All as [| p l (t & Tb & Ts & Mp) _ IH]; cbn [filter]; [reflexivity |].
  rewrite IH, (filters_agree_on_eastern server from to method p t) by assumption.
  reflexivity.
Qed.

(** C1, at the failing input. For the criteria 2025-10-19 to 2025-10-19, all
    methods, no search text, the report keeps the payment made at
    05:30 UTC on that day, because its Eastern date is the 19th; the
    dashboard of a viewer in Arizona drops it, because the filter of
    the client takes the date in the zone of the browser; the dashboard
    of a viewer on Eastern time keeps it. *)
Theorem report_and_dashboard_differ :
  Report.filteredPayments usEastern utcZone "2025-10-19" "2025-10-19" "" [earlyPayment]
  = [earlyPayment]
  /\ App.filteredPayments phoenixTime
       (mkFilter "" "2025-10-19" "2025-10-19" "") [earlyPayment] = []
  /\ App.filteredPayments usEastern
       (mkFilter "" "2025-10-19" "2025-10-19" "") [earlyPayment] = [earlyPayment].
Proof. vm_compute. repeat split. Qed.

(** ** The date boundary *)

(** C2, counterexample. The payment made at 23:30 UTC on 2025-10-19 is dropped
    by the client filter for the 18th and kept for the 19th, in a
    browser on Eastern time and in a browser on UTC alike; so is it by
    the filter of the report. *)
Lemma late_evening_is_same_day :
  App.keeps usEastern (mkFilter "" "2025-10-18" "2025-10-18" "") lateEveningPayment = false
  /\ App.keeps usEastern (mkFilter "" "2025-10-19" "2025-10-19" "") lateEveningPayment = true
  /\ App.keeps utcZone (mkFilter "" "2025-10-18" "2025-10-18" "") lateEveningPayment = false
  /\ App.keeps utcZone (mkFilter "" "2025-10-19" "2025-10-19" "") lateEveningPayment = true
  /\ Report.keeps usEastern utcZone "2025-10-18" "2025-10-18" "" lateEveningPayment = false
  /\ Report.keeps usEastern utcZone "2025-10-19" "2025-10-19" "" lateEveningPayment = true.
Proof. vm_compute. repeat split. Qed.

Lemma eastern_day_late_evening D :
  Day (LocalTime usEastern (MakeDate D lateEvening)) = D.
Proof.
  unfold LocalTime. cbn [LocalTZA usEastern].
  destruct (eastern_offsets (MakeDate D lateEvening) true) as [E | E]; rewrite E;
    unfold Day, MakeDate, lateEvening, MakeTime, EST, EDT,
      msPerDay, msPerHour, msPerMinute, msPerSecond; div_lia.
Qed.

Lemma eastern_day_small_hours D :
  Day (LocalTime usEastern (MakeDate D smallHours)) = D - 1.
Proof.
  unfold LocalTime. cbn [LocalTZA usEastern].
  destruct (eastern_offsets (MakeDate D smallHours) true) as [E | E]; rewrite E;
    unfold Day, MakeDate, smallHours, MakeTime, EST, EDT,
      msPerDay, msPerHour, msPerMinute, msPerSecond; div_lia.
Qed.

(** C2, as amended. In a browser on US Eastern time, for every day D of the
    years 100 to 9999 (the day before included): a payment made at
    23:30 UTC on D is on the Eastern calendar day D, so the client
    filter with dateFrom = dateTo = D keeps it (search text and method
    agreeing) and with dateFrom = dateTo = D-1 drops it; a payment made
    at 03:30 UTC on D is on the Eastern day D-1, kept for D-1 and
    dropped for D. *)
Theorem client_boundary_eastern {A : Type} (D : Z) (search method : string)
  (p q : Payment A) :
  plainDay (D - 1) -> plainDay D ->
  ofString usEastern (timestamp p) = Some (MakeDate D lateEvening) ->
  ofString usEastern (timestamp q) = Some (MakeDate D smallHours) ->
  searchAndMethod (mkFilter search "" "" method) p = true ->
  searchAndMethod (mkFilter search "" "" method) q = true ->
  (App.keeps usEastern (mkFilter search (dateKey D) (dateKey D) method) p = true
   /\ App.keeps usEastern (mkFilter search (dateKey (D - 1)) (dateKey (D - 1)) method) p
      = false)
  /\ (App.keeps usEastern (mkFilter search (dateKey (D - 1)) (dateKey (D - 1)) method) q
      = true
      /\ App.keeps usEastern (mkFilter search (dateKey D) (dateKey D) method) q = false).
Proof.
  intros P1 P0 Tp Tq Sp Sq.
  pose proof (eastern_day_late_evening D) as Ep.
  pose proof (eastern_day_small_hours D) as Eq.
  repeat split.
  - rewrite (client_keeps_days usEastern usEastern_regular search method D D p _ P0 P0 Tp)
      by (rewrite Ep; exact P0).
    rewrite Ep, Z.leb_refl. exact Sp.
  - rewrite (client_keeps_days usEastern usEastern_regular search method
               (D - 1) (D - 1) p _ P1 P1 Tp) by (rewrite Ep; exact P0).
    rewrite Ep. replace (D <=? D - 1) with false by (symmetry; apply Z.leb_gt; lia).
    now rewrite andb_false_r.
  - rewrite (client_keeps_days usEastern usEastern_regular search method
               (D - 1) (D - 1) q _ P1 P1 Tq) by (rewrite Eq; exact P1).
    rewrite Eq, Z.leb_refl. exact Sq.
  - rewrite (client_keeps_days usEastern usEastern_regular search method D D q _ P0 P0 Tq)
      by (rewrite Eq; exact P1).
    rewrite Eq. replace (D <=? D - 1) with false by (symmetry; apply Z.leb_gt; lia).
    reflexivity.
Qed.

Lemma client_boundary_eastern_witness :
  dateKey 20380 = "2025-10-19" /\ dateKey (20380 - 1) = "2025-10-18"
  /\ (App.keeps usEastern (mkFilter "bo" "2025-10-19" "2025-10-19" "Zelle")
        lateEveningPayment = true
      /\ App.keeps usEastern (mkFilter "bo" "2025-10-18" "2025-10-18" "Zelle")
           lateEveningPayment = false)
  /\ (App.keeps usEastern (mkFilter "bo" "2025-10-18" "2025-10-18" "Zelle")
        smallHoursPayment = true
      /\ App.keeps usEastern (mkFilter "bo" "2025-10-19" "2025-10-19" "Zelle")
           smallHoursPayment = false).
Proof.
  split; [reflexivity | split; [reflexivity |]].
  apply (client_boundary_eastern 20380 "bo" "Zelle" lateEveningPayment smallHoursPayment).
  - unfold plainDay. vm_compute. split; [discriminate | reflexivity].
  - unfold plainDay. vm_compute. split; [discriminate | reflexivity].
  - vm_compute. reflexivity.
  - vm_compute. reflexivity.
  - vm_compute. reflexivity.
  - vm_compute. reflexivity.
Defined.

(** ** Form values and stored times *)

(** A time is made of its day and the four fields of its time of day. *)
Lemma time_fields t :
  MakeDate (Day t) (MakeTime (HourFromTime t) (MinFromTime t) (SecFromTime t)
                             (msFromTime t)) = t.
Proof.
  unfold MakeDate, MakeTime, Day, HourFromTime, MinFromTime, SecFromTime, msFromTime,
    msPerDay, msPerHour, msPerMinute, msPerSecond.
  div_lia.
Qed.

Lemma time_fields_range t :
  0 <= HourFromTime t <= 23 /\ 0 <= MinFromTime t <= 59 /\ 0 <= SecFromTime t <= 59.
Proof. unfold HourFromTime, MinFromTime, SecFromTime. div_lia. Qed.

Lemma readMore_stops acc s : stops s = true -> readMore acc s = (acc, s).
Proof.
  destruct s as [| c s]; [reflexivity |]. cbn [stops readMore]. unfold digitValue.
  intros N. apply negb_true_iff in N. now rewrite N.
Qed.

(** A numeral of up to four digits is read back whole. *)
Lemma readNumber_decimal n rest :
  0 <= n <= 9999 -> stops rest = true -> readNumber (decimal n ++ rest) = Some (n, rest).
Proof.
  intros R S.
  destruct (Z.lt_ge_cases n 10); [| destruct (Z.lt_ge_cases n 100);
                                     [| destruct (Z.lt_ge_cases n 1000)]].
  - rewrite decimal_1 by lia. cbn [append readNumber readMore].
    rewrite digitValue_digitChar by lia. now rewrite readMore_stops.
  - rewrite decimal_2 by lia. cbn [append readNumber readMore].
    rewrite !digitValue_digitChar by div_lia. rewrite readMore_stops by exact S.
    do 2 f_equal. div_lia.
  - rewrite decimal_3 by lia. cbn [append readNumber readMore].
    rewrite !digitValue_digitChar by div_lia. rewrite readMore_stops by exact S.
    do 2 f_equal. div_lia.
  - rewrite decimal_4 by lia. cbn [append readNumber readMore].
    rewrite !digitValue_digitChar by div_lia. rewrite readMore_stops by exact S.
    do 2 f_equal. div_lia.
Qed.

(** The default rendering of a time in UTC, read back as local time:
    the same wall-clock reading, less the milliseconds. *)
Lemma parseLocale_default tz e :
  plainDay (Day e) ->
  parseLocale tz (localeDefault utcZone (Some e))
  = Some (UTC tz (e - msFromTime e)).
Proof.
  intros P. assert (R : fourDigitDay (Day e)) by now apply plainDay_fourDigit.
  pose proof (fourDigitDay_year _ R) as Y.
  assert (Y100 : 100 <= YearFromDay (Day e)) by (apply YearFromDay_lower, P).
  pose proof (MonthFromDay_range (Day e)) as Mo.
  pose proof (DateFromDay_range (Day e)) as Da.
  pose proof (DateFromDay_in_month (Day e)) as Dm.
  pose proof (time_fields_range e) as (Hh & Hm & Hs).
  unfold localeDefault, LocalTime. cbn [LocalTZA utcZone fixedZone].
  rewrite Z.add_0_r. unfold YearFromTime, MonthFromTime, DateFromTime.
  set (h := HourFromTime e) in *.
  set (h12 := if h mod 12 =? 0 then 12 else h mod 12).
  assert (H12 : 1 <= h12 <= 12).
  { unfold h12. destruct (Z.eqb_spec (h mod 12) 0); div_lia. }
  set (suffix := if h <? 12 then " AM" else " PM").
  unfold parseLocale.
  rewrite readNumber_decimal by (reflexivity || lia).
  cbn [expect append Ascii.eqb Bool.eqb].
  rewrite readNumber_decimal by (reflexivity || lia).
  cbn [expect append Ascii.eqb Bool.eqb].
  rewrite readNumber_decimal by (reflexivity || lia).
  cbn [expect append Ascii.eqb Bool.eqb].
  rewrite readNumber_decimal by (reflexivity || lia).
  cbn [expect append Ascii.eqb Bool.eqb].
  rewrite readDigits_pad2 by lia. cbn [expect append Ascii.eqb Bool.eqb].
  rewrite readDigits_pad2 by lia.
  replace (MonthFromDay (Day e) + 1 - 1) with (MonthFromDay (Day e)) by lia.
  replace (YearFromDay (Day e) <=? 49) with false by (symmetry; apply Z.leb_gt; lia).
  replace (YearFromDay (Day e) <=? 99) with false by (symmetry; apply Z.leb_gt; lia).
  rewrite MakeDay_fields.
  assert (PM : (if String.eqb suffix " AM" then Some false
                else if String.eqb suffix " PM" then Some true else None)
               = Some (negb (h <? 12))).
  { unfold suffix. destruct (h <? 12); reflexivity. }
  rewrite PM.
  replace ((1 <=? MonthFromDay (Day e) + 1) && (MonthFromDay (Day e) + 1 <=? 12)
           && (1 <=? DateFromDay (Day e))
           && (DateFromDay (Day e) <=? 31)
           && (1 <=? h12) && (h12 <=? 12) && (MinFromTime e <=? 59)
           && (SecFromTime e <=? 59)) with true
    by (symmetry; rewrite !andb_true_iff, !Z.leb_le; lia).
  do 2 f_equal.
  assert (H24 : h12 mod 12 + (if negb (h <? 12) then 12 else 0) = h).
  { unfold h12. destruct (Z.eqb_spec (h mod 12) 0); destruct (Z.ltb_spec h 12);
      cbn [negb]; div_lia. }
  rewrite H24. pose proof (time_fields e) as F. fold h in F.
  unfold MakeDate, MakeTime in *. lia.
Qed.

Lemma parseISO_locale_none tz e :
  fourDigitDay (Day e) -> 1000 <= YearFromDay (Day e) ->
  parseISO tz (localeDefault utcZone (Some e)) = None.
Proof.
  intros R Y.
  pose proof (MonthFromDay_range (Day e)) as Mo.
  unfold localeDefault, LocalTime. cbn [LocalTZA utcZone fixedZone].
  rewrite Z.add_0_r. unfold MonthFromTime.
  unfold parseISO.
  destruct (Z.lt_ge_cases (MonthFromDay (Day e) + 1) 10).
  - rewrite decimal_1 by lia. cbn [append readDigits].
    rewrite digitValue_digitChar by lia. reflexivity.
  - rewrite decimal_2 by lia. cbn [append readDigits].
    rewrite !digitValue_digitChar by div_lia. reflexivity.
Qed.

(** A form value, date key and minutes, read as local time. *)
Lemma ofString_form tz n h mi :
  regularZone tz -> fourDigitDay n -> 0 <= h <= 23 -> 0 <= mi <= 59 ->
  ofString tz (dateKey n ++ "T" ++ pad2 h ++ ":" ++ pad2 mi)
  = Some (UTC tz (MakeDate n (MakeTime h mi 0 0))).
Proof.
  intros Reg R Hh Hm.
  pose proof (fourDigitDay_year n R) as Y.
  pose proof (MonthFromDay_range n) as Mo.
  pose proof (DateFromDay_range n) as Da.
  pose proof (DateFromDay_in_month n) as Dm.
  unfold ofString, parse, parseISO, dateKey.
  rewrite !append_assoc.
  rewrite readDigits_pad4 by lia. cbn [expect append Ascii.eqb Bool.eqb].
  rewrite readDigits_pad2 by lia. cbn [expect append Ascii.eqb Bool.eqb].
  rewrite readDigits_pad2 by lia.
  replace (MonthFromDay n + 1 - 1) with (MonthFromDay n) by lia.
  rewrite MakeDay_fields.
  replace ((1 <=? MonthFromDay n + 1) && (MonthFromDay n + 1 <=? 12)
           && (1 <=? DateFromDay n)
           && (DateFromDay n <=? 31))
    with true
    by (symmetry; rewrite !andb_true_iff, !Z.leb_le; lia).
  cbn [expect append Ascii.eqb Bool.eqb].
  rewrite readDigits_pad2 by lia. cbn [expect append Ascii.eqb Bool.eqb].
  rewrite <- (append_nil_r (pad2 mi)).
  rewrite readDigits_pad2 by lia.
  cbn [readSeconds expect readOffset].
  replace ((h <=? 23) && (mi <=? 59) && (0 <=? 59)) with true
    by (symmetry; rewrite !andb_true_iff, !Z.leb_le; lia).
  cbn [orb].
  apply (TimeClip_day tz Reg); [exact R |].
  unfold MakeTime, msPerDay, msPerHour, msPerMinute, msPerSecond. lia.
Qed.

(** In a zone of constant offset, a whole number of seconds from UTC,
    [convertLocalDateTimeToUTC] returns the form value as if it had
    been a UTC time: the offset it adds back is the offset of the
    browser, which reading the value as local time had taken off. *)
Lemma convert_reads_as_utc off n h mi :
  - (16 * msPerHour) <= off <= 16 * msPerHour -> off mod msPerSecond = 0 ->
  modernDay (n - 1) -> modernDay (n + 1) -> 0 <= h <= 23 -> 0 <= mi <= 59 ->
  Timezone.convertLocalDateTimeToUTC (fixedZone off)
    (dateKey n ++ "T" ++ pad2 h ++ ":" ++ pad2 mi)
  = toISOString (Some (MakeDate n (MakeTime h mi 0 0))).
Proof.
  intros B Sec M1 M2 Hh Hm.
  assert (Reg : regularZone (fixedZone off)) by now apply fixedZone_regular.
  assert (R : fourDigitDay n).
  { apply plainDay_fourDigit, modernDay_plain.
    unfold modernDay in *. lia. }
  unfold Timezone.convertLocalDateTimeToUTC.
  rewrite ofString_form by assumption.
  set (w := MakeDate n (MakeTime h mi 0 0)).
  unfold UTC at 1 2 3. cbn [LocalTZA fixedZone].
  assert (W : n * msPerDay <= w < n * msPerDay + msPerDay).
  { unfold w, MakeDate, MakeTime, msPerDay, msPerHour, msPerMinute, msPerSecond. lia. }
  assert (De : n - 1 <= Day (w - off) <= n + 1).
  { pose proof (Day_bounds (w - off)). unfold msPerDay, msPerHour in *. lia. }
  assert (Me : modernDay (Day (w - off))) by (unfold modernDay in *; lia).
  assert (Ms : msFromTime (w - off) = 0).
  { unfold msFromTime, w, MakeDate, MakeTime, msPerDay, msPerHour, msPerMinute,
      msPerSecond in *. div_lia. }
  unfold ofString at 1, parse.
  rewrite parseISO_locale_none.
  2: now apply plainDay_fourDigit, modernDay_plain.
  2: { destruct Me as [L _]. now apply YearFromDay_lower. }
  rewrite parseLocale_default by now apply modernDay_plain.
  rewrite Ms, Z.sub_0_r. unfold UTC. cbn [LocalTZA fixedZone].
  apply fourDigitDay_bounds in R.
  assert (C1 : TimeClip (w - off - off) = Some (w - off - off)).
  { unfold TimeClip. replace (Z.abs _ <=? _) with true; [reflexivity |].
    symmetry. apply Z.leb_le. unfold msPerDay, msPerHour in *. lia. }
  rewrite C1. unfold getTime, Timezone.numSub, Timezone.numAdd, ofTime.
  replace (w - off + (w - off - (w - off - off))) with w by lia.
  assert (C2 : TimeClip w = Some w).
  { unfold TimeClip. replace (Z.abs _ <=? _) with true; [reflexivity |].
    symmetry. apply Z.leb_le. unfold msPerDay in *. lia. }
  now rewrite C2.
Qed.

(** The separator of date and time cuts once. *)
Lemma split_comma_space s r :
  lacks "," s = true -> lacks "," r = true -> split ", " (s ++ ", " ++ r) = [s; r].
Proof.
  intros Ls Lr. unfold split.
  assert (G : forall cur, splitAux ", " 0 cur (s ++ ", " ++ r) = [revString s cur; r]).
  { induction s as [| c s IH]; intros cur.
    - cbn [append splitAux prefix]. destruct (ascii_dec "," ","); [| congruence].
      destruct (ascii_dec " " " "); [| congruence]. rewrite prefix_nil.
      cbn [String.length Nat.sub splitAux].
      rewrite (splitAux_lacks "," " " r [] Lr). reflexivity.
    - unfold lacks in Ls. cbn [list_ascii_of_string forallb] in Ls.
      apply andb_true_iff in Ls. destruct Ls as [Lc Ls].
      cbn [append splitAux prefix].
      destruct (ascii_dec "," c) as [<- | _]; [discriminate |].
      rewrite (IH Ls). reflexivity. }
  apply G.
Qed.

Lemma padStart_pad2 n : 0 <= n <= 99 -> padStart (pad2 n) 2 "0" = pad2 n.
Proof. intros R. rewrite pad2_digits by exact R. reflexivity. Qed.

(** The value put in the form: the wall-clock reading of the time in
    the zone of the program, to the minute. *)
Lemma form_value (TIMEZONE local : TimeZone) ds t :
  ofString local ds = Some t ->
  modernDay (Day (LocalTime TIMEZONE t)) ->
  Timezone.getDateTimeLocalValueInET TIMEZONE local ds
  = Some (dateKey (Day (LocalTime TIMEZONE t)) ++ "T"
          ++ pad2 (HourFromTime (LocalTime TIMEZONE t)) ++ ":"
          ++ pad2 (MinFromTime (LocalTime TIMEZONE t))).
Proof.
  intros TS M. unfold Timezone.getDateTimeLocalValueInET. rewrite TS.
  unfold localeDateTime2, localeDate2, YearFromTime, MonthFromTime, DateFromTime.
  set (lt := LocalTime TIMEZONE t) in *. set (n := Day lt) in *.
  assert (Y : 1000 <= YearFromDay n <= 9999).
  { destruct M as [L U]. pose proof (YearFromDay_lower n 1000 L).
    pose proof (YearFromDay_upper n 10000 U). lia. }
  pose proof (MonthFromDay_range n) as Mo. pose proof (DateFromDay_range n) as Da.
  pose proof (time_fields_range lt) as (Hh & Hm & _).
  rewrite decimal_pad4 by exact Y.
  set (mm := pad2 (MonthFromDay n + 1)). set (dd := pad2 (DateFromDay n)).
  set (yyyy := pad4 (YearFromDay n)).
  set (hh := pad2 (HourFromTime lt)). set (mi := pad2 (MinFromTime lt)).
  assert (Dm : allDigits mm = true) by (apply pad2_allDigits; lia).
  assert (Dd : allDigits dd = true) by (apply pad2_allDigits; lia).
  assert (Dy : allDigits yyyy = true) by (apply pad4_allDigits; lia).
  assert (Dh : allDigits hh = true) by (apply pad2_allDigits; lia).
  assert (Di : allDigits mi = true) by (apply pad2_allDigits; lia).
  assert (S1 : split ", " ((mm ++ "/" ++ dd ++ "/" ++ yyyy) ++ ", " ++ hh ++ ":" ++ mi)
               = [mm ++ "/" ++ dd ++ "/" ++ yyyy; hh ++ ":" ++ mi]).
  { apply split_comma_space.
    - rewrite !lacks_app.
      rewrite (allDigits_lacks "," mm), (allDigits_lacks "," dd),
        (allDigits_lacks "," yyyy) by (reflexivity || assumption).
      reflexivity.
    - rewrite !lacks_app.
      rewrite (allDigits_lacks "," hh), (allDigits_lacks "," mi)
        by (reflexivity || assumption).
      reflexivity. }
  assert (S2 : split "/" (mm ++ "/" ++ dd ++ "/" ++ yyyy) = [mm; dd; yyyy]).
  { unfold split.
    change (mm ++ "/" ++ dd ++ "/" ++ yyyy)
      with (mm ++ String "/" (dd ++ String "/" yyyy)).
    rewrite (splitAux_piece "/" mm _ []) by now apply allDigits_lacks.
    rewrite (splitAux_piece "/" dd _ []) by now apply allDigits_lacks.
    rewrite (splitAux_lacks "/" "" yyyy []) by now apply allDigits_lacks.
    reflexivity. }
  rewrite S1. cbn [item nth_error interp]. rewrite S2. cbn [item nth_error interp].
  unfold mm, dd. rewrite !padStart_pad2 by lia.
  unfold dateKey. fold n. now rewrite !append_assoc.
Qed.

(** X21. From a stored time to the form and back, in a browser of
    constant offset, the zone of the program being four to five hours
    behind UTC, as America/New_York is under each of its rules:
    [convertLocalDateTimeToUTC] applied to the value
    [getDateTimeLocalValueInET] puts in the form returns the
    wall-clock reading of the time in the zone of the program, cut to
    the minute and written as a UTC time, which is at least four hours
    before the time stored. *)
Lemma form_roundtrip_is_shift (TIMEZONE : TimeZone) off ds t :
  easternOffsets TIMEZONE ->
  - (16 * msPerHour) <= off <= 16 * msPerHour -> off mod msPerSecond = 0 ->
  ofString (fixedZone off) ds = Some t ->
  modernDay (Day (LocalTime TIMEZONE t) - 1) ->
  modernDay (Day (LocalTime TIMEZONE t) + 1) ->
  let back := LocalTime TIMEZONE t - LocalTime TIMEZONE t mod msPerMinute in
  (let* v := Timezone.getDateTimeLocalValueInET TIMEZONE (fixedZone off) ds in
   Timezone.convertLocalDateTimeToUTC (fixedZone off) v)
  = toISOString (Some back)
  /\ back <= t - 4 * msPerHour.
Proof.
  intros East B Sec TS M1 M2 back.
  assert (M : modernDay (Day (LocalTime TIMEZONE t))) by (unfold modernDay in *; lia).
  pose proof (time_fields_range (LocalTime TIMEZONE t)) as (Hh & Hm & _).
  split.
  - rewrite (form_value _ _ ds t TS M).
    rewrite convert_reads_as_utc by assumption.
    do 2 f_equal. subst back.
    pose proof (time_fields (LocalTime TIMEZONE t)) as F.
    unfold MakeDate, MakeTime, SecFromTime, msFromTime, msPerMinute, msPerSecond in *.
    div_lia.
  - subst back. pose proof (East t true) as O. unfold LocalTime.
    unfold msPerHour, msPerMinute in *. div_lia.
Qed.

(** C3, at the failing input. The time 2025-10-19T14:00:00.000Z shows in the
    form as 10:00 Eastern, and [convertLocalDateTimeToUTC] turns that
    value into 10:00 UTC, four hours before the time it came from; in
    winter the gap is five hours.  The zone of the browser does not
    matter: the function returns the form value read as if it were
    UTC. *)
Theorem form_roundtrip_shifts :
  Timezone.getDateTimeLocalValueInET usEastern usEastern "2025-10-19T14:00:00.000Z"
  = Some "2025-10-19T10:00"
  /\ Timezone.convertLocalDateTimeToUTC usEastern "2025-10-19T10:00"
     = Some "2025-10-19T10:00:00.000Z"
  /\ Timezone.convertLocalDateTimeToUTC utcZone "2025-10-19T10:00"
     = Some "2025-10-19T10:00:00.000Z"
  /\ Timezone.convertLocalDateTimeToUTC phoenixTime "2025-10-19T10:00"
     = Some "2025-10-19T10:00:00.000Z"
  /\ Timezone.getDateTimeLocalValueInET usEastern usEastern "2025-12-19T14:00:00.000Z"
     = Some "2025-12-19T09:00"
  /\ Timezone.convertLocalDateTimeToUTC usEastern "2025-12-19T09:00"
     = Some "2025-12-19T09:00:00.000Z".
Proof. vm_compute. repeat split. Qed.

(** ** The Summary invariant *)

Section Reducer.

Context {A : Type} `{Num A}.

Lemma reducer_fields (acc : Summary A) (p : Payment A) :
  let m := payment_method p in
  let r := SummaryCards.reducer acc p in
  cash r = (if String.eqb m "Cash" then plus (cash acc) p else cash acc)
  /\ zelle r = (if String.eqb m "Zelle" then plus (zelle acc) p else zelle acc)
  /\ check r = (if String.eqb m "Check" then plus (check acc) p else check acc)
  /\ bookerCC r = (if String.eqb m "Booker CC" then plus (bookerCC acc) p else bookerCC acc)
  /\ total r = plus (total acc) p.
Proof.
  unfold SummaryCards.reducer, plus. cbv zeta.
  destruct (String.eqb (payment_method p) "Cash") eqn:E1.
  { apply String.eqb_eq in E1. rewrite E1. cbn. repeat split. }
  destruct (String.eqb (payment_method p) "Zelle") eqn:E2.
  { apply String.eqb_eq in E2. rewrite E2. cbn. repeat split. }
  destruct (String.eqb (payment_method p) "Check") eqn:E3.
  { apply String.eqb_eq in E3. rewrite E3. cbn. repeat split. }
  destruct (String.eqb (payment_method p) "Booker CC") eqn:E4.
  { cbn. repeat split. }
  cbn. repeat split.
Qed.

End Reducer.

(** *** Sums in which no addition rounds *)

Section ValueFacts.

Context {A : Type} `{Num A}.
Variable value : A -> option Z.
Hypothesis value_zero : value zero = Some 0.

Lemma addsExactly_value x y a :
  value x = Some a -> addsExactly value x y = true ->
  value y = Some (worth value y) /\ value (add x y) = Some (a + worth value y).
Proof.
  unfold addsExactly, worth. intros X. rewrite X.
  destruct (value y) as [b |]; [| discriminate].
  destruct (value (add x y)) as [c |]; [| discriminate].
  intros E. apply Z.eqb_eq in E. now subst c.
Qed.

(** One step of the aggregation, without rounding. *)
Lemma reducer_values (acc : Summary A) (p : Payment A) c z k b t :
  value (cash acc) = Some c -> value (zelle acc) = Some z ->
  value (check acc) = Some k -> value (bookerCC acc) = Some b ->
  value (total acc) = Some t ->
  noRoundingFrom value acc [p] = true ->
  let m := payment_method p in
  let a := worth value (amount_paid p) in
  let r := SummaryCards.reducer acc p in
  value (cash r) = Some (c + if String.eqb m "Cash" then a else 0)
  /\ value (zelle r) = Some (z + if String.eqb m "Zelle" then a else 0)
  /\ value (check r) = Some (k + if String.eqb m "Check" then a else 0)
  /\ value (bookerCC r) = Some (b + if String.eqb m "Booker CC" then a else 0)
  /\ value (total r) = Some (t + a).
Proof.
  intros C Z K B T N. cbn [noRoundingFrom] in N. cbv zeta in N.
  rewrite andb_true_r in N. apply andb_true_iff in N. destruct N as [N1 N2].
  destruct (addsExactly_value _ _ _ T N1) as [_ Vt].
  destruct (reducer_fields acc p) as (C' & Z' & K' & B' & T').
  cbv zeta in *. rewrite C', Z', K', B', T'. unfold plus. clear C' Z' K' B' T'.
  destruct (String.eqb_spec (payment_method p) "Cash") as [E | _].
  { rewrite E. cbn [String.eqb Ascii.eqb Bool.eqb].
    destruct (addsExactly_value _ _ _ C N2) as [_ V].
    rewrite !Z.add_0_r. repeat split; assumption. }
  destruct (String.eqb_spec (payment_method p) "Zelle") as [E | _].
  { rewrite E. cbn [String.eqb Ascii.eqb Bool.eqb].
    destruct (addsExactly_value _ _ _ Z N2) as [_ V].
    rewrite !Z.add_0_r. repeat split; assumption. }
  destruct (String.eqb_spec (payment_method p) "Check") as [E | _].
  { rewrite E. cbn [String.eqb Ascii.eqb Bool.eqb].
    destruct (addsExactly_value _ _ _ K N2) as [_ V].
    rewrite !Z.add_0_r. repeat split; assumption. }
  destruct (String.eqb_spec (payment_method p) "Booker CC") as [E | _].
  { destruct (addsExactly_value _ _ _ B N2) as [_ V].
    rewrite !Z.add_0_r. repeat split; assumption. }
  rewrite !Z.add_0_r. repeat split; assumption.
Qed.

Lemma amounts_ofMethod m (p : Payment A) (l : list (Payment A)) :
  amounts value (ofMethod m (p :: l))
  = (if String.eqb (payment_method p) m then worth value (amount_paid p) else 0)
    + amounts value (ofMethod m l).
Proof.
  unfold ofMethod. cbn [filter].
  destruct (String.eqb (payment_method p) m); reflexivity.
Qed.

(** Without rounding every field stands for what it stood for plus
    the amounts that went into it. *)
Lemma noRounding_values (l : list (Payment A)) : forall (acc : Summary A) c z k b t,
  value (cash acc) = Some c -> value (zelle acc) = Some z ->
  value (check acc) = Some k -> value (bookerCC acc) = Some b ->
  value (total acc) = Some t ->
  noRoundingFrom value acc l = true ->
  let r := fold_left SummaryCards.reducer l acc in
  value (cash r) = Some (c + amounts value (ofMethod "Cash" l))
  /\ value (zelle r) = Some (z + amounts value (ofMethod "Zelle" l))
  /\ value (check r) = Some (k + amounts value (ofMethod "Check" l))
  /\ value (bookerCC r) = Some (b + amounts value (ofMethod "Booker CC" l))
  /\ value (total r) = Some (t + amounts value l).
Proof.
  induction l as [| p l IH]; intros acc c z k b t C Z K B T N; cbv zeta.
  - cbn. rewrite !Z.add_0_r. repeat split; assumption.
  - assert (N1 : noRoundingFrom value acc [p] = true).
    { cbn [noRoundingFrom] in *. cbv zeta in *. rewrite andb_true_r.
      apply andb_true_iff in N. tauto. }
    assert (N2 : noRoundingFrom value (SummaryCards.reducer acc p) l = true).
    { cbn [noRoundingFrom] in N. apply andb_true_iff in N. tauto. }
    destruct (reducer_values acc p c z k b t C Z K B T N1) as (C' & Z' & K' & B' & T').
    cbv zeta in *.
    destruct (IH _ _ _ _ _ _ C' Z' K' B' T' N2) as (C2 & Z2 & K2 & B2 & T2).
    cbn [fold_left]. rewrite C2, Z2, K2, B2, T2, !amounts_ofMethod.
    change (amounts value (p :: l)) with (worth value (amount_paid p) + amounts value l).
    repeat split; f_equal; ring.
Qed.

Lemma summary_values (l : list (Payment A)) :
  noRounding value l = true ->
  let s := SummaryCards.summary l in
  value (cash s) = Some (amounts value (ofMethod "Cash" l))
  /\ value (zelle s) = Some (amounts value (ofMethod "Zelle" l))
  /\ value (check s) = Some (amounts value (ofMethod "Check" l))
  /\ value (bookerCC s) = Some (amounts value (ofMethod "Booker CC" l))
  /\ value (total s) = Some (amounts value l).
Proof.
  intros N.
  exact (noRounding_values l (mkSummary zero zero zero zero zero) 0 0 0 0 0
           value_zero value_zero value_zero value_zero value_zero N).
Qed.

(** Every payment is of one of the four methods or of none of them. *)
Lemma amounts_by_method (l : list (Payment A)) :
  amounts value l
  = amounts value (ofMethod "Cash" l) + amounts value (ofMethod "Zelle" l)
    + amounts value (ofMethod "Check" l) + amounts value (ofMethod "Booker CC" l)
    + amounts value (otherMethods l).
Proof.
  induction l as [| p l IH]; [reflexivity |].
  assert (O : amounts value (otherMethods (p :: l))
              = (if knownMethod (payment_method p) then 0
                 else worth value (amount_paid p))
                + amounts value (otherMethods l)).
  { unfold otherMethods. cbn [filter].
    destruct (knownMethod (payment_method p)); reflexivity. }
  rewrite O, !amounts_ofMethod.
  change (amounts value (p :: l)) with (worth value (amount_paid p) + amounts value l).
  rewrite IH. unfold knownMethod.
  destruct (String.eqb_spec (payment_method p) "Cash") as [E | _];
    [rewrite E; cbn [String.eqb Ascii.eqb Bool.eqb orb]; ring |].
  destruct (String.eqb_spec (payment_method p) "Zelle") as [E | _];
    [rewrite E; cbn [String.eqb Ascii.eqb Bool.eqb orb]; ring |].
  destruct (String.eqb_spec (payment_method p) "Check") as [E | _];
    [rewrite E; cbn [String.eqb Ascii.eqb Bool.eqb orb]; ring |].
  destruct (String.eqb_spec (payment_method p) "Booker CC") as [E | _];
    cbn [orb]; ring.
Qed.

Lemma sumOfMethods_value (s : Summary A) c z k b :
  value (cash s) = Some c -> value (zelle s) = Some z -> value (check s) = Some k ->
  value (bookerCC s) = Some b -> cardsAddExactly value s = true ->
  value (sumOfMethods s) = Some (c + z + k + b).
Proof.
  intros C Z K B N. unfold cardsAddExactly in N.
  apply andb_true_iff in N. destruct N as [N N3].
  apply andb_true_iff in N. destruct N as [N1 N2].
  destruct (addsExactly_value _ _ _ C N1) as [Vz V1].
  rewrite Z in Vz. injection Vz as Vz. rewrite <- Vz in V1.
  destruct (addsExactly_value _ _ _ V1 N2) as [Vk V2].
  rewrite K in Vk. injection Vk as Vk. rewrite <- Vk in V2.
  destruct (addsExactly_value _ _ _ V2 N3) as [Vb V3].
  rewrite B in Vb. injection Vb as Vb. rewrite <- Vb in V3.
  exact V3.
Qed.

Lemma otherMethods_valid (l : list (Payment A)) :
  Forall (fun p => validMethod (payment_method p)) l -> otherMethods l = [].
Proof.
  induction 1 as [| p l V _ IH]; [reflexivity |].
  unfold otherMethods, knownMethod in *. cbn [filter]. rewrite IH.
  destruct V as [E | [E | [E | E]]]; rewrite E; reflexivity.
Qed.

(** Without rounding, the total and the sum of the cards stand for
    numbers that differ by the amounts of the other methods. *)
Lemma total_and_cards (l : list (Payment A)) :
  noRounding value l = true ->
  cardsAddExactly value (SummaryCards.summary l) = true ->
  exists c,
    value (sumOfMethods (SummaryCards.summary l)) = Some c
    /\ value (total (SummaryCards.summary l)) = Some (c + amounts value (otherMethods l)).
Proof.
  intros N S. destruct (summary_values l N) as (C & Z & K & B & T).
  eexists. split.
  - apply (sumOfMethods_value _ _ _ _ _ C Z K B S).
  - rewrite T. f_equal. apply amounts_by_method.
Qed.

Lemma amounts_permutation (l l' : list (Payment A)) :
  Permutation l l' -> amounts value l = amounts value l'.
Proof.
  induction 1 as [| p l l' _ IH | p q l | l l' l'' _ IH1 _ IH2]; cbn [amounts fold_right].
  - reflexivity.
  - unfold amounts in IH. lia.
  - lia.
  - lia.
Qed.

End ValueFacts.

(** *** Amounts counted in whole units *)

Section UnitFacts.

Context {A : Type} `{Num A}.
Variable value : A -> option Z.
Variable u bound : Z.
Hypothesis unit_pos : 0 < u.
Hypothesis value_zero : value zero = Some 0.
(** Sums that are whole multiples of the unit and small are exact. *)
Hypothesis adds :
  forall x y a b, value x = Some a -> value y = Some b ->
    (a + b) mod u = 0 -> Z.abs (a + b) < bound -> value (add x y) = Some (a + b).

Lemma multiples_add a b : a mod u = 0 -> b mod u = 0 -> (a + b) mod u = 0.
Proof. intros Da Db. rewrite Z.add_mod, Da, Db by lia. reflexivity. Qed.

Lemma fits_le M N x : M <= N -> fits value u M x -> fits value u N x.
Proof. intros L (v & V & D & B). exists v. repeat split; try assumption. lia. Qed.

Lemma fits_add M x a :
  fits value u M x -> inUnits value u a = true -> M + Z.abs (worth value a) < bound ->
  addsExactly value x a = true /\ fits value u (M + Z.abs (worth value a)) (add x a).
Proof.
  intros (v & V & D & B) I L. unfold inUnits, worth in *.
  destruct (value a) as [w |] eqn:W; [| discriminate]. apply Z.eqb_eq in I.
  assert (S : value (add x a) = Some (v + w)).
  { apply adds; try assumption.
    - now apply multiples_add.
    - lia. }
  split.
  - unfold addsExactly. rewrite V, W, S. apply Z.eqb_refl.
  - exists (v + w). repeat split; [exact S | | lia].
    now apply multiples_add.
Qed.

Lemma magnitude_nonneg (l : list (Payment A)) : 0 <= magnitude value l.
Proof.
  induction l as [| p l IH]; [reflexivity |].
  change (magnitude value (p :: l))
    with (Z.abs (worth value (amount_paid p)) + magnitude value l).
  lia.
Qed.

Lemma units_noRoundingFrom (l : list (Payment A)) : forall (acc : Summary A) M,
  fits value u M (cash acc) -> fits value u M (zelle acc) -> fits value u M (check acc) ->
  fits value u M (bookerCC acc) -> fits value u M (total acc) ->
  forallb (fun p => inUnits value u (amount_paid p)) l = true ->
  M + magnitude value l < bound ->
  noRoundingFrom value acc l = true.
Proof.
  induction l as [| p l IH]; intros acc M C Z K B T I L; [reflexivity |].
  cbn [forallb] in I. apply andb_true_iff in I. destruct I as [Ip I].
  change (magnitude value (p :: l))
    with (Z.abs (worth value (amount_paid p)) + magnitude value l) in L.
  pose proof (magnitude_nonneg l) as P.
  set (a := amount_paid p) in *. set (M' := M + Z.abs (worth value a)).
  assert (L' : M + Z.abs (worth value a) < bound) by lia.
  destruct (fits_add M _ a T Ip L') as [Nt Ft].
  destruct (fits_add M _ a C Ip L') as [Nc Fc].
  destruct (fits_add M _ a Z Ip L') as [Nz Fz].
  destruct (fits_add M _ a K Ip L') as [Nk Fk].
  destruct (fits_add M _ a B Ip L') as [Nb Fb].
  assert (Mono : M <= M') by (unfold M'; lia).
  cbn [noRoundingFrom]. cbv zeta. fold a. rewrite Nt. cbn [andb].
  destruct (reducer_fields acc p) as (C' & Z' & K' & B' & T'). cbv zeta in *.
  unfold plus in *. fold a in C', Z', K', B', T'.
  apply andb_true_iff. split.
  - destruct (String.eqb (payment_method p) "Cash"); [exact Nc |].
    destruct (String.eqb (payment_method p) "Zelle"); [exact Nz |].
    destruct (String.eqb (payment_method p) "Check"); [exact Nk |].
    destruct (String.eqb (payment_method p) "Booker CC"); [exact Nb | reflexivity].
  - apply (IH _ M').
    + rewrite C'. destruct (String.eqb (payment_method p) "Cash");
        [exact Fc | now apply (fits_le M)].
    + rewrite Z'. destruct (String.eqb (payment_method p) "Zelle");
        [exact Fz | now apply (fits_le M)].
    + rewrite K'. destruct (String.eqb (payment_method p) "Check");
        [exact Fk | now apply (fits_le M)].
    + rewrite B'. destruct (String.eqb (payment_method p) "Booker CC");
        [exact Fb | now apply (fits_le M)].
    + rewrite T'. exact Ft.
    + exact I.
    + unfold M'. lia.
Qed.

Lemma fits_zero : fits value u 0 (@zero A _).
Proof. exists 0. repeat split; [exact value_zero | reflexivity]. Qed.

Lemma units_noRounding (l : list (Payment A)) :
  forallb (fun p => inUnits value u (amount_paid p)) l = true ->
  magnitude value l < bound ->
  noRounding value l = true.
Proof.
  intros I L. apply (units_noRoundingFrom l _ 0); try apply fits_zero; assumption.
Qed.

(** The amounts of a part of the list: whole multiples, and no more
    than the magnitude of the part. *)
Lemma amounts_units (l : list (Payment A)) :
  forallb (fun p => inUnits value u (amount_paid p)) l = true ->
  amounts value l mod u = 0 /\ Z.abs (amounts value l) <= magnitude value l.
Proof.
  induction l as [| p l IH]; intros I.
  - split; reflexivity.
  - cbn [forallb] in I. apply andb_true_iff in I. destruct I as [Ip I].
    destruct (IH I) as [D B].
    change (amounts value (p :: l)) with (worth value (amount_paid p) + amounts value l).
    change (magnitude value (p :: l))
      with (Z.abs (worth value (amount_paid p)) + magnitude value l).
    unfold inUnits, worth in *. destruct (value (amount_paid p)) as [w |]; [| discriminate].
    apply Z.eqb_eq in Ip. split; [| lia].
    now apply multiples_add.
Qed.

Lemma forallb_filter {X} (f g : X -> bool) (l : list X) :
  forallb f l = true -> forallb f (filter g l) = true.
Proof.
  induction l as [| x l IH]; [reflexivity |]. cbn [forallb filter].
  intros I. apply andb_true_iff in I. destruct I as [Ix I].
  destruct (g x); cbn [forallb]; rewrite ?Ix; auto.
Qed.

Lemma magnitude_by_method (l : list (Payment A)) :
  magnitude value (ofMethod "Cash" l) + magnitude value (ofMethod "Zelle" l)
  + magnitude value (ofMethod "Check" l) + magnitude value (ofMethod "Booker CC" l)
  <= magnitude value l.
Proof.
  induction l as [| p l IH]; [cbn; lia |].
  assert (S : forall m, magnitude value (ofMethod m (p :: l))
                        = (if String.eqb (payment_method p) m
                           then Z.abs (worth value (amount_paid p)) else 0)
                          + magnitude value (ofMethod m l)).
  { intros m. unfold ofMethod. cbn [filter].
    destruct (String.eqb (payment_method p) m); reflexivity. }
  rewrite !S.
  change (magnitude value (p :: l))
    with (Z.abs (worth value (amount_paid p)) + magnitude value l).
  set (a := Z.abs (worth value (amount_paid p))).
  assert (0 <= a) by (unfold a; lia).
  destruct (String.eqb_spec (payment_method p) "Cash") as [E | _];
    [rewrite E; cbn [String.eqb Ascii.eqb Bool.eqb]; lia |].
  destruct (String.eqb_spec (payment_method p) "Zelle") as [E | _];
    [rewrite E; cbn [String.eqb Ascii.eqb Bool.eqb]; lia |].
  destruct (String.eqb_spec (payment_method p) "Check") as [E | _];
    [rewrite E; cbn [String.eqb Ascii.eqb Bool.eqb]; lia |].
  destruct (String.eqb_spec (payment_method p) "Booker CC") as [E | _]; lia.
Qed.

Lemma units_cardsAddExactly (l : list (Payment A)) :
  forallb (fun p => inUnits value u (amount_paid p)) l = true ->
  magnitude value l < bound ->
  cardsAddExactly value (SummaryCards.summary l) = true.
Proof.
  intros I L.
  destruct (summary_values value value_zero l (units_noRounding l I L))
    as (C & Z & K & B & _).
  pose proof (magnitude_by_method l) as Sum.
  assert (U : forall m, amounts value (ofMethod m l) mod u = 0
                        /\ Z.abs (amounts value (ofMethod m l))
                           <= magnitude value (ofMethod m l)).
  { intros m. apply amounts_units. unfold ofMethod. now apply forallb_filter. }
  destruct (U "Cash") as [Dc Bc]. destruct (U "Zelle") as [Dz Bz].
  destruct (U "Check") as [Dk Bk]. destruct (U "Booker CC") as [Db Bb].
  pose proof (magnitude_nonneg (ofMethod "Cash" l)).
  pose proof (magnitude_nonneg (ofMethod "Zelle" l)).
  pose proof (magnitude_nonneg (ofMethod "Check" l)).
  pose proof (magnitude_nonneg (ofMethod "Booker CC" l)).
  set (c := amounts value (ofMethod "Cash" l)) in *.
  set (z := amounts value (ofMethod "Zelle" l)) in *.
  set (k := amounts value (ofMethod "Check" l)) in *.
  set (b := amounts value (ofMethod "Booker CC" l)) in *.
  assert (V1 : value (add (cash (SummaryCards.summary l)) (zelle (SummaryCards.summary l)))
               = Some (c + z)).
  { apply adds; try assumption; [| lia].
    now apply multiples_add. }
  assert (D1 : (c + z) mod u = 0).
  { now apply multiples_add. }
  assert (V2 : value (add (add (cash (SummaryCards.summary l))
                               (zelle (SummaryCards.summary l)))
                          (check (SummaryCards.summary l)))
               = Some (c + z + k)).
  { apply adds; try assumption; [| lia].
    now apply multiples_add. }
  assert (D2 : (c + z + k) mod u = 0).
  { now apply multiples_add. }
  assert (V3 : value (add (add (add (cash (SummaryCards.summary l))
                                    (zelle (SummaryCards.summary l)))
                               (check (SummaryCards.summary l)))
                          (bookerCC (SummaryCards.summary l)))
               = Some (c + z + k + b)).
  { apply adds; try assumption; [| lia].
    now apply multiples_add. }
  unfold cardsAddExactly, addsExactly.
  rewrite C, Z, K, B, V1, V2, V3, !Z.eqb_refl. reflexivity.
Qed.

End UnitFacts.

(** *** Doubles *)

Lemma pow2_step d : 0 < d -> 2 ^ d = 2 * 2 ^ (d - 1).
Proof. intros P. replace d with (Z.succ (d - 1)) at 1 by lia. apply Z.pow_succ_r. lia. Qed.

Lemma digits2_pos_bounds m :
  2 ^ (Z.pos (digits2_pos m) - 1) <= Z.pos m < 2 ^ Z.pos (digits2_pos m).
Proof.
  induction m as [m IH | m IH |]; cbn [digits2_pos]; [| | cbn; lia];
    rewrite Pos2Z.inj_succ; set (d := Z.pos (digits2_pos m)) in *;
    replace (Z.succ d - 1) with d by lia;
    rewrite (pow2_step (Z.succ d)) by lia; replace (Z.succ d - 1) with d by lia;
    rewrite (pow2_step d) in * by lia; lia.
Qed.

(** The number of binary digits is the only [d] with 2^(d-1) <= m < 2^d. *)
Lemma digits2_pos_unique m d :
  2 ^ (d - 1) <= Z.pos m < 2 ^ d -> Z.pos (digits2_pos m) = d.
Proof.
  intros [L U]. pose proof (digits2_pos_bounds m) as [L' U'].
  set (d' := Z.pos (digits2_pos m)) in *.
  assert (P : 0 < d).
  { destruct (Z.lt_ge_cases 0 d) as [|N]; [assumption |].
    assert (2 ^ d <= 2 ^ 0) by (apply Z.pow_le_mono_r; lia). change (2 ^ 0) with 1 in *. lia. }
  destruct (Z.lt_trichotomy d' d) as [C | [C | C]]; [| exact C |].
  - assert (2 ^ d' <= 2 ^ (d - 1)) by (apply Z.pow_le_mono_r; lia). lia.
  - assert (2 ^ d <= 2 ^ (d' - 1)) by (apply Z.pow_le_mono_r; lia). lia.
Qed.

Lemma iter_xO m d : Z.pos (Pos.iter xO m d) = Z.pos m * 2 ^ Z.pos d.
Proof.
  induction d as [| d IH] using Pos.peano_ind.
  - cbn [Pos.iter]. change (2 ^ 1) with 2. lia.
  - rewrite Pos.iter_succ, Pos2Z.inj_succ, Z.pow_succ_r by lia.
    rewrite Pos2Z.inj_xO, IH. ring.
Qed.

(** Shifting out [n] zero bits leaves the quotient and no remainder. *)
Lemma iter_shr_1 n : forall q : positive,
  iter_pos shr_1 n (Build_shr_record (Z.pos q * 2 ^ Z.pos n) false false)
  = Build_shr_record (Z.pos q) false false.
Proof.
  assert (One : forall q : positive,
            shr_1 (Build_shr_record (Z.pos q * 2) false false)
            = Build_shr_record (Z.pos q) false false).
  { intros q. replace (Z.pos q * 2) with (Z.pos (xO q)) by lia. reflexivity. }
  induction n as [n IH | n IH |]; intros q; cbn [iter_pos].
  - replace (Z.pos q * 2 ^ Z.pos n~1) with (Z.pos (q * Pos.pow 2 n * Pos.pow 2 n) * 2).
    + rewrite One. replace (Z.pos (q * 2 ^ n * 2 ^ n)) with (Z.pos (q * 2 ^ n) * 2 ^ Z.pos n)
        by (rewrite !Pos2Z.inj_mul, !Pos2Z.inj_pow; reflexivity).
      rewrite IH. replace (Z.pos (q * 2 ^ n)) with (Z.pos q * 2 ^ Z.pos n)
        by (rewrite !Pos2Z.inj_mul, !Pos2Z.inj_pow; reflexivity).
      apply IH.
    + rewrite !Pos2Z.inj_mul, !Pos2Z.inj_pow.
      replace (Z.pos n~1) with (Z.pos n + Z.pos n + 1) by lia.
      rewrite !Z.pow_add_r by lia. change (2 ^ 1) with 2. ring.
  - replace (Z.pos q * 2 ^ Z.pos n~0) with (Z.pos (q * Pos.pow 2 n) * 2 ^ Z.pos n).
    + rewrite IH. replace (Z.pos (q * 2 ^ n)) with (Z.pos q * 2 ^ Z.pos n)
        by (rewrite !Pos2Z.inj_mul, !Pos2Z.inj_pow; reflexivity).
      apply IH.
    + rewrite !Pos2Z.inj_mul, !Pos2Z.inj_pow.
      replace (Z.pos n~0) with (Z.pos n + Z.pos n) by lia.
      rewrite !Z.pow_add_r by lia. ring.
  - change (2 ^ 1) with 2. apply One.
Qed.

Lemma digits2_pos_shift (q : positive) (p : Z) (m : positive) :
  0 <= p -> Z.pos m = Z.pos q * 2 ^ p ->
  Z.pos (digits2_pos m) = Z.pos (digits2_pos q) + p.
Proof.
  intros P E. apply digits2_pos_unique. rewrite E.
  pose proof (digits2_pos_bounds q) as [L U].
  set (d := Z.pos (digits2_pos q)) in *.
  replace (d + p - 1) with ((d - 1) + p) by lia.
  rewrite !Z.pow_add_r by lia.
  assert (0 < 2 ^ p) by (apply Z.pow_pos_nonneg; lia).
  split; [apply Z.mul_le_mono_nonneg_r; lia | apply Z.mul_lt_mono_pos_r; lia].
Qed.

Lemma binary_round_aux_exact s (mz : positive) ez (q : positive) :
  let F := fexp prec emax (Z.pos (digits2_pos mz) + ez) in
  ez <= F -> F <= emax - prec -> Z.pos mz = Z.pos q * 2 ^ (F - ez) ->
  binary_round_aux prec emax s (Z.pos mz) ez loc_Exact = S754_finite s q F.
Proof.
  intros F L U E.
  assert (D : Z.pos (digits2_pos q) + F = Z.pos (digits2_pos mz) + ez).
  { rewrite (digits2_pos_shift q (F - ez) mz) by (lia || exact E). lia. }
  unfold binary_round_aux, shr_fexp. cbn [Zdigits2 shr_record_of_loc]. fold F.
  unfold shr. destruct (F - ez) as [| p | p] eqn:N; [| | lia].
  - change (2 ^ 0) with 1 in E. rewrite Z.mul_1_r in E. injection E as ->.
    cbn [loc_of_shr_record shr_m round_nearest_even Zdigits2 shr_record_of_loc].
    fold F. rewrite N. cbn [shr_m].
    replace (ez <=? emax - prec) with true by (symmetry; apply Z.leb_le; lia).
    f_equal. lia.
  - rewrite E, iter_shr_1.
    cbn [loc_of_shr_record shr_m round_nearest_even Zdigits2 shr_record_of_loc].
    replace (ez + Z.pos p) with F by lia.
    replace (fexp prec emax (Z.pos (digits2_pos q) + F)) with F by (rewrite D; reflexivity).
    rewrite Z.sub_diag. cbn [shr_m].
    replace (F <=? emax - prec) with true by (symmetry; apply Z.leb_le; lia).
    reflexivity.
Qed.

(** A number that fits in 53 bits above an exponent within range
    comes out of the rounding as it went in. *)
Lemma binary_round_exact s (m : positive) e c j :
  -1074 <= e -> Z.pos m * 2 ^ (e + 1074) = c * 2 ^ j -> 0 < c < 2 ^ 53 -> 0 <= j <= 1074 ->
  binaryValue (binary_round prec emax s m e)
  = Some ((if s then Z.neg m else Z.pos m) * 2 ^ (e + 1074)).
Proof.
  intros Le V C J.
  pose proof (digits2_pos_bounds m) as [Lm Um].
  set (D := Z.pos (digits2_pos m)) in *.
  set (F := fexp prec emax (D + e)).
  assert (FE : F = Z.max (D + e - 53) (-1074)) by reflexivity.
  assert (DP : 0 < D) by (unfold D; lia).
  (* the position of the leading bit *)
  assert (Lead : D + e + 1073 < 53 + j).
  { assert (A : 2 ^ (D - 1 + (e + 1074)) <= Z.pos m * 2 ^ (e + 1074)).
    { rewrite Z.pow_add_r by lia. apply Z.mul_le_mono_nonneg_r; [apply Z.pow_nonneg |]; lia. }
    assert (B : c * 2 ^ j < 2 ^ (53 + j)).
    { rewrite Z.pow_add_r by lia. apply Z.mul_lt_mono_pos_r; [apply Z.pow_pos_nonneg |]; lia. }
    rewrite V in A.
    destruct (Z.lt_ge_cases (D + e + 1073) (53 + j)) as [| G]; [assumption |].
    assert (2 ^ (53 + j) <= 2 ^ (D - 1 + (e + 1074))) by (apply Z.pow_le_mono_r; lia).
    lia. }
  unfold binary_round. fold D. fold F. unfold shl_align.
  destruct (F - e) as [| p | p] eqn:N.
  - (* already at its exponent *)
    rewrite (binary_round_aux_exact s m e m); fold D; fold F.
    + replace F with e by lia. reflexivity.
    + lia.
    + unfold emax, prec. lia.
    + rewrite N. change (2 ^ 0) with 1. lia.
  - (* bits to shift out, all of them zero *)
    assert (Fj : F + 1074 <= j) by lia.
    assert (Q : exists q : positive, Z.pos m = Z.pos q * 2 ^ Z.pos p).
    { assert (E : Z.pos m * 2 ^ (e + 1074)
                  = c * 2 ^ (j - (F + 1074)) * 2 ^ Z.pos p * 2 ^ (e + 1074)).
      { rewrite V. rewrite <- !Z.mul_assoc, <- !Z.pow_add_r by lia. do 2 f_equal. lia. }
      apply Z.mul_reg_r in E; [| apply Z.pow_nonzero; lia].
      assert (0 < c * 2 ^ (j - (F + 1074))).
      { apply Z.mul_pos_pos; [lia | apply Z.pow_pos_nonneg; lia]. }
      destruct (c * 2 ^ (j - (F + 1074))) as [| q | q] eqn:Eq; try lia.
      now exists q. }
    destruct Q as [q Q].
    rewrite (binary_round_aux_exact s m e q); fold D; fold F.
    + cbn [binaryValue]. f_equal. rewrite Q.
      replace (e + 1074) with (F + 1074 - Z.pos p) by lia.
      assert (P2 : 2 ^ (F + 1074) = 2 ^ Z.pos p * 2 ^ (F + 1074 - Z.pos p)).
      { rewrite <- Z.pow_add_r by lia. f_equal. lia. }
      rewrite P2. destruct s.
      * change (Z.neg q) with (- Z.pos q). rewrite <- Pos2Z.opp_pos, Q. ring.
      * ring.
    + lia.
    + unfold emax, prec. lia.
    + now rewrite N.
  - (* bits to make room for: a shift to the left *)
    set (mz := Pos.iter xO m p).
    assert (Mz : Z.pos mz = Z.pos m * 2 ^ Z.pos p) by apply iter_xO.
    assert (Dz : Z.pos (digits2_pos mz) + F = D + e).
    { rewrite (digits2_pos_shift m (Z.pos p) mz) by (lia || exact Mz). fold D. lia. }
    rewrite (binary_round_aux_exact s mz F mz); rewrite Dz; fold F.
    + cbn [binaryValue]. f_equal.
      assert (P2 : 2 ^ (e + 1074) = 2 ^ Z.pos p * 2 ^ (F + 1074)).
      { rewrite <- Z.pow_add_r by lia. f_equal. lia. }
      rewrite P2. destruct s.
      * rewrite <- !Pos2Z.opp_pos, Mz. ring.
      * rewrite Mz. ring.
    + lia.
    + unfold emax, prec. lia.
    + rewrite Z.sub_diag. change (2 ^ 0) with 1. lia.
Qed.

Lemma bounded_exponent m e : bounded prec emax m e = true -> -1074 <= e.
Proof.
  unfold bounded, canonical_mantissa, fexp, emin, prec, emax.
  intros B. apply andb_true_iff in B. destruct B as [C _]. apply Z.eqb_eq in C. lia.
Qed.

(** A mantissa brought down to a lower exponent stands for the same
    number. *)
Lemma shl_align_value m e ez :
  ez <= e ->
  Z.pos (fst (shl_align m e ez)) * 2 ^ (ez + 1074) = Z.pos m * 2 ^ (e + 1074) \/ ez < -1074.
Proof.
  intros L. destruct (Z.lt_ge_cases ez (-1074)) as [| G]; [now right | left].
  unfold shl_align. destruct (ez - e) as [| d | d] eqn:N; cbn [fst]; [| lia |].
  - replace ez with e by lia. reflexivity.
  - rewrite iter_xO. replace (e + 1074) with (Z.pos d + (ez + 1074)) by lia.
    rewrite (Z.pow_add_r 2 (Z.pos d) (ez + 1074)) by lia. ring.
Qed.

Lemma binary_normalize_exact (S : Z) e c j :
  -1074 <= e -> S * 2 ^ (e + 1074) = c * 2 ^ j -> Z.abs c < 2 ^ 53 -> 0 <= j <= 1074 ->
  binaryValue (binary_normalize prec emax S e false) = Some (S * 2 ^ (e + 1074)).
Proof.
  intros Le V C J.
  assert (P : 0 < 2 ^ (e + 1074)) by (apply Z.pow_pos_nonneg; lia).
  assert (Pj : 0 < 2 ^ j) by (apply Z.pow_pos_nonneg; lia).
  destruct S as [| m | m]; cbn [binary_normalize].
  - reflexivity.
  - apply (binary_round_exact false m e c j); try assumption.
    set (u := 2 ^ (e + 1074)) in *. set (w := 2 ^ j) in *. split; [nia | lia].
  - rewrite (binary_round_exact true m e (- c) j); try assumption.
    + reflexivity.
    + rewrite Z.mul_opp_l, <- V. rewrite <- Pos2Z.opp_pos. ring.
    + set (u := 2 ^ (e + 1074)) in *. set (w := 2 ^ j) in *. split; [nia | lia].
Qed.

(** The sum of two binary64 numbers is exact when it fits in 53 bits
    above a power of two that is at most 1. *)
Lemma SFadd_exact x y vx vy c j :
  valid_binary x = true -> valid_binary y = true ->
  binaryValue x = Some vx -> binaryValue y = Some vy ->
  vx + vy = c * 2 ^ j -> Z.abs c < 2 ^ 53 -> 0 <= j <= 1074 ->
  binaryValue (SF64add x y) = Some (vx + vy).
Proof.
  intros Vx Vy X Y E C J.
  destruct x as [sx | sx | | sx mx ex]; try discriminate;
    destruct y as [sy | sy | | sy my ey]; try discriminate;
    cbn [binaryValue] in X, Y; injection X as <-; injection Y as <-.
  - destruct sx, sy; reflexivity.
  - cbn. reflexivity.
  - cbn. rewrite Z.add_0_r. reflexivity.
  - cbn [valid_binary] in Vx, Vy.
    pose proof (bounded_exponent _ _ Vx) as Lx. pose proof (bounded_exponent _ _ Vy) as Ly.
    unfold SF64add, SFadd. cbv zeta.
    set (ez := Z.min ex ey).
    destruct (shl_align_value mx ex ez ltac:(lia)) as [Ax | ?]; [| lia].
    destruct (shl_align_value my ey ez ltac:(lia)) as [Ay | ?]; [| lia].
    set (Mx := Z.pos (fst (shl_align mx ex ez))) in *.
    set (My := Z.pos (fst (shl_align my ey ez))) in *.
    assert (V : (cond_Zopp sx Mx + cond_Zopp sy My) * 2 ^ (ez + 1074)
                = (if sx then Z.neg mx else Z.pos mx) * 2 ^ (ex + 1074)
                  + (if sy then Z.neg my else Z.pos my) * 2 ^ (ey + 1074)).
    { rewrite Z.mul_add_distr_r. unfold cond_Zopp.
      destruct sx, sy; rewrite <- ?Pos2Z.opp_pos, ?Z.mul_opp_l, Ax, Ay; reflexivity. }
    rewrite <- V.
    apply (binary_normalize_exact _ ez c j); try assumption; [lia |].
    rewrite V. exact E.
Qed.

(** The exponent and the size of the mantissa of a binary64 number. *)
Lemma bounded_shape m e :
  bounded prec emax m e = true ->
  -1074 <= e /\ Z.pos m < 2 ^ 53 /\ (-1074 < e -> 2 ^ 52 <= Z.pos m).
Proof.
  unfold bounded, canonical_mantissa, fexp, emin, prec, emax.
  intros B. apply andb_true_iff in B. destruct B as [C _]. apply Z.eqb_eq in C.
  pose proof (digits2_pos_bounds m) as [L U].
  set (d := Z.pos (digits2_pos m)) in *.
  assert (D : d <= 53 /\ (-1074 < e -> d = 53)) by lia.
  destruct D as [D1 D2]. split; [lia |]. split.
  - apply Z.lt_le_trans with (2 ^ d); [exact U |]. apply Z.pow_le_mono_r; lia.
  - intros E. rewrite (D2 E) in L. exact L.
Qed.

Lemma canonical_unique m1 e1 m2 e2 :
  bounded prec emax m1 e1 = true -> bounded prec emax m2 e2 = true ->
  Z.pos m1 * 2 ^ (e1 + 1074) = Z.pos m2 * 2 ^ (e2 + 1074) ->
  e1 <= e2 -> e1 = e2 /\ m1 = m2.
Proof.
  intros B1 B2 E L.
  destruct (bounded_shape m1 e1 B1) as (L1 & U1 & _).
  destruct (bounded_shape m2 e2 B2) as (L2 & _ & N2).
  destruct (Z.eq_dec e1 e2) as [-> | NE].
  - split; [reflexivity |].
    apply Z.mul_reg_r in E; [congruence | apply Z.pow_nonzero; lia].
  - exfalso.
    replace (e2 + 1074) with ((e1 + 1074) + (e2 - e1)) in E by lia.
    rewrite (Z.pow_add_r 2 (e1 + 1074) (e2 - e1)) in E by lia.
    assert (Q : 2 ^ 1 <= 2 ^ (e2 - e1)) by (apply Z.pow_le_mono_r; lia).
    assert (M2 : 2 ^ 52 <= Z.pos m2) by (apply N2; lia).
    assert (E' : Z.pos m1 = Z.pos m2 * 2 ^ (e2 - e1)).
    { apply (Z.mul_reg_r _ _ (2 ^ (e1 + 1074))); [apply Z.pow_nonzero; lia |].
      rewrite E. ring. }
    change (2 ^ 1) with 2 in Q. change (2 ^ 53) with 9007199254740992 in U1.
    change (2 ^ 52) with 4503599627370496 in M2.
    set (q := 2 ^ (e2 - e1)) in *. nia.
Qed.

(** Two doubles that stand for the same number are equal for [==]. *)
Lemma floatValue_eqb x y v :
  floatValue x = Some v -> floatValue y = Some v -> PrimFloat.eqb x y = true.
Proof.
  unfold floatValue, binaryValue. rewrite FloatAxioms.eqb_spec.
  pose proof (Prim2SF_valid x) as Vx. pose proof (Prim2SF_valid y) as Vy.
  destruct (Prim2SF x) as [sx | sx | | sx mx ex];
    destruct (Prim2SF y) as [sy | sy | | sy my ey]; try discriminate;
    intros X Y; pose proof (eq_trans X (eq_sym Y)) as E; clear X Y;
    [reflexivity | | |]; injection E as E; cbn [valid_binary] in *.
  - exfalso. destruct (bounded_shape my ey Vy) as (L & _ & _).
    assert (P : 0 < 2 ^ (ey + 1074)) by (apply Z.pow_pos_nonneg; lia).
    set (q := 2 ^ (ey + 1074)) in *. destruct sy; nia.
  - exfalso. destruct (bounded_shape mx ex Vx) as (L & _ & _).
    assert (P : 0 < 2 ^ (ex + 1074)) by (apply Z.pow_pos_nonneg; lia).
    set (q := 2 ^ (ex + 1074)) in *. destruct sx; nia.
  - destruct (bounded_shape mx ex Vx) as (Lx & _ & _).
    destruct (bounded_shape my ey Vy) as (Ly & _ & _).
    assert (Px : 0 < 2 ^ (ex + 1074)) by (apply Z.pow_pos_nonneg; lia).
    assert (Py : 0 < 2 ^ (ey + 1074)) by (apply Z.pow_pos_nonneg; lia).
    assert (S : sx = sy /\ Z.pos mx * 2 ^ (ex + 1074) = Z.pos my * 2 ^ (ey + 1074)).
    { set (qx := 2 ^ (ex + 1074)) in *. set (qy := 2 ^ (ey + 1074)) in *.
      destruct sx, sy; (split; [reflexivity || (exfalso; nia) | nia]). }
    destruct S as [<- E'].
    assert (U : ex = ey /\ mx = my).
    { destruct (Z.le_ge_cases ex ey) as [L | L].
      - now apply canonical_unique.
      - destruct (canonical_unique my ey mx ex Vy Vx (eq_sym E') L) as [-> ->]. now split. }
    destruct U as [<- <-].
    unfold SFeqb, SFcompare. rewrite Z.compare_refl.
    change (Pos.compare_cont Eq mx mx) with (Pos.compare mx mx).
    rewrite Pos.compare_refl. destruct sx; reflexivity.
Qed.

Lemma floatValue_zero : floatValue (@zero float Num_float) = Some 0.
Proof. reflexivity. Qed.

(** Binary64 addition is exact on sums that are whole multiples of a
    power of two at most 1 and take fewer than 53 bits above it. *)
Lemma float_adds j (x y : float) a b :
  0 <= j <= 1074 ->
  floatValue x = Some a -> floatValue y = Some b ->
  (a + b) mod 2 ^ j = 0 -> Z.abs (a + b) < 2 ^ (53 + j) ->
  floatValue (x + y)%float = Some (a + b).
Proof.
  intros J X Y D B. unfold floatValue in *. rewrite add_spec.
  assert (P : 0 < 2 ^ j) by (apply Z.pow_pos_nonneg; lia).
  apply (SFadd_exact _ _ a b ((a + b) / 2 ^ j) j); try assumption;
    try apply Prim2SF_valid.
  - rewrite Z.mul_comm. apply Z_div_exact_full_2; [lia | exact D].
  - apply Z.mod_divide in D; [| lia]. destruct D as [c D]. rewrite D in *.
    rewrite Z.div_mul by lia. rewrite Z.pow_add_r in B by lia.
    rewrite Z.abs_mul, (Z.abs_eq (2 ^ j)) in B by lia.
    apply Z.mul_lt_mono_pos_r in B; assumption.
Qed.

(** C4, as amended. In the binary64 numbers the program adds amounts in, for
    any list of payments whose methods are among Cash, Zelle, Check
    and Booker CC: total == cash + zelle + check + bookerCC, in the
    dashboard's Summary and in the report's alike, whenever none of
    the additions that build the Summary rounds, and none of the three
    of cash + zelle + check + bookerCC either; and none of them rounds
    when every amount is a whole multiple of one power of two between
    2^-1074 and 1 (whole dollars, or quarters of a dollar) and the
    absolute values of the amounts add up to less than 2^53 times that
    power of two. *)
Theorem summary_total_unrounded (payments : list (Payment float)) :
  Forall (fun p => validMethod (payment_method p)) payments ->
  (noRounding floatValue payments = true ->
   cardsAddExactly floatValue (SummaryCards.summary payments) = true ->
   balanced payments)
  /\ (forall j, 0 <= j <= 1074 ->
      forallb (fun p => inUnits floatValue (2 ^ j) (amount_paid p)) payments = true ->
      magnitude floatValue payments < 2 ^ (53 + j) ->
      noRounding floatValue payments = true
      /\ cardsAddExactly floatValue (SummaryCards.summary payments) = true
      /\ balanced payments).
Proof.
  intros V.
  assert (E : noRounding floatValue payments = true ->
              cardsAddExactly floatValue (SummaryCards.summary payments) = true ->
              balanced payments).
  { intros N S.
    destruct (@total_and_cards float Num_float floatValue floatValue_zero payments N S)
      as (c & C & T).
    rewrite (otherMethods_valid payments V) in T. cbn [amounts fold_right] in T.
    rewrite Z.add_0_r in T. split; exact (floatValue_eqb _ _ c T C). }
  split; [exact E |]. intros j J I L.
  assert (P : 0 < 2 ^ j) by (apply Z.pow_pos_nonneg; lia).
  assert (N : noRounding floatValue payments = true).
  { apply (@units_noRounding float Num_float floatValue (2 ^ j) (2 ^ (53 + j)) P
             floatValue_zero); [| exact I | exact L].
    intros x y a b. now apply float_adds. }
  assert (S : cardsAddExactly floatValue (SummaryCards.summary payments) = true).
  { apply (@units_cardsAddExactly float Num_float floatValue (2 ^ j) (2 ^ (53 + j)) P
             floatValue_zero); [| exact I | exact L].
    intros x y a b. now apply float_adds. }
  split; [exact N |]. split; [exact S |]. now apply E.
Qed.

(** 100.00 in cash, 50.25 by Zelle, 20.50 by check: quarters of a
    dollar, 170.75 either way. *)
Lemma summary_total_unrounded_witness :
  total (SummaryCards.summary wholePayments) = 170.75%float
  /\ noRounding floatValue wholePayments = true
  /\ cardsAddExactly floatValue (SummaryCards.summary wholePayments) = true
  /\ balanced wholePayments.
Proof.
  split; [vm_compute; reflexivity |].
  assert (V : Forall (fun p : Payment float => validMethod (payment_method p))
                wholePayments).
  { unfold wholePayments, validMethod.
    repeat (apply Forall_cons; [cbn; auto 6 |]). apply Forall_nil. }
  apply (proj2 (summary_total_unrounded wholePayments V) 1072).
  - lia.
  - vm_compute. reflexivity.
  - vm_compute. reflexivity.
Defined.

(** C4, counterexample. In binary64 arithmetic the total of a check of 0.30,
    a Zelle payment of 0.20 and 0.10 in cash is 0.6, while
    cash + zelle + check + bookerCC is 0.6000000000000001. *)
Lemma summary_float_total_differs :
  let s := SummaryCards.summary
             [paid "Check" (cents 30); paid "Zelle" (cents 20); paid "Cash" (cents 10)] in
  PrimFloat.eqb (total s) (sumOfMethods s) = false.
Proof. vm_compute. reflexivity. Qed.

(** ** Day navigation *)

Lemma dateKey_lacks_T n : fourDigitDay n -> lacks "T" (dateKey n) = true.
Proof.
  intros R. pose proof (fourDigitDay_year n R). pose proof (MonthFromDay_range n).
  pose proof (DateFromDay_range n).
  unfold dateKey. rewrite !lacks_app.
  rewrite (allDigits_lacks "T" (pad4 _)), !(allDigits_lacks "T" (pad2 _))
    by (reflexivity || (apply pad4_allDigits; lia) || (apply pad2_allDigits; lia)).
  reflexivity.
Qed.

Section Navigation.

Variable tz : TimeZone.
Hypothesis regular : regularZone tz.
Hypothesis noon : noonStable tz.
(** Local noon falls on the same date in UTC. *)
Hypothesis nearUTC :
  forall t b, - (12 * msPerHour) < LocalTZA tz t b <= 12 * msPerHour.

Lemma noon_iso_date n :
  fourDigitDay n ->
  (let* iso := toISOString (Some (UTC tz (noonOf n))) in item (split "T" iso) 0)
  = Some (dateKey n).
Proof.
  intros R. cbn [toISOString].
  assert (D : Day (UTC tz (noonOf n)) = n).
  { pose proof (nearUTC (noonOf n) false) as B.
    unfold UTC, noonOf, Day, MakeDate, MakeTime, msPerDay, msPerHour, msPerMinute,
      msPerSecond in *. div_lia. }
  unfold YearFromTime, MonthFromTime, DateFromTime. rewrite D.
  pose proof (fourDigitDay_year n R) as Y.
  replace ((0 <=? YearFromDay n) && (YearFromDay n <=? 9999)) with true
    by (symmetry; rewrite andb_true_iff, !Z.leb_le; lia).
  unfold split.
  match goal with
  | |- item (splitAux _ _ _ (?y ++ "-" ++ ?m ++ "-" ++ ?d ++ "T" ++ ?r)) 0 = _ =>
      replace (y ++ "-" ++ m ++ "-" ++ d ++ "T" ++ r)
        with (dateKey n ++ String "T" r)
        by (unfold dateKey; now rewrite !append_assoc)
  end.
  rewrite (splitAux_piece "T") by now apply dateKey_lacks_T. reflexivity.
Qed.

Lemma MakeDay_shift y m d k : MakeDay y m (d + k) = MakeDay y m d + k.
Proof. unfold MakeDay. lia. Qed.

(** From the noon of day [n], [setDate(getDate() + k)] leads to the
    noon of day [n + k]. *)
Lemma setDate_noon n k :
  fourDigitDay n -> fourDigitDay (n + k) ->
  let date := ofString tz (dateKey n ++ "T12:00:00") in
  setDate tz date (option_map (fun d => d + k) (getDate tz date))
  = Some (UTC tz (noonOf (n + k))).
Proof.
  intros R R'. cbv zeta.
  change "T12:00:00" with ("T" ++ pad2 12 ++ ":" ++ pad2 0 ++ ":" ++ pad2 0).
  rewrite (ofString_dateKey tz regular) by (auto; lia).
  unfold getDate, setDate. cbn [option_map].
  rewrite (noon n).
  assert (T : 0 <= MakeTime 12 0 0 0 < msPerDay)
    by (unfold MakeTime, msPerDay, msPerHour, msPerMinute, msPerSecond; lia).
  unfold YearFromTime, MonthFromTime, DateFromTime.
  rewrite Day_MakeDate, TimeWithinDay_MakeDate by exact T.
  rewrite MakeDay_shift, MakeDay_fields.
  apply (TimeClip_day tz regular); assumption.
Qed.

(** In such a zone the two buttons move both bounds to the day before
    and to the day after dateFrom. *)
Lemma goToPreviousDay_regular (f : FilterState) n :
  fourDigitDay n -> fourDigitDay (n - 1) -> dateFrom f = dateKey n ->
  SearchFilter.goToPreviousDay tz f = Some (SearchFilter.setBoth f (dateKey (n - 1))).
Proof.
  intros R R' E. unfold SearchFilter.goToPreviousDay. rewrite E.
  rewrite dateKey_nonempty by exact R.
  change (fun d => d - 1) with (fun d => d + -1).
  rewrite (setDate_noon n (-1)) by assumption.
  pose proof (noon_iso_date (n + -1) R') as I. cbv zeta in I.
  destruct (toISOString (Some (UTC tz (noonOf (n + -1))))) as [iso |]; [| discriminate].
  rewrite I. reflexivity.
Qed.

Lemma goToNextDay_regular (f : FilterState) n :
  fourDigitDay n -> fourDigitDay (n + 1) -> dateFrom f = dateKey n ->
  SearchFilter.goToNextDay tz f = Some (SearchFilter.setBoth f (dateKey (n + 1))).
Proof.
  intros R R' E. unfold SearchFilter.goToNextDay. rewrite E.
  rewrite dateKey_nonempty by exact R.
  rewrite (setDate_noon n 1) by assumption.
  pose proof (noon_iso_date (n + 1) R') as I. cbv zeta in I.
  destruct (toISOString (Some (UTC tz (noonOf (n + 1))))) as [iso |]; [| discriminate].
  rewrite I. reflexivity.
Qed.

(** The day after the day before is the day itself, from one side of a
    month, a year or a clock change to the other. *)
Lemma next_of_previous_regular (f : FilterState) n :
  fourDigitDay n -> fourDigitDay (n - 1) -> dateFrom f = dateKey n ->
  (let* g := SearchFilter.goToPreviousDay tz f in SearchFilter.goToNextDay tz g)
  = Some (SearchFilter.setBoth f (dateKey n)).
Proof.
  intros R R' E. rewrite (goToPreviousDay_regular f n) by assumption.
  rewrite (goToNextDay_regular _ (n - 1)) by
    (try reflexivity; try assumption; now replace (n - 1 + 1) with n by lia).
  replace (n - 1 + 1) with n by lia. reflexivity.
Qed.

End Navigation.

Lemma usEastern_nearUTC t b :
  - (12 * msPerHour) < LocalTZA usEastern t b <= 12 * msPerHour.
Proof.
  cbn [LocalTZA usEastern].
  destruct (eastern_offsets t b) as [E | E]; rewrite E; unfold EST, EDT, msPerHour; lia.
Qed.

(** X17. In a browser on US Eastern time, the next-day button after the
    previous-day button leads back to the day one started from, with
    both bounds on it, for every dateFrom of a year written with four
    digits, from one side of a month, a year or a clock change to the
    other. *)
Lemma next_of_previous_eastern (f : FilterState) n :
  fourDigitDay n -> fourDigitDay (n - 1) -> dateFrom f = dateKey n ->
  (let* g := SearchFilter.goToPreviousDay usEastern f in
   SearchFilter.goToNextDay usEastern g)
  = Some (SearchFilter.setBoth f (dateKey n)).
Proof.
  apply next_of_previous_regular;
    [exact usEastern_regular | exact usEastern_noonStable | exact usEastern_nearUTC].
Qed.

(** Back over the new year, and over the two clock changes of 2025. *)
Example navigation_eastern_samples :
  SearchFilter.goToPreviousDay usEastern (oneDay "2025-01-01") = Some (oneDay "2024-12-31")
  /\ SearchFilter.goToNextDay usEastern (oneDay "2024-12-31") = Some (oneDay "2025-01-01")
  /\ SearchFilter.goToPreviousDay usEastern (oneDay "2025-03-09") = Some (oneDay "2025-03-08")
  /\ SearchFilter.goToNextDay usEastern (oneDay "2025-03-08") = Some (oneDay "2025-03-09")
  /\ SearchFilter.goToPreviousDay usEastern (oneDay "2025-11-02") = Some (oneDay "2025-11-01")
  /\ SearchFilter.goToNextDay usEastern (oneDay "2025-11-02") = Some (oneDay "2025-11-03").
Proof. vm_compute. repeat split. Qed.

(** Whatever the zone, a click that runs to its end leaves dateFrom and
    dateTo equal and the other criteria as they were. *)
Lemma navigation_collapses (tz : TimeZone) (f g : FilterState) :
  SearchFilter.goToPreviousDay tz f = Some g \/ SearchFilter.goToNextDay tz f = Some g ->
  dateFrom f <> "" ->
  dateTo g = dateFrom g /\ searchTerm g = searchTerm f
  /\ paymentMethod g = paymentMethod f.
Proof.
  unfold SearchFilter.goToPreviousDay, SearchFilter.goToNextDay.
  intros E N. destruct (dateFrom f) as [| c d] eqn:DF; [contradiction |].
  cbn [truthy] in E.
  destruct E as [E | E];
    repeat match type of E with
           | match ?x with Some _ => _ | None => _ end = _ =>
               destruct x; [| discriminate]
           end;
    injection E as <-; repeat split.
Qed.

(** With an empty dateFrom the two buttons change nothing. *)
Lemma navigation_empty (tz : TimeZone) (f : FilterState) :
  dateFrom f = "" ->
  SearchFilter.goToPreviousDay tz f = Some f /\ SearchFilter.goToNextDay tz f = Some f.
Proof.
  intros E. unfold SearchFilter.goToPreviousDay, SearchFilter.goToNextDay.
  rewrite E. split; reflexivity.
Qed.

(** C5, at the failing input. In a browser thirteen hours ahead of UTC the
    day before 2025-10-19 comes out as 2025-10-17, and the day after
    2025-10-17 as 2025-10-17 again: noon local time is still the eve
    in UTC, and the new date key is cut from the UTC rendering. *)
Theorem next_of_previous_far_east :
  SearchFilter.goToPreviousDay tongaTime (oneDay "2025-10-19")
  = Some (oneDay "2025-10-17")
  /\ SearchFilter.goToNextDay tongaTime (oneDay "2025-10-17")
     = Some (oneDay "2025-10-17").
Proof. vm_compute. split; reflexivity. Qed.

(** C10, at the failing input. From the range 2025-10-19 to 2025-10-25 both
    actions do collapse the range to one day, but in a browser thirteen
    hours ahead of UTC that day is 2025-10-17 for "previous" and
    2025-10-19 itself for "next". *)
Theorem navigation_far_east :
  SearchFilter.goToPreviousDay tongaTime weekRange = Some (oneDay "2025-10-17")
  /\ SearchFilter.goToNextDay tongaTime weekRange = Some (oneDay "2025-10-19").
Proof. vm_compute. split; reflexivity. Qed.

(** ** Writes to the store *)

Section Writes.

Variable local : TimeZone.
Context {A : Type}.

Abbreviation World := (@Handlers.World A).
Abbreviation Request := (@Handlers.Request A).
Abbreviation Action := (@Handlers.Action A).

Lemma outcome_0 (w : World) :
  match Handlers.outcomes w with [] => true | b :: _ => b end = outcome 0 w.
Proof. unfold outcome. destruct (Handlers.outcomes w); reflexivity. Qed.

Lemma outcome_1 (w : World) :
  match tl (Handlers.outcomes w) with [] => true | b :: _ => b end = outcome 1 w.
Proof. unfold outcome. destruct (Handlers.outcomes w) as [| ? [| ? ?]]; reflexivity. Qed.

Lemma send_run (c : Request) (w : World) :
  Handlers.send c w
  = (inl (if outcome 0 w
          then (match c with
                | Handlers.SelectAll =>
                    Some (Handlers.newestFirst
                            (Handlers.carryOut c (Handlers.table w) (Handlers.serial w)))
                | _ => None
                end, None)
          else (None, Some "store error")),
     sent c w).
Proof.
  unfold Handlers.send, sent. rewrite outcome_0.
  destruct (outcome 0 w); reflexivity.
Qed.

(** What [loadPayments] leaves behind. *)
Lemma loadPayments_exec (w : World) :
  exists w',
    Handlers.loadPayments w = (inl tt, w')
    /\ Handlers.requests w' = (Handlers.requests w ++ [Handlers.SelectAll])%list
    /\ Handlers.table w' = Handlers.table w
    /\ Handlers.payments w'
       = (if outcome 0 w then Handlers.newestFirst (Handlers.table w)
          else Handlers.payments w)
    /\ Handlers.alerts w'
       = (if outcome 0 w then Handlers.alerts w
          else (Handlers.alerts w ++ ["Failed to load payments. Please try again."])%list).
Proof.
  unfold Handlers.loadPayments, Handlers.finally, Handlers.tryCatch, Handlers.bind.
  rewrite send_run. unfold sent.
  destruct (outcome 0 w); cbn; eexists; repeat split.
Qed.

(** C6. For an add, update or delete that reaches the store with request
    [c]: if the store carries [c] out, the client sends the full listing
    request next and nothing else, and takes the listing it gets, newest
    first, as its payments; if the store refuses [c], no listing is
    asked for, the payments of the client and the table are what they
    were, and the failure is notified. *)
Theorem write_then_reload_or_nothing (a : Action) (w : World) (c : Request) :
  mutation local a w = Some c ->
  let w' := Handlers.exec (Handlers.perform local a) w in
  (outcome 0 w = true ->
     Handlers.requests w' = (Handlers.requests w ++ [c; Handlers.SelectAll])%list
     /\ Handlers.table w' = Handlers.carryOut c (Handlers.table w) (Handlers.serial w)
     /\ (outcome 1 w = true ->
           Handlers.payments w' = Handlers.newestFirst (Handlers.table w')))
  /\ (outcome 0 w = false ->
        Handlers.requests w' = (Handlers.requests w ++ [c])%list
        /\ Handlers.payments w' = Handlers.payments w
        /\ Handlers.table w' = Handlers.table w
        /\ Handlers.alerts w' = (Handlers.alerts w ++ [failureNotice a])%list).
Proof.
  intros Hc w'. subst w'.
  assert (Step : forall (k : Handlers.M unit) (msg : string),
    (forall w0, exists w1, k w0 = (inl tt, w1)
        /\ Handlers.requests w1 = Handlers.requests w0
        /\ Handlers.table w1 = Handlers.table w0
        /\ Handlers.payments w1 = Handlers.payments w0) ->
    exists w',
      Handlers.tryCatch
        (Handlers.bind (Handlers.send c)
           (fun r => Handlers.bind (Handlers.throwIf (snd r))
              (fun _ => Handlers.bind Handlers.loadPayments (fun _ => k))))
        (fun _ => Handlers.alert msg) w = (inl tt, w')
      /\ (outcome 0 w = true ->
           Handlers.requests w' = (Handlers.requests w ++ [c; Handlers.SelectAll])%list
           /\ Handlers.table w'
              = Handlers.carryOut c (Handlers.table w) (Handlers.serial w)
           /\ (outcome 1 w = true ->
                 Handlers.payments w' = Handlers.newestFirst (Handlers.table w')))
      /\ (outcome 0 w = false ->
            Handlers.requests w' = (Handlers.requests w ++ [c])%list
            /\ Handlers.payments w' = Handlers.payments w
            /\ Handlers.table w' = Handlers.table w
            /\ Handlers.alerts w' = (Handlers.alerts w ++ [msg])%list)).
  { intros k msg Hk.
    unfold Handlers.tryCatch, Handlers.bind at 1.
    rewrite send_run.
    destruct (outcome 0 w) eqn:O0.
    - cbn [fst snd Handlers.throwIf Handlers.bind Handlers.ret].
      unfold Handlers.bind.
      destruct (loadPayments_exec (sent c w)) as (w2 & L0 & L1 & L2 & L3 & _).
      rewrite L0.
      destruct (Hk w2) as (w3 & K0 & K1 & K2 & K3). rewrite K0.
      exists w3. split; [reflexivity |]. split; [| discriminate]. intros _.
      rewrite K1, K2, K3, L1, L2, L3. unfold sent at 1 2 4.
      cbn [Handlers.requests Handlers.table]. rewrite O0.
      rewrite <- app_assoc. repeat split.
      intros O1.
      replace (outcome 0 (sent c w)) with (outcome 1 w).
      + rewrite O1. unfold sent. cbn [Handlers.table]. now rewrite O0.
      + unfold outcome, sent. cbn [Handlers.outcomes].
        destruct (Handlers.outcomes w) as [| b [| b' rest]]; reflexivity.
    - cbn [fst snd Handlers.throwIf Handlers.bind Handlers.throw Handlers.alert
             Handlers.update].
      eexists. split; [reflexivity |]. split; [discriminate |]. intros _.
      unfold sent. rewrite O0. cbn. repeat split. }
  assert (Done : forall m : Handlers.M unit,
    (exists w', m w = (inl tt, w')
      /\ (outcome 0 w = true ->
           Handlers.requests w' = (Handlers.requests w ++ [c; Handlers.SelectAll])%list
           /\ Handlers.table w'
              = Handlers.carryOut c (Handlers.table w) (Handlers.serial w)
           /\ (outcome 1 w = true ->
                 Handlers.payments w' = Handlers.newestFirst (Handlers.table w')))
      /\ (outcome 0 w = false ->
            Handlers.requests w' = (Handlers.requests w ++ [c])%list
            /\ Handlers.payments w' = Handlers.payments w
            /\ Handlers.table w' = Handlers.table w
            /\ Handlers.alerts w' = (Handlers.alerts w ++ [failureNotice a])%list)) ->
    (outcome 0 w = true ->
       Handlers.requests (Handlers.exec m w)
       = (Handlers.requests w ++ [c; Handlers.SelectAll])%list
       /\ Handlers.table (Handlers.exec m w)
          = Handlers.carryOut c (Handlers.table w) (Handlers.serial w)
       /\ (outcome 1 w = true ->
             Handlers.payments (Handlers.exec m w)
             = Handlers.newestFirst (Handlers.table (Handlers.exec m w))))
    /\ (outcome 0 w = false ->
          Handlers.requests (Handlers.exec m w) = (Handlers.requests w ++ [c])%list
          /\ Handlers.payments (Handlers.exec m w) = Handlers.payments w
          /\ Handlers.table (Handlers.exec m w) = Handlers.table w
          /\ Handlers.alerts (Handlers.exec m w)
             = (Handlers.alerts w ++ [failureNotice a])%list)).
  { intros m (wf & EQ & P1 & P2). unfold Handlers.exec. rewrite EQ. cbn [snd].
    split; assumption. }
  apply Done.
  destruct a as [fd | fd | i]; cbn [Handlers.perform mutation failureNotice] in *.
  - destruct (toISOString (ofString local (form_timestamp fd))) as [ts |] eqn:TS;
      [| discriminate].
    injection Hc as <-.
    unfold Handlers.handleAddPayment, Handlers.isoTimestamp. rewrite TS.
    apply (Step (Handlers.setIsFormOpen false)).
    intros w0. eexists. repeat split.
  - destruct (Handlers.editingPayment w) as [e |] eqn:EP; [| discriminate].
    destruct (toISOString (ofString local (form_timestamp fd))) as [ts |] eqn:TS;
      [| discriminate].
    injection Hc as <-.
    unfold Handlers.handleUpdatePayment. rewrite EP.
    unfold Handlers.isoTimestamp. rewrite TS.
    apply (Step (Handlers.setEditingPayment None)).
    intros w0. eexists. repeat split.
  - injection Hc as <-.
    unfold Handlers.handleDeletePayment.
    destruct (Step (Handlers.ret tt) "Failed to delete payment. Please try again.")
      as (wf & EQ & P).
    { intros w0. eexists. repeat split. }
    exists wf. split; [| exact P].
    rewrite <- EQ. unfold Handlers.tryCatch, Handlers.bind.
    destruct (Handlers.send (Handlers.Delete i) w) as [[r | e] w1]; [| reflexivity].
    destruct (Handlers.throwIf (snd r) w1) as [[u | e] w2]; [| reflexivity].
    destruct (loadPayments_exec w2) as (w3 & L0 & _). now rewrite L0.
Qed.

End Writes.

Lemma write_then_reload_or_nothing_witness :
  mutation usEastern (Handlers.AddPayment sampleForm) (sampleWorld [true; true])
  = Some (Handlers.Insert sampleRow)
  /\ (let w' := Handlers.exec (Handlers.handleAddPayment usEastern sampleForm)
                  (sampleWorld [true; true]) in
      Handlers.requests w' = [Handlers.Insert sampleRow; Handlers.SelectAll]
      /\ List.length (Handlers.payments w') = 2%nat)
  /\ (let w' := Handlers.exec (Handlers.handleAddPayment usEastern sampleForm)
                  (sampleWorld [false]) in
      Handlers.requests w' = [Handlers.Insert sampleRow]
      /\ Handlers.payments w' = [earlyPayment]
      /\ Handlers.table w' = [earlyPayment]
      /\ Handlers.alerts w' = ["Failed to add payment. Please try again."]).
Proof.
  split; [reflexivity |]. split.
  - destruct (write_then_reload_or_nothing usEastern (Handlers.AddPayment sampleForm)
                (sampleWorld [true; true]) (Handlers.Insert sampleRow) eq_refl)
      as [Ok _].
    destruct (Ok eq_refl) as (R & T & P). split; [exact R |].
    cbv zeta. change (Handlers.handleAddPayment usEastern sampleForm)
      with (Handlers.perform usEastern (Handlers.AddPayment sampleForm)).
    rewrite (P eq_refl), T. reflexivity.
  - destruct (write_then_reload_or_nothing usEastern (Handlers.AddPayment sampleForm)
                (sampleWorld [false]) (Handlers.Insert sampleRow) eq_refl)
      as [_ Ko].
    exact (Ko eq_refl).
Defined.

(** An action that stops before the store sends nothing and leaves the
    payments of the client alone. *)
Lemma no_request_no_change {A : Type} (local : TimeZone)
  (a : @Handlers.Action A) (w : @Handlers.World A) :
  mutation local a w = None ->
  Handlers.requests (Handlers.exec (Handlers.perform local a) w) = Handlers.requests w
  /\ Handlers.payments (Handlers.exec (Handlers.perform local a) w) = Handlers.payments w
  /\ Handlers.table (Handlers.exec (Handlers.perform local a) w) = Handlers.table w.
Proof.
  destruct a as [fd | fd | i]; cbn [mutation Handlers.perform]; intros N.
  - unfold Handlers.exec, Handlers.handleAddPayment, Handlers.isoTimestamp,
      Handlers.tryCatch, Handlers.bind.
    destruct (toISOString (ofString local (form_timestamp fd))); [discriminate |].
    cbn. repeat split.
  - unfold Handlers.exec, Handlers.handleUpdatePayment, Handlers.isoTimestamp,
      Handlers.tryCatch, Handlers.bind.
    destruct (Handlers.editingPayment w); [| cbn; repeat split].
    destruct (toISOString (ofString local (form_timestamp fd))); [discriminate |].
    cbn. repeat split.
  - discriminate.
Qed.

(** ** The report endpoint *)

(** C7, counterexample. A GET request that carries both parameters, dateFrom
    being empty, is answered with status 400; and an OPTIONS request
    that carries neither is answered with status 200 and no body. *)
Lemma serve_400_not_only_missing :
  let q := [("dateFrom", ""); ("dateTo", "2025-10-19")] in
  (Endpoint.get "dateFrom" q <> None /\ Endpoint.get "dateTo" q <> None
   /\ Endpoint.status
        (Endpoint.serve usEastern utcZone (getRequest q) (inr [earlyPayment])) = 400)
  /\ (Endpoint.get "dateFrom" [] = None
      /\ Endpoint.serve usEastern utcZone (Endpoint.mkRequest "OPTIONS" [])
           (inr [earlyPayment])
         = Endpoint.mkResponse 200 None Endpoint.NoBody).
Proof. cbv zeta. vm_compute. repeat split; discriminate. Qed.

Section EndpointFacts.

Variable TIMEZONE local : TimeZone.
Context {A : Type} `{Num A}.

(** C7, as amended. An OPTIONS request is answered with status 200 and no
    body, whatever its parameters and whatever the store would say.
    For every other request: the answer has status 400 exactly when
    dateFrom or dateTo is missing or empty, and is then a JSON error;
    with both given, an error thrown inside the handler, whatever
    it is (the listing that fails, for one), is answered with status
    500 and a JSON error that carries the message of the error and
    repeats dateFrom and dateTo; otherwise the answer is an HTML
    document of status 200 built from the rows the filter keeps, a
    missing or empty paymentMethod standing for all methods. *)
Theorem serve_answers (req : Endpoint.HttpRequest) (queried : string + list (Payment A)) :
  let dateFrom := Endpoint.get "dateFrom" (Endpoint.searchParams req) in
  let dateTo := Endpoint.get "dateTo" (Endpoint.searchParams req) in
  let paymentMethod := Endpoint.get "paymentMethod" (Endpoint.searchParams req) in
  let r := Endpoint.serve TIMEZONE local req queried in
  (Endpoint.method req = "OPTIONS" ->
     r = Endpoint.mkResponse 200 None Endpoint.NoBody)
  /\ (Endpoint.method req <> "OPTIONS" ->
      (Endpoint.status r = 400
       <-> Endpoint.absent dateFrom = true \/ Endpoint.absent dateTo = true)
      /\ (Endpoint.status r = 400 ->
            r = Endpoint.mkResponse 400 (Some "application/json")
                  (Endpoint.Json
                     [("error", Some "dateFrom and dateTo parameters are required")]))
      /\ (Endpoint.absent dateFrom = false -> Endpoint.absent dateTo = false ->
            forall message, queried = inl message ->
            r = Endpoint.mkResponse 500 (Some "application/json")
                  (Endpoint.Json
                     [("error", Some message); ("dateFrom", dateFrom);
                      ("dateTo", dateTo)]))
      /\ (Endpoint.absent dateFrom = false -> Endpoint.absent dateTo = false ->
            forall rows, queried = inr rows ->
            let method := match paymentMethod with Some m => m | None => "" end in
            let kept := Report.filteredPayments TIMEZONE local (interp dateFrom)
                          (interp dateTo) method rows in
            r = Endpoint.mkResponse 200 (Some "text/html")
                  (Endpoint.Html
                     (Endpoint.generateHTMLReport local kept (ReportSummary.summary kept)
                        (interp dateFrom) (interp dateTo) method))
            /\ (Endpoint.absent paymentMethod = true ->
                  forall p : Payment A,
                    Report.keeps TIMEZONE local (interp dateFrom) (interp dateTo) method p
                    = String.leb (interp dateFrom)
                                 (Report.getETDateString TIMEZONE local (timestamp p))
                      && String.leb (Report.getETDateString TIMEZONE local (timestamp p))
                                    (interp dateTo)))).
Proof.
  intros dateFrom dateTo paymentMethod r.
  subst r. unfold Endpoint.serve.
  destruct (String.eqb_spec (Endpoint.method req) "OPTIONS") as [E | NE].
  { split; [reflexivity | contradiction]. }
  split; [contradiction |]. intros _.
  fold dateFrom dateTo paymentMethod.
  destruct (Endpoint.absent dateFrom) eqn:AF; cbn [orb].
  { repeat split; auto; discriminate. }
  destruct (Endpoint.absent dateTo) eqn:AT.
  { repeat split; auto; discriminate. }
  split; [| split; [| split]].
  - split.
    + destruct queried; cbn; discriminate.
    + intros [X | X]; discriminate.
  - destruct queried; cbn; discriminate.
  - intros _ _ message ->. reflexivity.
  - intros _ _ rows ->. cbv zeta.
    assert (PM : match paymentMethod with Some s => orElse s "" | None => "" end
                 = match paymentMethod with Some m => m | None => "" end).
    { destruct paymentMethod as [[| c s] |]; reflexivity. }
    rewrite PM. split; [reflexivity |].
    intros AP p.
    destruct paymentMethod as [[| c s] |]; cbn in AP; try discriminate;
      unfold Report.keeps; cbn [truthy negb orb]; now rewrite andb_true_r.
Qed.

End EndpointFacts.

(** A listing that times out; and a preflight with the parameters of a
    report. *)
Lemma serve_answers_witness :
  let q := [("dateFrom", "2025-10-19"); ("dateTo", "2025-10-19")] in
  Endpoint.serve usEastern utcZone (getRequest q) (inl "timeout" : string + list (Payment Z))
  = Endpoint.mkResponse 500 (Some "application/json")
      (Endpoint.Json [("error", Some "timeout"); ("dateFrom", Some "2025-10-19");
                      ("dateTo", Some "2025-10-19")])
  /\ Endpoint.serve usEastern utcZone (Endpoint.mkRequest "OPTIONS" q) (inr [earlyPayment])
     = Endpoint.mkResponse 200 None Endpoint.NoBody.
Proof.
  cbv zeta. split.
  - pose proof (@serve_answers usEastern utcZone Z _
                  (getRequest [("dateFrom", "2025-10-19"); ("dateTo", "2025-10-19")])
                  (inl "timeout")) as (_ & S).
    destruct (S ltac:(discriminate)) as (_ & _ & E & _).
    exact (E eq_refl eq_refl "timeout" eq_refl).
  - exact (proj1 (@serve_answers usEastern utcZone Z _
                    (Endpoint.mkRequest "OPTIONS"
                       [("dateFrom", "2025-10-19"); ("dateTo", "2025-10-19")])
                    (inr [earlyPayment])) eq_refl).
Defined.

(** ** An inverted range *)

(** C8, at the failing input. With dateFrom = 0100-01-01 and dateTo = 0099-12-31
    the client filter keeps a payment of 1999: [new Date(99, 11, 31)]
    is the last day of 1999.  The filter of the report, which compares
    the keys themselves, keeps nothing. *)
Theorem inverted_range_two_digit_year :
  App.filteredPayments usEastern (mkFilter "" "0100-01-01" "0099-12-31" "") [oldPayment]
  = [oldPayment]
  /\ dayOfKey "0100-01-01" = Some (-683003) /\ dayOfKey "0099-12-31" = Some (-683004)
  /\ Report.filteredPayments usEastern utcZone "0100-01-01" "0099-12-31" "" [oldPayment]
     = [].
Proof. vm_compute. repeat split. Qed.

(** ** The name of the downloaded file *)

(** C9, counterexample. For the single date 2025-10-19 the file is called
    payment-report-2025-10-19.html, not report-2025-10-19; for a range,
    payment-report-2025-10-01-to-2025-10-19.html. *)
Lemma filename_is_not_bare_report :
  Download.filename "2025-10-19" "2025-10-19" = "payment-report-2025-10-19.html"
  /\ Download.filename "2025-10-19" "2025-10-19" <> "report-" ++ "2025-10-19"
  /\ Download.filename "2025-10-01" "2025-10-19"
     = "payment-report-2025-10-01-to-2025-10-19.html"
  /\ Download.filename "2025-10-01" "2025-10-19"
     <> "report-" ++ "2025-10-01" ++ "-to-" ++ "2025-10-19".
Proof. vm_compute. repeat split; discriminate. Qed.

(** C9, as amended. For every download that succeeds, with the range resolved
    to from..to, the file is called payment-report-<from>.html when
    from equals to, and payment-report-<from>-to-<to>.html when they
    differ. *)
Theorem download_filename (TIMEZONE : TimeZone) (now : Z) (f : FilterState)
  (fetch : list (string * string) -> bool * string) (name content : string) :
  Download.handleGenerateCurrentReport TIMEZONE now f fetch = Some (name, content) ->
  exists from to,
    resolved TIMEZONE now (dateFrom f) = Some from
    /\ resolved TIMEZONE now (dateTo f) = Some to
    /\ fetch (Download.params from to (paymentMethod f)) = (true, content)
    /\ (from = to -> name = "payment-report-" ++ from ++ ".html")
    /\ (from <> to -> name = "payment-report-" ++ from ++ "-to-" ++ to ++ ".html").
Proof.
  unfold Download.handleGenerateCurrentReport. fold (resolved TIMEZONE now (dateFrom f)).
  fold (resolved TIMEZONE now (dateTo f)).
  destruct (resolved TIMEZONE now (dateFrom f)) as [from |]; [| discriminate].
  destruct (resolved TIMEZONE now (dateTo f)) as [to |]; [| discriminate].
  destruct (fetch (Download.params from to (paymentMethod f))) as [ok text] eqn:F.
  cbn [fst snd]. destruct ok; [| discriminate].
  intros E. injection E as <- <-.
  exists from, to. split; [reflexivity |]. split; [reflexivity |].
  split; [exact F |]. split.
  - intros ->. unfold Download.filename. now rewrite String.eqb_refl.
  - intros NE. unfold Download.filename.
    destruct (String.eqb_spec from to); [contradiction | reflexivity].
Qed.

Lemma download_filename_witness :
  Download.handleGenerateCurrentReport usEastern 1760882400000
    (mkFilter "" "2025-10-01" "" "Cash") (fun _ => (true, "<!DOCTYPE html>"))
  = Some ("payment-report-2025-10-01-to-2025-10-19.html", "<!DOCTYPE html>")
  /\ exists from to,
       resolved usEastern 1760882400000 "2025-10-01" = Some from
       /\ resolved usEastern 1760882400000 "" = Some to
       /\ (from = to -> "payment-report-2025-10-01-to-2025-10-19.html"
                        = "payment-report-" ++ from ++ ".html")
       /\ (from <> to -> "payment-report-2025-10-01-to-2025-10-19.html"
                         = "payment-report-" ++ from ++ "-to-" ++ to ++ ".html").
Proof.
  split; [reflexivity |].
  destruct (download_filename usEastern 1760882400000
              (mkFilter "" "2025-10-01" "" "Cash") (fun _ => (true, "<!DOCTYPE html>"))
              "payment-report-2025-10-01-to-2025-10-19.html" "<!DOCTYPE html>" eq_refl)
    as (from & to & R1 & R2 & _ & N1 & N2).
  exists from, to. repeat split; assumption.
Defined.

(* ================================================================= *)
(** * More of the program *)

(** ** The Summary, card by card *)

Section Cards.

Context {A : Type} `{Num A}.

Lemma fold_fields (l : list (Payment A)) : forall acc : Summary A,
  let r := fold_left SummaryCards.reducer l acc in
  cash r = fold_left plus (ofMethod "Cash" l) (cash acc)
  /\ zelle r = fold_left plus (ofMethod "Zelle" l) (zelle acc)
  /\ check r = fold_left plus (ofMethod "Check" l) (check acc)
  /\ bookerCC r = fold_left plus (ofMethod "Booker CC" l) (bookerCC acc)
  /\ total r = fold_left plus l (total acc).
Proof.
  induction l as [| p l IH]; intros acc; cbv zeta.
  - cbn. repeat split.
  - cbn [fold_left]. destruct (IH (SummaryCards.reducer acc p)) as (C & Z & K & B & T).
    destruct (reducer_fields acc p) as (C' & Z' & K' & B' & T').
    rewrite C, Z, K, B, T, C', Z', K', B', T'.
    unfold ofMethod. cbn [filter].
    repeat split;
      match goal with
      | |- context [String.eqb ?a ?b] => destruct (String.eqb a b); reflexivity
      | _ => reflexivity
      end.
Qed.

(** X1. In any arithmetic, floating point included, each of the four
    cards of the Summary shows the amounts of the payments of its
    method added up from zero in the order of the list, and the total
    shows the amounts of all the payments added up the same way; the
    report computes the same five numbers from the same list. *)
Theorem summary_cards_are_sums (payments : list (Payment A)) :
  let s := SummaryCards.summary payments in
  cash s = sumOf (ofMethod "Cash" payments)
  /\ zelle s = sumOf (ofMethod "Zelle" payments)
  /\ check s = sumOf (ofMethod "Check" payments)
  /\ bookerCC s = sumOf (ofMethod "Booker CC" payments)
  /\ total s = sumOf payments
  /\ ReportSummary.summary payments = s.
Proof.
  cbv zeta.
  destruct (fold_fields payments (mkSummary zero zero zero zero zero))
    as (C & Z & K & B & T).
  exact (conj C (conj Z (conj K (conj B (conj T eq_refl))))).
Qed.

End Cards.

(** The kept part of a list is the same in every order of the list. *)
Lemma filter_permutation {A : Type} (g : A -> bool) (l l' : list A) :
  Permutation l l' -> Permutation (filter g l) (filter g l').
Proof.
  induction 1 as [| p l l' _ IH | p q l | l l' l'' _ IH1 _ IH2]; cbn [filter].
  - constructor.
  - destruct (g p); [now constructor | exact IH].
  - destruct (g p), (g q); try apply Permutation_refl. constructor.
  - now apply Permutation_trans with (filter g l').
Qed.

(** X2. In binary64, when none of the additions that build the Summary
    rounds, nor any of the three of cash + zelle + check + bookerCC,
    the total stands for the number the sum of the four cards stands
    for plus the amounts of the payments whose method is none of Cash,
    Zelle, Check and Booker CC: such a payment counts in the total and
    in no card. *)
Theorem summary_total_with_others (payments : list (Payment float)) :
  noRounding floatValue payments = true ->
  cardsAddExactly floatValue (SummaryCards.summary payments) = true ->
  exists c,
    floatValue (sumOfMethods (SummaryCards.summary payments)) = Some c
    /\ floatValue (total (SummaryCards.summary payments))
       = Some (c + amounts floatValue (otherMethods payments)).
Proof. apply (@total_and_cards float Num_float floatValue floatValue_zero). Qed.

(** 100.00 in cash and 50.25 by Zelle on the cards, 25.00 by Venmo on
    none. *)
Lemma summary_total_with_others_witness :
  total (SummaryCards.summary mixedPayments) = 175.25%float
  /\ sumOfMethods (SummaryCards.summary mixedPayments) = 150.25%float
  /\ amounts floatValue (otherMethods mixedPayments) = 25 * 2 ^ 1074
  /\ exists c,
       floatValue (sumOfMethods (SummaryCards.summary mixedPayments)) = Some c
       /\ floatValue (total (SummaryCards.summary mixedPayments))
          = Some (c + amounts floatValue (otherMethods mixedPayments)).
Proof.
  split; [vm_compute; reflexivity |]. split; [vm_compute; reflexivity |].
  split; [vm_compute; reflexivity |].
  apply (summary_total_with_others mixedPayments); vm_compute; reflexivity.
Defined.

(** X3. In binary64, when no addition rounds in either order, the
    Summary does not depend on the order of the payments: the report,
    which takes them oldest first, and the dashboard, which takes them
    newest first, reach five totals that are equal for [==]. *)
Theorem summary_order_free (shown listed : list (Payment float)) :
  Permutation shown listed ->
  noRounding floatValue shown = true -> noRounding floatValue listed = true ->
  let dashboard := SummaryCards.summary shown in
  let report := ReportSummary.summary listed in
  PrimFloat.eqb (cash report) (cash dashboard) = true
  /\ PrimFloat.eqb (zelle report) (zelle dashboard) = true
  /\ PrimFloat.eqb (check report) (check dashboard) = true
  /\ PrimFloat.eqb (bookerCC report) (bookerCC dashboard) = true
  /\ PrimFloat.eqb (total report) (total dashboard) = true.
Proof.
  intros P N1 N2. cbv zeta.
  change (ReportSummary.summary listed) with (SummaryCards.summary listed).
  destruct (@summary_values float Num_float floatValue floatValue_zero shown N1)
    as (C1 & Z1 & K1 & B1 & T1).
  destruct (@summary_values float Num_float floatValue floatValue_zero listed N2)
    as (C2 & Z2 & K2 & B2 & T2).
  assert (F : forall m, amounts floatValue (ofMethod m listed)
                        = amounts floatValue (ofMethod m shown)).
  { intros m. apply amounts_permutation, Permutation_sym.
    unfold ofMethod. now apply filter_permutation. }
  rewrite !F in *. rewrite <- (amounts_permutation floatValue shown listed P) in T2.
  repeat split; eapply floatValue_eqb; eassumption.
Qed.

Lemma summary_order_free_witness :
  Permutation wholePayments (rev wholePayments)
  /\ (let dashboard := SummaryCards.summary wholePayments in
      let report := ReportSummary.summary (rev wholePayments) in
      PrimFloat.eqb (cash report) (cash dashboard) = true
      /\ PrimFloat.eqb (zelle report) (zelle dashboard) = true
      /\ PrimFloat.eqb (check report) (check dashboard) = true
      /\ PrimFloat.eqb (bookerCC report) (bookerCC dashboard) = true
      /\ PrimFloat.eqb (total report) (total dashboard) = true).
Proof.
  assert (P : Permutation wholePayments (rev wholePayments)) by apply Permutation_rev.
  split; [exact P |].
  apply (summary_order_free wholePayments (rev wholePayments) P); vm_compute; reflexivity.
Defined.

(** ** The client filter at its edges *)

Section OpenRanges.

Variable tz : TimeZone.
Hypothesis regular : regularZone tz.
Context {A : Type}.

(** X4. A range open on one side, in a regular zone: with dateTo empty
    the client filter keeps the payments of the day dateFrom and of the
    days after it, with dateFrom empty those of the day dateTo and of
    the days before it, the day of a payment being the calendar day of
    its time in the zone of the browser; search text and method apply
    as always. *)
Theorem open_range_keeps search method n (p : Payment A) t :
  plainDay n ->
  ofString tz (timestamp p) = Some t ->
  plainDay (Day (LocalTime tz t)) ->
  App.keeps tz (mkFilter search (dateKey n) "" method) p
  = (n <=? Day (LocalTime tz t)) && searchAndMethod (mkFilter search "" "" method) p
  /\ App.keeps tz (mkFilter search "" (dateKey n) method) p
     = (Day (LocalTime tz t) <=? n) && searchAndMethod (mkFilter search "" "" method) p.
Proof.
  intros P TS PP. unfold App.keeps, searchAndMethod.
  cbn [dateFrom dateTo searchTerm paymentMethod].
  rewrite (dateKey_nonempty n) by now apply plainDay_fourDigit.
  cbn [truthy orb option_map]. rewrite TS.
  rewrite (fromDateOnly_day tz regular), (toDateOnly_day tz regular),
    (dateOnly_day tz regular) by assumption.
  cbn [ge le]. rewrite !(midnight_leb tz regular).
  split.
  - destruct (n <=? Day (LocalTime tz t)); reflexivity.
  - destruct (Day (LocalTime tz t) <=? n); reflexivity.
Qed.

End OpenRanges.

Lemma phoenix_offset :
  - (16 * msPerHour) <= -7 * msPerHour <= 16 * msPerHour
  /\ (-7 * msPerHour) mod msPerSecond = 0.
Proof. split; [unfold msPerHour; lia | reflexivity]. Qed.

(** A day is in a range of years: by computation. *)
Ltac in_range :=
  unfold plainDay, modernDay, fourDigitDay; vm_compute; split; [discriminate | reflexivity].

Lemma open_range_keeps_witness :
  App.keeps phoenixTime (mkFilter "" "2025-10-19" "" "") earlyPayment = false
  /\ App.keeps phoenixTime (mkFilter "" "" "2025-10-19" "") earlyPayment = true.
Proof.
  exact (open_range_keeps phoenixTime (fixedZone_regular _ (proj1 phoenix_offset))
           "" "" 20380 earlyPayment 1760851800000
           ltac:(in_range) eq_refl
           ltac:(in_range)).
Defined.

Section ClientEdges.

Variable tz : TimeZone.
Context {A : Type}.

Lemma dateOnly_invalid : App.dateOnly tz None = None.
Proof. reflexivity. Qed.

(** A string that does not begin with a digit is no date. *)
Lemma stops_ofString s : stops s = true -> ofString tz s = None.
Proof.
  destruct s as [| c r]; [reflexivity |]. cbn [stops]. intros N.
  apply negb_true_iff in N.
  unfold ofString, parse, parseISO, parseLocale, readNumber. cbn [readDigits].
  unfold digitValue. now rewrite N.
Qed.

Lemma digitless_ofString s : digitless s = true -> ofString tz s = None.
Proof.
  intros D. apply stops_ofString. destruct s as [| c r]; [reflexivity |].
  unfold digitless in D. cbn [list_ascii_of_string forallb] in D.
  apply andb_true_iff in D. exact (proj1 D).
Qed.

Lemma digitless_bound d rest :
  truthy d = true -> digitless d = true -> ofString tz (d ++ rest) = None.
Proof.
  intros T D. apply stops_ofString. destruct d as [| c r]; [discriminate |].
  unfold digitless in D. cbn [list_ascii_of_string forallb] in D.
  apply andb_true_iff in D. exact (proj1 D).
Qed.

(** X5. A payment whose time holds no digit, so that no date can be
    read from it, is dropped by the client filter as soon as dateFrom
    or dateTo is set, whatever the bound; with both empty its time is
    not looked at, and the search text and the method decide. *)
Theorem unreadable_time_hidden (f : FilterState) (p : Payment A) :
  digitless (timestamp p) = true ->
  App.keeps tz f p
  = if truthy (dateFrom f) || truthy (dateTo f) then false else searchAndMethod f p.
Proof.
  intros D. pose proof (digitless_ofString _ D) as U.
  unfold App.keeps, searchAndMethod. rewrite U, dateOnly_invalid.
  destruct (truthy (dateFrom f)); destruct (truthy (dateTo f)); cbn [orb option_map];
    try reflexivity;
    repeat match goal with
           | |- context [App.dateOnly tz ?d] => destruct (App.dateOnly tz d)
           end; reflexivity.
Qed.

(** X6. A dateFrom or a dateTo that is set and holds no digit, so that no
    date can be read from it, makes the client filter drop every
    payment. *)
Theorem unreadable_bound_hides_all (f : FilterState) (payments : list (Payment A)) :
  (truthy (dateFrom f) = true /\ digitless (dateFrom f) = true)
  \/ (truthy (dateTo f) = true /\ digitless (dateTo f) = true) ->
  App.filteredPayments tz f payments = [].
Proof.
  intros B. unfold App.filteredPayments.
  assert (K : forall p : Payment A, App.keeps tz f p = false).
  { intros p. unfold App.keeps.
    destruct B as [[T D] | [T D]];
      pose proof (digitless_bound _ "T00:00:00" T D) as U0;
      pose proof (digitless_bound _ "T23:59:59" T D) as U1; rewrite T.
    - rewrite U0. cbn [orb option_map]. rewrite dateOnly_invalid.
      destruct (App.dateOnly tz (ofString tz (timestamp p))); reflexivity.
    - rewrite U1. rewrite orb_true_r. cbn [option_map]. rewrite dateOnly_invalid.
      destruct (App.dateOnly tz (ofString tz (timestamp p)));
        destruct (truthy (dateFrom f)); cbn [option_map];
        repeat match goal with
               | |- context [App.dateOnly tz ?d] => destruct (App.dateOnly tz d)
               end; cbn [ge le negb orb]; rewrite ?orb_true_r; reflexivity. }
  induction payments as [| p l IH]; cbn [filter]; [reflexivity |].
  now rewrite K.
Qed.

(** X7. After the dates are cleared, with no search text and no method
    chosen, the client filter keeps every payment, in the order it
    came, a payment whose time does not read included. *)
Theorem all_time_shows_all (f : FilterState) (payments : list (Payment A)) :
  searchTerm f = "" -> paymentMethod f = "" ->
  App.filteredPayments tz (SearchFilter.clearDates f) payments = payments.
Proof.
  intros S M.
  change (App.filteredPayments tz (SearchFilter.clearDates f) payments)
    with (filter (searchAndMethod f) payments).
  induction payments as [| p l IH]; cbn [filter]; [reflexivity |].
  unfold searchAndMethod at 1. rewrite S, M. change (toLowerCase "") with "".
  rewrite includes_nothing. cbn. now rewrite IH.
Qed.

End ClientEdges.

Lemma unreadable_time_hidden_witness :
  App.keeps usEastern (mkFilter "" "2025-10-19" "" "") unreadablePayment = false
  /\ App.keeps usEastern (mkFilter "" "" "" "") unreadablePayment = true.
Proof.
  split.
  - exact (unreadable_time_hidden usEastern (mkFilter "" "2025-10-19" "" "")
             unreadablePayment eq_refl).
  - exact (unreadable_time_hidden usEastern (mkFilter "" "" "" "")
             unreadablePayment eq_refl).
Defined.

Lemma unreadable_bound_hides_all_witness :
  App.filteredPayments usEastern (mkFilter "" "soon" "" "") [earlyPayment] = [].
Proof.
  apply (unreadable_bound_hides_all usEastern (mkFilter "" "soon" "" "") [earlyPayment]).
  left. split; reflexivity.
Defined.

Lemma all_time_shows_all_witness :
  App.filteredPayments usEastern (SearchFilter.clearDates (mkFilter "" "2031-01-01" "" ""))
    [earlyPayment; unreadablePayment; oldPayment]
  = [earlyPayment; unreadablePayment; oldPayment].
Proof.
  exact (all_time_shows_all usEastern (mkFilter "" "2031-01-01" "" "")
           [earlyPayment; unreadablePayment; oldPayment] eq_refl eq_refl).
Defined.

Lemma inverted_range_summary_witness :
  let visible := App.filteredPayments usEastern (mkFilter "" "2025-10-20" "2025-10-19" "")
                   [earlyPayment] in
  List.length visible = 0%nat /\ SummaryCards.summary visible = mkSummary 0 0 0 0 0.
Proof.
  exact (@inverted_range_summary usEastern usEastern_regular Z Num_Z "" "" 20381 20380
           [earlyPayment] ltac:(in_range)
           ltac:(in_range) ltac:(lia)).
Defined.

(** *** The search text *)

Lemma prefix_app sub s : prefix sub s = true <-> exists b, s = sub ++ b.
Proof.
  revert s. induction sub as [| c sub IH]; intros s.
  - rewrite prefix_nil. split; [intros _; now exists s | reflexivity].
  - destruct s as [| c' s]; cbn [prefix].
    + split; [discriminate | intros [b E]; discriminate].
    + destruct (ascii_dec c c') as [<- | NE].
      * rewrite IH. split; intros [b E]; exists b.
        -- cbn. now rewrite E.
        -- cbn in E. now injection E.
      * split; [discriminate | intros [b E]]. cbn in E. injection E as E1 _.
        congruence.
Qed.

Lemma includes_app s sub : includes s sub = true <-> exists a b, s = a ++ sub ++ b.
Proof.
  induction s as [| c s IH].
  - cbn [includes]. rewrite orb_false_r, prefix_app. split.
    + intros [b E]. now exists "", b.
    + intros (a & b & E). destruct a; [now exists b | discriminate].
  - cbn [includes]. rewrite orb_true_iff, prefix_app, IH. split.
    + intros [[b E] | (a & b & E)].
      * now exists "", b.
      * exists (String c a), b. cbn. now rewrite E.
    + intros (a & b & E). destruct a as [| c' a].
      * left. now exists b.
      * right. cbn in E. injection E as _ E. now exists a, b.
Qed.

(** X30. With no date bound and no method chosen, and a client name and
    a search text of ASCII characters only, the client filter keeps a
    payment exactly when the search text occurs in the name of the
    client, the letters A to Z compared without regard to case; the
    time of the payment is not looked at. *)
Theorem search_finds_substrings {A : Type} (tz : TimeZone) (f : FilterState)
  (p : Payment A) :
  plainAscii (client_name p) = true -> plainAscii (searchTerm f) = true ->
  dateFrom f = "" -> dateTo f = "" -> paymentMethod f = "" ->
  App.keeps tz f p = true
  <-> exists a b, toLowerCase (client_name p) = a ++ toLowerCase (searchTerm f) ++ b.
Proof.
  intros _ _ DF DT M. unfold App.keeps. rewrite DF, DT, M. cbn [truthy orb negb].
  rewrite andb_true_r. apply includes_app.
Qed.

Lemma search_finds_substrings_witness :
  App.keeps tongaTime (mkFilter "NN" "" "" "") unreadablePayment = false
  /\ (App.keeps tongaTime (mkFilter "NN" "" "" "") earlyPayment = true
      <-> exists a b, toLowerCase "Ann" = a ++ toLowerCase "NN" ++ b).
Proof.
  split; [reflexivity |].
  exact (search_finds_substrings tongaTime (mkFilter "NN" "" "" "") earlyPayment
           eq_refl eq_refl eq_refl eq_refl eq_refl).
Defined.

(** ** The filter of the report *)

(** X9. The filter of the report keeps the payments whose calendar day
    in the zone of the program lies between the days of the two date
    keys, method agreeing; the zone of the machine the edge function
    runs on plays no part once the time of the payment is read. *)
Theorem report_keeps_days {A : Type} (TIMEZONE local : TimeZone) from to method
  (p : Payment A) t :
  fourDigitDay from -> fourDigitDay to ->
  ofString local (timestamp p) = Some t ->
  modernDay (Day (LocalTime TIMEZONE t)) ->
  Report.keeps TIMEZONE local (dateKey from) (dateKey to) method p
  = (from <=? Day (LocalTime TIMEZONE t)) && (Day (LocalTime TIMEZONE t) <=? to)
    && (negb (truthy method) || String.eqb (payment_method p) method).
Proof.
  intros Pf Pt TS M. unfold Report.keeps.
  rewrite (getETDateString_day TIMEZONE local _ t TS M).
  rewrite !leb_dateKey by auto using plainDay_fourDigit, modernDay_plain.
  reflexivity.
Qed.

Lemma report_keeps_days_witness :
  Report.keeps usEastern tongaTime "2025-10-18" "2025-10-18" "Cash" earlyPayment = false
  /\ Report.keeps usEastern tongaTime "2025-10-19" "2025-10-19" "Cash" earlyPayment = true.
Proof.
  split.
  - exact (report_keeps_days usEastern tongaTime 20379 20379 "Cash" earlyPayment
             1760851800000 ltac:(in_range)
             ltac:(in_range) eq_refl
             ltac:(in_range)).
  - exact (report_keeps_days usEastern tongaTime 20380 20380 "Cash" earlyPayment
             1760851800000 ltac:(in_range)
             ltac:(in_range) eq_refl
             ltac:(in_range)).
Defined.

(** What the edge function makes of a time that does not read. *)
Lemma getETDateString_invalid (TIMEZONE local : TimeZone) ts :
  ofString local ts = None ->
  Report.getETDateString TIMEZONE local ts = "undefined-Invalid Date-undefined".
Proof. intros U. unfold Report.getETDateString. rewrite U. reflexivity. Qed.

(** X10. A payment whose time holds no digit, so that no date can be
    read from it, stays out of the report for every dateTo that begins
    with a digit, whatever dateFrom and the method: its date string is
    "undefined-Invalid Date-undefined", which comes after every such
    dateTo. *)
Theorem report_drops_unreadable {A : Type} (TIMEZONE local : TimeZone)
  (dateFrom method : string) (c : ascii) (rest : string) (p : Payment A) :
  digitless (timestamp p) = true ->
  isDigit c = true ->
  Report.keeps TIMEZONE local dateFrom (String c rest) method p = false.
Proof.
  intros N D. pose proof (digitless_ofString local _ N) as U.
  unfold Report.keeps. rewrite getETDateString_invalid by exact U.
  replace (String.leb "undefined-Invalid Date-undefined" (String c rest)) with false.
  - now rewrite andb_false_r.
  - symmetry. unfold String.leb. cbn [String.compare].
    unfold Ascii.compare. unfold isDigit in D.
    apply andb_true_iff in D. destruct D as [_ D]. apply Nat.leb_le in D.
    replace (N_of_ascii "u" ?= N_of_ascii c)%N with Gt; [reflexivity |].
    symmetry. apply N.compare_gt_iff.
    unfold nat_of_ascii in D. change (N_of_ascii "u") with 117%N. lia.
Qed.

Lemma report_drops_unreadable_witness :
  Report.getETDateString usEastern utcZone (timestamp unreadablePayment)
  = "undefined-Invalid Date-undefined"
  /\ Report.keeps usEastern utcZone "2025-10-19" "2025-10-19" "" unreadablePayment = false.
Proof.
  split; [reflexivity |].
  exact (report_drops_unreadable usEastern utcZone "2025-10-19" "" "2" "025-10-19"
           unreadablePayment eq_refl eq_refl).
Defined.

(** The order of strings is transitive. *)
Lemma string_leb_trans a : forall x b,
  String.leb a x = true -> String.leb x b = true -> String.leb a b = true.
Proof.
  unfold String.leb.
  induction a as [| ca a IH]; intros [| cx x] [| cb b]; cbn [String.compare];
    try (intros; reflexivity || discriminate).
  unfold Ascii.compare.
  destruct (N.compare_spec (N_of_ascii ca) (N_of_ascii cx)) as [E1 | L1 | G1];
    destruct (N.compare_spec (N_of_ascii cx) (N_of_ascii cb)) as [E2 | L2 | G2];
    destruct (N.compare_spec (N_of_ascii ca) (N_of_ascii cb)) as [E3 | L3 | G3];
    try (intros; reflexivity || discriminate); try lia.
  apply IH.
Qed.

Section InvertedReport.

Variable TIMEZONE local : TimeZone.
Context {A : Type} `{Num A}.

Lemma inverted_report_drops dateFrom dateTo method (p : Payment A) :
  String.leb dateFrom dateTo = false ->
  Report.keeps TIMEZONE local dateFrom dateTo method p = false.
Proof.
  intros Inv. unfold Report.keeps.
  set (d := Report.getETDateString TIMEZONE local (timestamp p)).
  destruct (String.leb dateFrom d) eqn:L1; [| reflexivity].
  destruct (String.leb d dateTo) eqn:L2; [| reflexivity].
  rewrite (string_leb_trans _ _ _ L1 L2) in Inv. discriminate.
Qed.

Lemma inverted_report_empty dateFrom dateTo method (rows : list (Payment A)) :
  String.leb dateFrom dateTo = false ->
  Report.filteredPayments TIMEZONE local dateFrom dateTo method rows = [].
Proof.
  intros Inv. unfold Report.filteredPayments.
  induction rows as [| p l IH]; cbn [filter]; [reflexivity |].
  now rewrite inverted_report_drops.
Qed.

(** X11. The endpoint does not refuse a range whose dateFrom comes after
    its dateTo in the order of strings: whatever the rows of the store,
    it answers with status 200 and an HTML document that has the "no
    payments" block in place of the table, counts no payment and shows
    zero for every total. *)
Theorem inverted_range_report (req : Endpoint.HttpRequest) dateFrom dateTo
  (rows : list (Payment A)) :
  Endpoint.method req <> "OPTIONS" ->
  Endpoint.get "dateFrom" (Endpoint.searchParams req) = Some dateFrom ->
  Endpoint.get "dateTo" (Endpoint.searchParams req) = Some dateTo ->
  truthy dateTo = true ->
  String.leb dateFrom dateTo = false ->
  exists doc,
    Endpoint.serve TIMEZONE local req (inr rows)
    = Endpoint.mkResponse 200 (Some "text/html") (Endpoint.Html doc)
    /\ Endpoint.tableRows doc = None
    /\ Endpoint.count doc = 0%nat
    /\ Endpoint.totals doc = mkSummary zero zero zero zero zero.
Proof.
  intros NO GF GT TT Inv.
  assert (TF : truthy dateFrom = true).
  { destruct dateFrom; [| reflexivity]. destruct dateTo; discriminate. }
  unfold Endpoint.serve.
  destruct (String.eqb_spec (Endpoint.method req) "OPTIONS") as [E | _];
    [contradiction |].
  rewrite GF, GT. cbn [Endpoint.absent interp]. rewrite TF, TT. cbn [negb orb].
  rewrite inverted_report_empty by exact Inv.
  eexists. split; [reflexivity |]. repeat split.
Qed.

End InvertedReport.

Lemma inverted_range_report_witness :
  exists doc,
    Endpoint.serve usEastern utcZone
      (getRequest (Download.params "2025-10-20" "2025-10-19" "")) (inr [earlyPayment])
    = Endpoint.mkResponse 200 (Some "text/html") (Endpoint.Html doc)
    /\ Endpoint.tableRows doc = None
    /\ Endpoint.count doc = 0%nat
    /\ Endpoint.totals doc = mkSummary 0 0 0 0 0.
Proof.
  apply (@inverted_range_report usEastern utcZone Z Num_Z
           (getRequest (Download.params "2025-10-20" "2025-10-19" ""))
           "2025-10-20" "2025-10-19" [earlyPayment]);
    [discriminate | reflexivity | reflexivity | reflexivity | reflexivity].
Defined.

(** ** The report of what the dashboard shows *)

Section SameReport.

Variable z : TimeZone.
Hypothesis regular : regularZone z.
Variable server : TimeZone.
Context {A : Type} `{Num A}.

(** In a browser whose zone is the zone of the program, for date keys
    and payments of the years 1000 to 9999, the filter of the report
    and the filter of the dashboard (empty search text) keep the same
    payments. *)
Lemma filters_agree from to method (p : Payment A) t :
  modernDay from -> modernDay to ->
  ofString z (timestamp p) = Some t ->
  ofString server (timestamp p) = Some t ->
  modernDay (Day (LocalTime z t)) ->
  Report.keeps z server (dateKey from) (dateKey to) method p
  = App.keeps z (mkFilter "" (dateKey from) (dateKey to) method) p.
Proof.
  intros Mf Mt Tb Ts Mp.
  rewrite (client_keeps_days z regular "" method from to p t)
    by auto using modernDay_plain.
  unfold Report.keeps, searchAndMethod. cbn [searchTerm paymentMethod].
  rewrite (getETDateString_day z server _ t Ts Mp).
  rewrite !leb_dateKey by auto using plainDay_fourDigit, modernDay_plain.
  change (toLowerCase "") with "". rewrite includes_nothing. reflexivity.
Qed.

Lemma filtered_agree from to method (payments : list (Payment A)) :
  modernDay from -> modernDay to ->
  Forall (readsAlike z server) payments ->
  Report.filteredPayments z server (dateKey from) (dateKey to) method payments
  = App.filteredPayments z (mkFilter "" (dateKey from) (dateKey to) method) payments.
Proof.
  intros Mf Mt All. unfold Report.filteredPayments, App.filteredPayments.
  induction All as [| p l (t & Tb & Ts & Mp) _ IH]; cbn [filter]; [reflexivity |].
  rewrite IH, (filters_agree from to method p t) by assumption.
  reflexivity.
Qed.

(** X12. In a browser whose zone is the zone of the program, a regular
    zone, with no search text and both dates set to days of the years
    1000 to 9999: when the store hands the server the payments of the
    dashboard in whatever order, the report asked for with the
    criteria of the dashboard lists the payments the dashboard shows,
    in the order of the server, and its totals are the Summary of the
    payments it lists, added in that order; this in any arithmetic,
    binary64 included. *)
Theorem report_matches_dashboard from to method (payments rows : list (Payment A)) :
  modernDay from -> modernDay to ->
  Forall (readsAlike z server) payments ->
  Permutation payments rows ->
  let f := mkFilter "" (dateKey from) (dateKey to) method in
  let shown := App.filteredPayments z f payments in
  let listed := App.filteredPayments z f rows in
  Permutation shown listed
  /\ Endpoint.serve z server
       (getRequest (Download.params (dateKey from) (dateKey to) method)) (inr rows)
     = Endpoint.mkResponse 200 (Some "text/html")
         (Endpoint.Html
            (Endpoint.generateHTMLReport server listed (SummaryCards.summary listed)
               (dateKey from) (dateKey to) method)).
Proof.
  intros Mf Mt All P f shown listed.
  assert (PS : Permutation shown listed) by now apply filter_permutation.
  split; [exact PS |].
  assert (All' : Forall (readsAlike z server) rows).
  { apply Forall_forall. intros p I. rewrite Forall_forall in All. apply All.
    apply Permutation_in with (l := rows); [now apply Permutation_sym | exact I]. }
  unfold Endpoint.serve, getRequest, Download.params.
  cbn [Endpoint.method Endpoint.searchParams Endpoint.get String.eqb Ascii.eqb Bool.eqb
       Endpoint.absent interp].
  rewrite !dateKey_nonempty by auto using plainDay_fourDigit, modernDay_plain.
  cbn [negb orb].
  replace (orElse method "") with method by (destruct method; reflexivity).
  rewrite (filtered_agree from to method rows Mf Mt All').
  reflexivity.
Qed.

End SameReport.

(** The dashboard newest first, the store oldest first; the payment of
    03:30 UTC belongs to the day before on Eastern time. *)
Lemma report_matches_dashboard_witness :
  let f := mkFilter "" "2025-10-19" "2025-10-19" "" in
  App.filteredPayments usEastern f [lateEveningPayment; earlyPayment; smallHoursPayment]
  = [lateEveningPayment; earlyPayment]
  /\ Endpoint.serve usEastern utcZone
       (getRequest (Download.params "2025-10-19" "2025-10-19" ""))
       (inr [smallHoursPayment; earlyPayment; lateEveningPayment])
     = Endpoint.mkResponse 200 (Some "text/html")
         (Endpoint.Html
            (Endpoint.generateHTMLReport utcZone [earlyPayment; lateEveningPayment]
               (SummaryCards.summary [earlyPayment; lateEveningPayment])
               "2025-10-19" "2025-10-19" "")).
Proof.
  cbv zeta. split; [reflexivity |].
  assert (All : Forall (readsAlike usEastern utcZone)
                  [lateEveningPayment; earlyPayment; smallHoursPayment]).
  { repeat (apply Forall_cons;
            [eexists; split; [reflexivity | split; [reflexivity |]];
             unfold modernDay; vm_compute; split; [discriminate | reflexivity] |]).
    apply Forall_nil. }
  exact (proj2 (@report_matches_dashboard usEastern usEastern_regular utcZone Z Num_Z
                  20380 20380 ""
                  [lateEveningPayment; earlyPayment; smallHoursPayment]
                  [smallHoursPayment; earlyPayment; lateEveningPayment]
                  ltac:(in_range) ltac:(in_range)
                  All (Permutation_rev _))).
Defined.

(** ** Today *)

(** The parts of a numeric date. *)
Lemma split_numeric_date n :
  fourDigitDay n ->
  split "/" (pad2 (MonthFromDay n + 1) ++ "/" ++ pad2 (DateFromDay n) ++ "/"
             ++ pad4 (YearFromDay n))
  = [pad2 (MonthFromDay n + 1); pad2 (DateFromDay n); pad4 (YearFromDay n)].
Proof.
  intros R. pose proof (fourDigitDay_year n R) as Y.
  pose proof (MonthFromDay_range n) as Mo. pose proof (DateFromDay_range n) as Da.
  set (mm := pad2 (MonthFromDay n + 1)). set (dd := pad2 (DateFromDay n)).
  set (yyyy := pad4 (YearFromDay n)).
  assert (Dm : allDigits mm = true) by (apply pad2_allDigits; lia).
  assert (Dd : allDigits dd = true) by (apply pad2_allDigits; lia).
  assert (Dy : allDigits yyyy = true) by (apply pad4_allDigits; lia).
  unfold split.
  change (mm ++ "/" ++ dd ++ "/" ++ yyyy) with (mm ++ String "/" (dd ++ String "/" yyyy)).
  rewrite (splitAux_piece "/" mm _ []) by now apply allDigits_lacks.
  rewrite (splitAux_piece "/" dd _ []) by now apply allDigits_lacks.
  rewrite (splitAux_lacks "/" "" yyyy []) by now apply allDigits_lacks.
  reflexivity.
Qed.

(** Today's date is the date key of the calendar day the clock shows
    in the zone of the program. *)
Lemma getCurrentDateInET_day (TIMEZONE : TimeZone) (now : Z) :
  Z.abs now <= 8640000000000000 ->
  modernDay (Day (LocalTime TIMEZONE now)) ->
  Timezone.getCurrentDateInET TIMEZONE now = Some (dateKey (Day (LocalTime TIMEZONE now))).
Proof.
  intros C M. unfold Timezone.getCurrentDateInET, ofTime, TimeClip.
  replace (Z.abs now <=? 8640000000000000) with true by (symmetry; now apply Z.leb_le).
  unfold localeDate2, YearFromTime, MonthFromTime, DateFromTime.
  set (n := Day (LocalTime TIMEZONE now)) in *.
  assert (Y : 1000 <= YearFromDay n <= 9999).
  { destruct M as [L U]. pose proof (YearFromDay_lower n 1000 L).
    pose proof (YearFromDay_upper n 10000 U). lia. }
  pose proof (MonthFromDay_range n) as Mo. pose proof (DateFromDay_range n) as Da.
  rewrite decimal_pad4 by exact Y.
  rewrite split_numeric_date by now apply plainDay_fourDigit, modernDay_plain.
  cbn [item nth_error]. rewrite !padStart_pad2 by lia.
  unfold dateKey. reflexivity.
Qed.

Lemma eastern_clip now :
  modernDay (Day (LocalTime usEastern now)) -> Z.abs now <= 8640000000000000.
Proof.
  intros [L U]. pose proof (Day_bounds (LocalTime usEastern now)) as B.
  pose proof (usEastern_nearUTC now true) as O. unfold LocalTime in *.
  change (DayFromYear 1000) with (-354285) in L.
  change (DayFromYear 10000) with 2932897 in U.
  unfold msPerDay, msPerHour in *. lia.
Qed.

(** X13. Whatever zone the name of the program's zone resolves to,
    [getCurrentDateInET] returns the date key, YYYY-MM-DD, of the
    calendar day of the clock reading in that zone, for every reading
    a [Date] can hold that falls there on a day of the years 1000 to
    9999; the zone of the browser plays no part. *)
Theorem today_is_the_program_day (TIMEZONE : TimeZone) (now : Z) :
  Z.abs now <= 8640000000000000 ->
  modernDay (Day (LocalTime TIMEZONE now)) ->
  Timezone.getCurrentDateInET TIMEZONE now
  = Some (dateKey (Day (LocalTime TIMEZONE now))).
Proof. apply getCurrentDateInET_day. Qed.

(** At 03:59 UTC on the 20th it is still the 19th on Eastern time. *)
Lemma today_is_the_program_day_witness :
  Timezone.getCurrentDateInET usEastern 1760932740000 = Some "2025-10-19"
  /\ Timezone.getCurrentDateInET usEastern 1760932740000
     = Some (dateKey (Day (LocalTime usEastern 1760932740000))).
Proof.
  split; [reflexivity |].
  apply (today_is_the_program_day usEastern 1760932740000).
  - vm_compute. discriminate.
  - in_range.
Defined.

(** X14. After a click on Today in a browser whose zone is the zone of
    the program, a regular zone, the clock reading [now]: the
    dashboard keeps the payments made on the calendar day of [now] in
    that zone, search text and method agreeing, and no other. *)
Theorem today_shows_the_day {A : Type} (z : TimeZone) (now : Z) (f : FilterState)
  (p : Payment A) t :
  regularZone z ->
  Z.abs now <= 8640000000000000 ->
  modernDay (Day (LocalTime z now)) ->
  ofString z (timestamp p) = Some t ->
  plainDay (Day (LocalTime z t)) ->
  exists g,
    SearchFilter.setToday z now f = Some g
    /\ App.keeps z g p
       = (Day (LocalTime z t) =? Day (LocalTime z now)) && searchAndMethod f p.
Proof.
  intros Reg C M TS P. unfold SearchFilter.setToday.
  rewrite getCurrentDateInET_day by assumption.
  eexists. split; [reflexivity |].
  unfold SearchFilter.setBoth.
  set (n := Day (LocalTime z now)) in *.
  rewrite (client_keeps_days z Reg (searchTerm f) (paymentMethod f) n n p t)
    by auto using modernDay_plain.
  set (d := Day (LocalTime z t)).
  replace ((n <=? d) && (d <=? n)) with (d =? n).
  - reflexivity.
  - destruct (Z.eqb_spec d n), (Z.leb_spec n d), (Z.leb_spec d n); try reflexivity; lia.
Qed.

Lemma today_shows_the_day_witness :
  exists g,
    SearchFilter.setToday usEastern 1760932740000 weekRange = Some g
    /\ App.keeps usEastern g earlyPayment
       = (Day (LocalTime usEastern 1760851800000)
          =? Day (LocalTime usEastern 1760932740000))
         && searchAndMethod weekRange earlyPayment.
Proof.
  apply (today_shows_the_day usEastern 1760932740000 weekRange earlyPayment 1760851800000).
  - exact usEastern_regular.
  - vm_compute. discriminate.
  - in_range.
  - reflexivity.
  - in_range.
Defined.

(** Distinct days have distinct date keys. *)
Lemma dateKey_inj a b : fourDigitDay a -> fourDigitDay b -> dateKey a = dateKey b -> a = b.
Proof.
  intros Ra Rb E. apply Z.compare_eq. rewrite <- compare_dateKey by assumption.
  rewrite E. clear. induction (dateKey b) as [| c s IH]; [reflexivity |].
  cbn [String.compare]. unfold Ascii.compare. now rewrite N.compare_refl.
Qed.

(** X15. In a browser on US Eastern time: after a click on Today both
    bounds are today's date and the Today button is not offered; one
    click on the previous-day button later the range is yesterday's and
    the button is offered again. *)
Theorem today_button (now : Z) (f : FilterState) :
  modernDay (Day (LocalTime usEastern now) - 1) ->
  modernDay (Day (LocalTime usEastern now)) ->
  exists g h,
    SearchFilter.setToday usEastern now f = Some g
    /\ DateNavigator.isToday usEastern now g = Some true
    /\ SearchFilter.goToPreviousDay usEastern g = Some h
    /\ DateNavigator.isToday usEastern now h = Some false.
Proof.
  intros M1 M. set (n := Day (LocalTime usEastern now)) in *.
  assert (R : fourDigitDay n) by now apply plainDay_fourDigit, modernDay_plain.
  assert (R1 : fourDigitDay (n - 1)) by now apply plainDay_fourDigit, modernDay_plain.
  assert (T : Timezone.getCurrentDateInET usEastern now = Some (dateKey n))
    by (apply getCurrentDateInET_day; [now apply eastern_clip | exact M]).
  exists (SearchFilter.setBoth f (dateKey n)),
         (SearchFilter.setBoth f (dateKey (n - 1))).
  unfold SearchFilter.setToday, DateNavigator.isToday, DateNavigator.getTodayDate.
  rewrite T. cbn [SearchFilter.setBoth dateFrom dateTo].
  rewrite String.eqb_refl.
  split; [reflexivity |]. split; [reflexivity |]. split.
  - rewrite (goToPreviousDay_regular usEastern usEastern_regular usEastern_noonStable
               usEastern_nearUTC _ n) by (assumption || reflexivity).
    reflexivity.
  - destruct (String.eqb_spec (dateKey (n - 1)) (dateKey n)) as [E | _]; [| reflexivity].
    apply dateKey_inj in E; [lia | assumption | assumption].
Qed.

Lemma today_button_witness :
  exists g h,
    SearchFilter.setToday usEastern 1760932740000 weekRange = Some g
    /\ DateNavigator.isToday usEastern 1760932740000 g = Some true
    /\ SearchFilter.goToPreviousDay usEastern g = Some h
    /\ DateNavigator.isToday usEastern 1760932740000 h = Some false.
Proof.
  apply (today_button 1760932740000 weekRange).
  - in_range.
  - in_range.
Defined.

(** ** The day buttons, one step at a time *)

(** X16. In a browser whose zone is regular, keeps noon at noon and is
    less than twelve hours behind UTC and at most twelve ahead, the
    previous-day and next-day buttons set both bounds to the day before
    and to the day after dateFrom, across the ends of months and years
    and across clock changes, and leave search text and method as they
    were. *)
Theorem day_buttons_step (tz : TimeZone) (f : FilterState) (n : Z) :
  regularZone tz -> noonStable tz ->
  (forall t b, - (12 * msPerHour) < LocalTZA tz t b <= 12 * msPerHour) ->
  fourDigitDay (n - 1) -> fourDigitDay n -> fourDigitDay (n + 1) ->
  dateFrom f = dateKey n ->
  SearchFilter.goToPreviousDay tz f = Some (SearchFilter.setBoth f (dateKey (n - 1)))
  /\ SearchFilter.goToNextDay tz f = Some (SearchFilter.setBoth f (dateKey (n + 1))).
Proof.
  intros Reg Noon Near R1 R R2 E. split.
  - now apply goToPreviousDay_regular.
  - now apply goToNextDay_regular.
Qed.

(** From the first of March of a leap year. *)
Lemma day_buttons_step_witness :
  SearchFilter.goToPreviousDay usEastern (mkFilter "ann" "2024-03-01" "2024-03-31" "")
  = Some (mkFilter "ann" "2024-02-29" "2024-02-29" "")
  /\ SearchFilter.goToNextDay usEastern (mkFilter "ann" "2024-03-01" "2024-03-31" "")
     = Some (mkFilter "ann" "2024-03-02" "2024-03-02" "").
Proof.
  exact (day_buttons_step usEastern (mkFilter "ann" "2024-03-01" "2024-03-31" "") 19783
           usEastern_regular usEastern_noonStable usEastern_nearUTC
           ltac:(in_range) ltac:(in_range)
           ltac:(in_range) eq_refl).
Defined.

Lemma next_of_previous_eastern_witness :
  (let* g := SearchFilter.goToPreviousDay usEastern (oneDay "2025-01-01") in
   SearchFilter.goToNextDay usEastern g)
  = Some (oneDay "2025-01-01").
Proof.
  exact (next_of_previous_eastern (oneDay "2025-01-01") 20089
           ltac:(in_range) ltac:(in_range)
           eq_refl).
Defined.

(** ** The label of the navigator *)

Section Label.

Variable TIMEZONE : TimeZone.
Variable tz : TimeZone.
Hypothesis regular : regularZone tz.
Variable shift : Z.
(** Noon in the browser falls, in the zone of the program, on the
    calendar day [shift] days from the browser's. *)
Hypothesis noonDay :
  forall n, Day (LocalTime TIMEZONE (UTC tz (noonOf n))) = n + shift.

Lemma noon_value n :
  fourDigitDay n ->
  ofString tz (dateKey n ++ "T12:00:00") = Some (UTC tz (noonOf n)).
Proof.
  intros R.
  change "T12:00:00" with ("T" ++ pad2 12 ++ ":" ++ pad2 0 ++ ":" ++ pad2 0).
  rewrite (ofString_dateKey tz regular) by (auto; lia). reflexivity.
Qed.

Lemma label_of_range a b search method :
  fourDigitDay a -> fourDigitDay b ->
  DateNavigator.formatDisplayDate TIMEZONE tz
    (mkFilter search (dateKey a) (dateKey b) method)
  = if a =? b then longDate (a + shift)
    else shortDay (a + shift) ++ " - " ++ shortDate (b + shift).
Proof.
  intros Ra Rb. unfold DateNavigator.formatDisplayDate.
  cbn [dateFrom dateTo]. rewrite !dateKey_nonempty by assumption.
  cbn [negb andb].
  unfold TimezoneFormat.formatDateOnlyInET, TimezoneFormat.formatShortDateInET,
    TimezoneFormat.formatShortDateWithYearInET.
  rewrite !noon_value by assumption.
  unfold TimezoneFormat.localeLongDate, TimezoneFormat.localeShortDay,
    TimezoneFormat.localeShortDate, YearFromTime, MonthFromTime, DateFromTime.
  rewrite !noonDay.
  destruct (Z.eqb_spec a b) as [-> | NE].
  - rewrite String.eqb_refl. reflexivity.
  - destruct (String.eqb_spec (dateKey a) (dateKey b)) as [E | _]; [| reflexivity].
    now apply dateKey_inj in E.
Qed.

End Label.

(** X19. The zone of the program being four to five hours behind UTC,
    as America/New_York is under each of its rules: in a browser whose
    zone is regular and whose offset from UTC lies between sixteen
    hours behind and seven hours ahead, for days of the years 100 to
    9999, the label of the navigator names the day chosen when
    dateFrom equals dateTo ("October 19, 2025"), and the two days of
    the range otherwise ("Oct 19 - Oct 25, 2025"). *)
Theorem navigator_label (TIMEZONE tz : TimeZone) a b search method :
  easternOffsets TIMEZONE ->
  regularZone tz ->
  (forall t i, - (16 * msPerHour) < LocalTZA tz t i <= 7 * msPerHour) ->
  plainDay a -> plainDay b ->
  DateNavigator.formatDisplayDate TIMEZONE tz
    (mkFilter search (dateKey a) (dateKey b) method)
  = if a =? b then longDate a else shortDay a ++ " - " ++ shortDate b.
Proof.
  intros East Reg B Pa Pb.
  assert (N : forall n, Day (LocalTime TIMEZONE (UTC tz (noonOf n))) = n + 0).
  { intros n. pose proof (B (noonOf n) false) as O.
    pose proof (East (UTC tz (noonOf n)) true) as O'.
    unfold LocalTime, UTC in *.
    unfold Day, noonOf, MakeDate, MakeTime, msPerDay, msPerHour, msPerMinute,
      msPerSecond in *; div_lia. }
  rewrite (label_of_range TIMEZONE tz Reg 0 N) by now apply plainDay_fourDigit.
  now rewrite !Z.add_0_r.
Qed.

(** X20. The zone of the program being four to five hours behind UTC: in
    a browser whose zone is regular and more than eight hours ahead of
    UTC, for a day of the years 100 to 9999 that is not the first of
    them, the label of the navigator names the day before the one
    chosen: noon in the browser is still the eve in the zone of the
    program, in which the label is rendered. *)
Theorem navigator_label_far_east (TIMEZONE tz : TimeZone) a search method :
  easternOffsets TIMEZONE ->
  regularZone tz ->
  (forall t i, 8 * msPerHour < LocalTZA tz t i <= 16 * msPerHour) ->
  plainDay (a - 1) -> plainDay a ->
  DateNavigator.formatDisplayDate TIMEZONE tz
    (mkFilter search (dateKey a) (dateKey a) method)
  = longDate (a - 1).
Proof.
  intros East Reg B _ Pa.
  assert (N : forall n, Day (LocalTime TIMEZONE (UTC tz (noonOf n))) = n + -1).
  { intros n. pose proof (B (noonOf n) false) as O.
    pose proof (East (UTC tz (noonOf n)) true) as O'.
    unfold LocalTime, UTC in *.
    unfold Day, noonOf, MakeDate, MakeTime, msPerDay, msPerHour, msPerMinute,
      msPerSecond in *; div_lia. }
  rewrite (label_of_range TIMEZONE tz Reg (-1) N) by now apply plainDay_fourDigit.
  now rewrite Z.eqb_refl.
Qed.

Lemma usEastern_offsets : easternOffsets usEastern.
Proof.
  intros t b. cbn [LocalTZA usEastern].
  destruct (eastern_offsets t b) as [E | E]; rewrite E; unfold EST, EDT, msPerHour; lia.
Qed.

Lemma usEastern_label_range t i :
  - (16 * msPerHour) < LocalTZA usEastern t i <= 7 * msPerHour.
Proof.
  pose proof (usEastern_offsets t i). unfold msPerHour in *. lia.
Qed.

Lemma navigator_label_witness :
  DateNavigator.formatDisplayDate usEastern usEastern (oneDay "2025-10-19")
  = "October 19, 2025"
  /\ DateNavigator.formatDisplayDate usEastern usEastern weekRange
     = "Oct 19 - Oct 25, 2025".
Proof.
  split.
  - exact (navigator_label usEastern usEastern 20380 20380 "" "Cash" usEastern_offsets
             usEastern_regular usEastern_label_range ltac:(in_range)
             ltac:(in_range)).
  - exact (navigator_label usEastern usEastern 20380 20386 "" "Cash" usEastern_offsets
             usEastern_regular usEastern_label_range ltac:(in_range)
             ltac:(in_range)).
Defined.

Lemma navigator_label_far_east_witness :
  DateNavigator.formatDisplayDate usEastern tongaTime (oneDay "2025-10-19")
  = "October 18, 2025".
Proof.
  refine (navigator_label_far_east usEastern tongaTime 20380 "" "Cash" usEastern_offsets
            (fixedZone_regular (13 * msPerHour) _) _
            ltac:(in_range) ltac:(in_range)).
  - unfold msPerHour. lia.
  - intros t i. cbn [LocalTZA tongaTime fixedZone]. unfold msPerHour. lia.
Defined.

(** ** The handlers, run to their end *)

Section Runs.

Variable local : TimeZone.
Context {A : Type}.

Abbreviation World := (@Handlers.World A).
Abbreviation Request := (@Handlers.Request A).
Abbreviation Action := (@Handlers.Action A).

Lemma loadPayments_run (w : World) : Handlers.loadPayments w = (inl tt, reloaded w).
Proof.
  unfold Handlers.loadPayments, Handlers.finally, Handlers.tryCatch, Handlers.bind.
  rewrite send_run. unfold reloaded, sent.
  destruct (outcome 0 w); reflexivity.
Qed.

Lemma write_run (c : Request) (k : Handlers.M unit) (notice : string) (w : World) :
  (forall w0, fst (k w0) = inl tt) ->
  Handlers.tryCatch
    (Handlers.bind (Handlers.send c)
       (fun r => Handlers.bind (Handlers.throwIf (snd r))
          (fun _ => Handlers.bind Handlers.loadPayments (fun _ => k))))
    (fun _ => Handlers.alert notice) w
  = (inl tt, written c (Handlers.exec k) notice w).
Proof.
  intros K. unfold written, Handlers.tryCatch, Handlers.bind at 1. rewrite send_run.
  destruct (outcome 0 w).
  - cbn [fst snd Handlers.throwIf Handlers.bind Handlers.ret]. unfold Handlers.bind.
    rewrite loadPayments_run. unfold Handlers.exec.
    specialize (K (reloaded (sent c w))). destruct (k (reloaded (sent c w))) as [r w'].
    cbn in K. subst r. reflexivity.
  - reflexivity.
Qed.

Lemma handleAddPayment_run (fd : PaymentFormData A) (ts : string) (w : World) :
  toISOString (ofString local (form_timestamp fd)) = Some ts ->
  Handlers.handleAddPayment local fd w
  = (inl tt,
     written (Handlers.Insert (Handlers.rowOf fd ts))
       (Handlers.exec (Handlers.setIsFormOpen false))
       "Failed to add payment. Please try again." w).
Proof.
  intros TS. unfold Handlers.handleAddPayment, Handlers.isoTimestamp. rewrite TS.
  apply (write_run _ (Handlers.setIsFormOpen false)). reflexivity.
Qed.

Lemma handleUpdatePayment_run (fd : PaymentFormData A) (ts : string) (e : Payment A)
  (w : World) :
  Handlers.editingPayment w = Some e ->
  toISOString (ofString local (form_timestamp fd)) = Some ts ->
  Handlers.handleUpdatePayment local fd w
  = (inl tt,
     written (Handlers.Update (Handlers.rowOf fd ts) (id e))
       (Handlers.exec (Handlers.setEditingPayment None))
       "Failed to update payment. Please try again." w).
Proof.
  intros EP TS. unfold Handlers.handleUpdatePayment. rewrite EP.
  unfold Handlers.isoTimestamp. rewrite TS.
  apply (write_run _ (Handlers.setEditingPayment None)). reflexivity.
Qed.

Lemma handleDeletePayment_run (i : string) (w : World) :
  Handlers.handleDeletePayment i w
  = (inl tt,
     written (Handlers.Delete i) (fun w' => w')
       "Failed to delete payment. Please try again." w).
Proof.
  unfold Handlers.handleDeletePayment.
  pose proof (write_run (Handlers.Delete i) (Handlers.ret tt)
                "Failed to delete payment. Please try again." w
                ltac:(reflexivity)) as R.
  etransitivity; [| exact R]. unfold Handlers.tryCatch, Handlers.bind.
  destruct (Handlers.send (Handlers.Delete i) w) as [[r | e] w1]; [| reflexivity].
  destruct (Handlers.throwIf (snd r) w1) as [[u | e] w2]; [| reflexivity].
  rewrite loadPayments_run. reflexivity.
Qed.

Lemma written_requests (c : Request) (after : World -> World) notice (w : World) :
  (forall w0, Handlers.requests (after w0) = Handlers.requests w0) ->
  Handlers.requests (written c after notice w)
  = (Handlers.requests w ++ c :: (if outcome 0 w then [Handlers.SelectAll] else []))%list.
Proof.
  intros K. unfold written. destruct (outcome 0 w).
  - rewrite K. unfold reloaded, sent. cbn [Handlers.requests].
    now rewrite <- app_assoc.
  - reflexivity.
Qed.

(** X24. [loadPayments] never throws and always ends the loading state.
    It sends one listing request; when the store answers, the payments
    of the client become the listing, newest first; when the store
    fails they stay what they were and one notice is shown.  The table
    of the store and the form are left alone. *)
Theorem loadPayments_settles (w : World) :
  let r := Handlers.loadPayments w in
  fst r = inl tt
  /\ Handlers.isLoading (snd r) = false
  /\ Handlers.requests (snd r) = (Handlers.requests w ++ [Handlers.SelectAll])%list
  /\ Handlers.payments (snd r)
     = (if outcome 0 w then Handlers.newestFirst (Handlers.table w)
        else Handlers.payments w)
  /\ Handlers.alerts (snd r)
     = (if outcome 0 w then Handlers.alerts w
        else (Handlers.alerts w ++ ["Failed to load payments. Please try again."])%list)
  /\ Handlers.table (snd r) = Handlers.table w
  /\ Handlers.isFormOpen (snd r) = Handlers.isFormOpen w
  /\ Handlers.editingPayment (snd r) = Handlers.editingPayment w.
Proof. cbv zeta. rewrite loadPayments_run. repeat split. Qed.

(** X25. An action that stops before the store changes nothing but the
    notices: an add or an update whose form time holds no digit, so
    that no date can be read from it, shows its notice of failure and
    sends nothing; and an update with no payment being edited does
    nothing at all, whatever the form holds. *)
Theorem stopped_before_store (fd : PaymentFormData A) (w : World) :
  (digitless (form_timestamp fd) = true ->
   Handlers.perform local (Handlers.AddPayment fd) w
   = (inl tt,
      Handlers.exec (Handlers.alert "Failed to add payment. Please try again.") w)
   /\ forall e, Handlers.editingPayment w = Some e ->
        Handlers.perform local (Handlers.UpdatePayment fd) w
        = (inl tt,
           Handlers.exec (Handlers.alert "Failed to update payment. Please try again.")
             w))
  /\ (Handlers.editingPayment w = None ->
      Handlers.perform local (Handlers.UpdatePayment fd) w = (inl tt, w)).
Proof.
  split.
  - intros D. pose proof (digitless_ofString local _ D) as U.
    cbn [Handlers.perform]. split.
    + unfold Handlers.handleAddPayment, Handlers.isoTimestamp, Handlers.tryCatch,
        Handlers.bind. rewrite U. reflexivity.
    + intros e EP.
      unfold Handlers.handleUpdatePayment, Handlers.isoTimestamp, Handlers.tryCatch,
        Handlers.bind. rewrite EP, U. reflexivity.
  - intros EP. cbn [Handlers.perform]. unfold Handlers.handleUpdatePayment.
    now rewrite EP.
Qed.

(** X26. The form closes when the store has carried the write out,
    whether or not the reload that follows succeeds, and stays as it is
    when the store refuses: after an add [isFormOpen] is false in the
    first case, after an update [editingPayment] is null. *)
Theorem form_closes_when_stored (fd : PaymentFormData A) (ts : string) (w : World) :
  toISOString (ofString local (form_timestamp fd)) = Some ts ->
  (let w' := Handlers.exec (Handlers.handleAddPayment local fd) w in
   Handlers.isFormOpen w' = (if outcome 0 w then false else Handlers.isFormOpen w)
   /\ Handlers.editingPayment w' = Handlers.editingPayment w)
  /\ (forall e, Handlers.editingPayment w = Some e ->
      let w' := Handlers.exec (Handlers.handleUpdatePayment local fd) w in
      Handlers.editingPayment w' = (if outcome 0 w then None else Some e)
      /\ Handlers.isFormOpen w' = Handlers.isFormOpen w).
Proof.
  intros TS. split.
  - cbv zeta. unfold Handlers.exec.
    rewrite (handleAddPayment_run fd ts w TS). cbn [snd].
    unfold written. destruct (outcome 0 w); split; reflexivity.
  - intros e EP. cbv zeta. unfold Handlers.exec.
    rewrite (handleUpdatePayment_run fd ts e w EP TS). cbn [snd].
    unfold written. destruct (outcome 0 w); split; cbn; congruence.
Qed.

Lemma insertDesc_In (p q : Payment A) l : In q (Handlers.insertDesc p l) <-> q = p \/ In q l.
Proof.
  induction l as [| x l IH]; cbn [Handlers.insertDesc].
  - cbn. intuition congruence.
  - destruct (Handlers.later p x); cbn [In]; [intuition congruence |].
    rewrite IH. intuition congruence.
Qed.

Lemma newestFirst_In (q : Payment A) l : In q (Handlers.newestFirst l) <-> In q l.
Proof.
  unfold Handlers.newestFirst. induction l as [| x l IH]; cbn [fold_right]; [tauto |].
  rewrite insertDesc_In, IH. cbn. intuition congruence.
Qed.

(** X27. After a delete that the store carried out and a reload that
    succeeded, the payments of the client are those of the table less
    the ones with the deleted id. *)
Theorem deleted_payment_gone (i : string) (w : World) :
  outcome 0 w = true -> outcome 1 w = true ->
  forall p, In p (Handlers.payments (Handlers.exec (Handlers.handleDeletePayment i) w))
            <-> In p (Handlers.table w) /\ id p <> i.
Proof.
  intros O0 O1 p. unfold Handlers.exec. rewrite handleDeletePayment_run. cbn [snd].
  unfold written. rewrite O0. unfold reloaded. cbn [Handlers.payments].
  replace (outcome 0 (sent (Handlers.Delete i) w)) with (outcome 1 w).
  - rewrite O1, newestFirst_In. unfold sent. cbn [Handlers.table]. rewrite O0.
    cbn [Handlers.carryOut]. rewrite filter_In.
    destruct (String.eqb_spec (id p) i); cbn; intuition congruence.
  - unfold outcome, sent. cbn [Handlers.outcomes].
    destruct (Handlers.outcomes w) as [| b [| b' rest]]; reflexivity.
Qed.

End Runs.

Lemma stopped_before_store_witness :
  Handlers.perform usEastern
    (Handlers.AddPayment (mkForm "Ann" "Cash" 10000 "soon" None)) (sampleWorld [true])
  = (inl tt,
     Handlers.mkWorld [earlyPayment] 8 [true] [] [earlyPayment] true None false
       ["Failed to add payment. Please try again."])
  /\ Handlers.perform usEastern (Handlers.UpdatePayment sampleForm) (sampleWorld [true])
     = (inl tt, sampleWorld [true]).
Proof.
  split.
  - exact (proj1 (proj1 (stopped_before_store usEastern
                           (mkForm "Ann" "Cash" 10000 "soon" None) (sampleWorld [true]))
                    eq_refl)).
  - exact (proj2 (stopped_before_store usEastern sampleForm (sampleWorld [true]))
             eq_refl).
Defined.

(** The store carries the insert out and fails the reload; the store
    refuses the insert. *)
Lemma form_closes_when_stored_witness :
  Handlers.isFormOpen
    (Handlers.exec (Handlers.handleAddPayment usEastern sampleForm) (sampleWorld [true; false]))
  = false
  /\ Handlers.isFormOpen
       (Handlers.exec (Handlers.handleAddPayment usEastern sampleForm) (sampleWorld [false]))
     = true.
Proof.
  split.
  - exact (proj1 (proj1 (form_closes_when_stored usEastern sampleForm
                           "2025-10-19T14:00:00.000Z" (sampleWorld [true; false])
                           eq_refl))).
  - exact (proj1 (proj1 (form_closes_when_stored usEastern sampleForm
                           "2025-10-19T14:00:00.000Z" (sampleWorld [false]) eq_refl))).
Defined.

Lemma deleted_payment_gone_witness :
  Handlers.payments (Handlers.exec (Handlers.handleDeletePayment "7") (sampleWorld []))
  = []
  /\ (In earlyPayment
        (Handlers.payments
           (Handlers.exec (Handlers.handleDeletePayment "7") (sampleWorld [])))
      <-> In earlyPayment [earlyPayment] /\ id earlyPayment <> "7").
Proof.
  split; [reflexivity |].
  exact (deleted_payment_gone "7" (sampleWorld []) eq_refl eq_refl earlyPayment).
Defined.

(** ** Times on their way to the store *)

Lemma pad3_digits n :
  0 <= n <= 999 ->
  pad3 n = String (digitChar (n / 100))
             (String (digitChar (n / 10 mod 10)) (String (digitChar (n mod 10)) "")).
Proof.
  intros R. unfold pad3, padStart.
  destruct (Z.lt_ge_cases n 10); [| destruct (Z.lt_ge_cases n 100)].
  - rewrite decimal_1 by lia. cbn [String.length Nat.sub repeatChar append].
    replace (n / 100) with 0 by div_lia. replace (n / 10) with 0 by div_lia.
    now rewrite (Z.mod_small n) by lia.
  - rewrite decimal_2 by lia. cbn [String.length Nat.sub repeatChar append].
    replace (n / 100) with 0 by div_lia.
    now rewrite (Z.mod_small (n / 10)) by div_lia.
  - rewrite decimal_3 by lia. reflexivity.
Qed.

Lemma skipDigits_stops s : stops s = true -> skipDigits s = s.
Proof.
  destruct s as [| c s]; [reflexivity |]. cbn [stops skipDigits].
  intros N. apply negb_true_iff in N. now rewrite N.
Qed.

(** Three digits of a fraction are the milliseconds they write. *)
Lemma readFraction_pad3 n rest :
  0 <= n <= 999 -> stops rest = true -> readFraction (pad3 n ++ rest) = Some (n, rest).
Proof.
  intros R S. rewrite pad3_digits by lia. cbn [append readFraction].
  rewrite !digitValue_digitChar by div_lia. rewrite skipDigits_stops by exact S.
  do 2 f_equal. div_lia.
Qed.

Lemma toISOString_isoOf t :
  fourDigitDay (Day t) -> toISOString (Some t) = Some (isoOf t).
Proof.
  intros R. pose proof (fourDigitDay_year _ R) as Y.
  cbn [toISOString]. unfold YearFromTime, MonthFromTime, DateFromTime.
  replace ((0 <=? YearFromDay (Day t)) && (YearFromDay (Day t) <=? 9999)) with true
    by (symmetry; rewrite andb_true_iff, !Z.leb_le; lia).
  unfold isoOf, dateKey. now rewrite !append_assoc.
Qed.

(** An ISO rendering is read back as the time it renders, in whatever
    zone. *)
Lemma ofString_isoOf tz t :
  fourDigitDay (Day t) -> ofString tz (isoOf t) = Some t.
Proof.
  intros R.
  pose proof (fourDigitDay_year _ R) as Y.
  pose proof (MonthFromDay_range (Day t)) as Mo.
  pose proof (DateFromDay_range (Day t)) as Da.
  pose proof (DateFromDay_in_month (Day t)) as Dm.
  pose proof (time_fields_range t) as (Hh & Hm & Hs).
  assert (Hms : 0 <= msFromTime t <= 999) by (unfold msFromTime, msPerSecond; div_lia).
  unfold ofString, parse, parseISO, isoOf, dateKey.
  rewrite !append_assoc.
  rewrite readDigits_pad4 by lia. cbn [expect append Ascii.eqb Bool.eqb].
  rewrite readDigits_pad2 by lia. cbn [expect append Ascii.eqb Bool.eqb].
  rewrite readDigits_pad2 by lia.
  replace (MonthFromDay (Day t) + 1 - 1) with (MonthFromDay (Day t)) by lia.
  rewrite MakeDay_fields.
  replace ((1 <=? MonthFromDay (Day t) + 1) && (MonthFromDay (Day t) + 1 <=? 12)
           && (1 <=? DateFromDay (Day t))
           && (DateFromDay (Day t) <=? 31))
    with true
    by (symmetry; rewrite !andb_true_iff, !Z.leb_le; lia).
  cbn [expect append Ascii.eqb Bool.eqb].
  rewrite readDigits_pad2 by lia. cbn [expect append Ascii.eqb Bool.eqb].
  rewrite readDigits_pad2 by lia.
  unfold readSeconds. cbn [expect append Ascii.eqb Bool.eqb].
  rewrite readDigits_pad2 by lia. cbn [expect append Ascii.eqb Bool.eqb].
  rewrite readFraction_pad3 by (reflexivity || lia). cbn [readOffset Ascii.eqb Bool.eqb].
  replace ((HourFromTime t <=? 23) && (MinFromTime t <=? 59) && (SecFromTime t <=? 59))
    with true
    by (symmetry; rewrite !andb_true_iff, !Z.leb_le; lia).
  cbn [orb]. rewrite time_fields, Z.sub_0_r.
  apply fourDigitDay_bounds in R. pose proof (Day_bounds t) as B.
  unfold TimeClip. replace (Z.abs t <=? 8640000000000000) with true; [reflexivity |].
  symmetry. apply Z.leb_le. unfold msPerDay in *. lia.
Qed.

Lemma wallClock_fields (TIMEZONE : TimeZone) t :
  wallClock TIMEZONE t
  = MakeDate (Day (LocalTime TIMEZONE t))
      (MakeTime (HourFromTime (LocalTime TIMEZONE t)) (MinFromTime (LocalTime TIMEZONE t))
         0 0).
Proof.
  unfold wallClock. pose proof (time_fields (LocalTime TIMEZONE t)) as F.
  unfold MakeDate, MakeTime, SecFromTime, msFromTime, msPerMinute, msPerSecond in *.
  div_lia.
Qed.

Lemma wallClock_early (TIMEZONE : TimeZone) t :
  easternOffsets TIMEZONE -> wallClock TIMEZONE t <= t - 4 * msPerHour.
Proof.
  intros East. pose proof (East t true) as O. unfold wallClock, LocalTime.
  unfold msPerHour, msPerMinute in *. div_lia.
Qed.

Lemma wallClock_day (TIMEZONE : TimeZone) t :
  Day (wallClock TIMEZONE t) = Day (LocalTime TIMEZONE t).
Proof.
  unfold wallClock, Day, msPerDay, msPerMinute. div_lia.
Qed.

(** A zone less than a day from UTC: the day there is the day in UTC,
    the one before or the one after. *)
Lemma eastern_day_near (TIMEZONE : TimeZone) t :
  easternOffsets TIMEZONE ->
  Day (LocalTime TIMEZONE t) - 1 <= Day t <= Day (LocalTime TIMEZONE t) + 1.
Proof.
  intros East. pose proof (East t true) as O.
  pose proof (Day_bounds (LocalTime TIMEZONE t)) as B1.
  pose proof (Day_bounds t) as B2.
  unfold LocalTime in *. set (d := Day (t + LocalTZA TIMEZONE t true)) in *.
  unfold msPerDay, msPerHour in *. lia.
Qed.

Section Saving.

Variable TIMEZONE : TimeZone.
Hypothesis eastern : easternOffsets TIMEZONE.
Variable off : Z.
Hypothesis offBound : - (16 * msPerHour) <= off <= 16 * msPerHour.
Hypothesis offSeconds : off mod msPerSecond = 0.
Context {A : Type} `{Num A}.

Abbreviation World := (@Handlers.World A).

(** What leaves the form for a field that shows the time [t], and what
    [App] then makes of it. *)
Lemma submitted_time ds t :
  ofString (fixedZone off) ds = Some t ->
  modernDay (Day (LocalTime TIMEZONE t) - 1) ->
  modernDay (Day (LocalTime TIMEZONE t) + 1) ->
  exists v,
    Timezone.getDateTimeLocalValueInET TIMEZONE (fixedZone off) ds = Some v
    /\ Timezone.convertLocalDateTimeToUTC (fixedZone off) v
       = Some (isoOf (wallClock TIMEZONE t))
    /\ toISOString (ofString (fixedZone off) (isoOf (wallClock TIMEZONE t)))
       = Some (isoOf (wallClock TIMEZONE t)).
Proof.
  intros TS M1 M2.
  assert (M : modernDay (Day (LocalTime TIMEZONE t))) by (unfold modernDay in *; lia).
  assert (R : fourDigitDay (Day (wallClock TIMEZONE t))).
  { rewrite wallClock_day. now apply plainDay_fourDigit, modernDay_plain. }
  pose proof (time_fields_range (LocalTime TIMEZONE t)) as (Hh & Hm & _).
  eexists. split; [apply (form_value TIMEZONE (fixedZone off) ds t TS M) |]. split.
  - rewrite convert_reads_as_utc by assumption.
    rewrite <- wallClock_fields. now apply toISOString_isoOf.
  - rewrite ofString_isoOf by exact R. now apply toISOString_isoOf.
Qed.

(** X22. Editing a payment and saving the form as it opened, in a
    browser of constant offset, the zone of the program being four to
    five hours behind UTC, as America/New_York is under each of its
    rules: the form never throws, and the one update it sends to the
    store carries the name, the method and the amount of the payment
    and, for its time, the wall-clock reading of the stored time in
    the zone of the program, cut to the minute and written as a UTC
    time: at least four hours before the stored time. *)
Theorem edit_and_save_moves_time (e : Payment A) (t : Z) (w : World) :
  ofString (fixedZone off) (timestamp e) = Some t ->
  modernDay (Day (LocalTime TIMEZONE t) - 1) ->
  modernDay (Day (LocalTime TIMEZONE t) + 1) ->
  Handlers.editingPayment w = Some e ->
  exists fd ts,
    PaymentForm.populate TIMEZONE (fixedZone off) e = Some fd
    /\ toISOString (Some (wallClock TIMEZONE t)) = Some ts
    /\ wallClock TIMEZONE t <= t - 4 * msPerHour
    /\ let r := PaymentForm.handleSubmit (fixedZone off)
                  (Handlers.handleUpdatePayment (fixedZone off))
                  (PaymentForm.mkFormState fd false) w in
       fst r = inl tt
       /\ PaymentForm.isSubmitting (fst (snd r)) = false
       /\ Handlers.requests (snd (snd r))
          = (Handlers.requests w
             ++ Handlers.Update
                  (Handlers.mkRow (client_name e) (payment_method e) (amount_paid e) ts
                     (nonEmpty (service_type e)))
                  (id e)
                :: (if outcome 0 w then [Handlers.SelectAll] else []))%list.
Proof.
  intros TS M1 M2 EP.
  destruct (submitted_time (timestamp e) t TS M1 M2) as (v & V & C & I).
  assert (R : fourDigitDay (Day (wallClock TIMEZONE t))).
  { rewrite wallClock_day. apply plainDay_fourDigit, modernDay_plain.
    unfold modernDay in *. lia. }
  eexists. exists (isoOf (wallClock TIMEZONE t)).
  split; [unfold PaymentForm.populate; rewrite V; reflexivity |].
  split; [now apply toISOString_isoOf |].
  split; [now apply wallClock_early |].
  cbv zeta. unfold PaymentForm.handleSubmit.
  cbn [PaymentForm.formData form_timestamp]. rewrite C.
  rewrite (handleUpdatePayment_run (fixedZone off) _ (isoOf (wallClock TIMEZONE t)) e w EP)
    by exact I.
  cbn [fst snd PaymentForm.isSubmitting].
  split; [reflexivity |]. split; [reflexivity |].
  rewrite written_requests by reflexivity.
  do 3 f_equal. unfold Handlers.rowOf, Handlers.serviceOrNull, PaymentForm.withTimestamp.
  cbn [form_client_name form_payment_method form_amount_paid form_service_type].
  f_equal. unfold nonEmpty, orElse.
  destruct (service_type e) as [[| c s] |]; reflexivity.
Qed.

(** X23. Adding a payment with the time the form opened with, in a
    browser of constant offset, the zone of the program being four to
    five hours behind UTC: the form never throws, and the one insert
    it sends to the store carries, for the time of the payment, the
    wall-clock reading of the moment the form opened in the zone of
    the program, cut to the minute and written as a UTC time: at least
    four hours before that moment. *)
Theorem new_payment_default_time (now : Z) (w : World)
  (name method : string) (amount : A) (service : option string) :
  modernDay (Day (LocalTime TIMEZONE now) - 1) ->
  modernDay (Day (LocalTime TIMEZONE now) + 1) ->
  exists fd0 ts,
    PaymentForm.initialFormData TIMEZONE (fixedZone off) now = Some fd0
    /\ toISOString (Some (wallClock TIMEZONE now)) = Some ts
    /\ wallClock TIMEZONE now <= now - 4 * msPerHour
    /\ let fd := mkForm name method amount (form_timestamp fd0) service in
       let r := PaymentForm.handleSubmit (fixedZone off)
                  (Handlers.handleAddPayment (fixedZone off))
                  (PaymentForm.mkFormState fd false) w in
       fst r = inl tt
       /\ PaymentForm.isSubmitting (fst (snd r)) = false
       /\ Handlers.requests (snd (snd r))
          = (Handlers.requests w
             ++ Handlers.Insert (Handlers.mkRow name method amount ts (nonEmpty service))
                :: (if outcome 0 w then [Handlers.SelectAll] else []))%list.
Proof.
  intros M1 M2.
  assert (M : modernDay (Day (LocalTime TIMEZONE now))) by (unfold modernDay in *; lia).
  assert (Rn : fourDigitDay (Day now)).
  { pose proof (eastern_day_near TIMEZONE now eastern) as Near.
    apply plainDay_fourDigit, modernDay_plain. unfold modernDay in *. lia. }
  assert (TS : ofString (fixedZone off) (isoOf now) = Some now) by now apply ofString_isoOf.
  destruct (submitted_time (isoOf now) now TS M1 M2) as (v & V & C & I).
  assert (R : fourDigitDay (Day (wallClock TIMEZONE now))).
  { rewrite wallClock_day. now apply plainDay_fourDigit, modernDay_plain. }
  eexists. exists (isoOf (wallClock TIMEZONE now)).
  split.
  { unfold PaymentForm.initialFormData, ofTime.
    assert (Cl : TimeClip now = Some now).
    { apply fourDigitDay_bounds in Rn. pose proof (Day_bounds now) as B.
      unfold TimeClip. replace (Z.abs now <=? 8640000000000000) with true; [reflexivity |].
      symmetry. apply Z.leb_le. unfold msPerDay in *. lia. }
    rewrite Cl, toISOString_isoOf by exact Rn. rewrite V. reflexivity. }
  split; [now apply toISOString_isoOf |].
  split; [now apply wallClock_early |].
  cbv zeta. unfold PaymentForm.handleSubmit.
  cbn [PaymentForm.formData form_timestamp]. rewrite C.
  rewrite (handleAddPayment_run (fixedZone off) _ (isoOf (wallClock TIMEZONE now)) w)
    by exact I.
  cbn [fst snd PaymentForm.isSubmitting].
  split; [reflexivity |]. split; [reflexivity |].
  rewrite written_requests by reflexivity.
  reflexivity.
Qed.

End Saving.

(** A time stored in winter, five hours from UTC. *)
Lemma form_roundtrip_is_shift_witness :
  (let* v := Timezone.getDateTimeLocalValueInET usEastern phoenixTime
               "2025-12-19T14:00:00.000Z" in
   Timezone.convertLocalDateTimeToUTC phoenixTime v)
  = Some "2025-12-19T09:00:00.000Z"
  /\ 1766134800000 <= 1766152800000 - 4 * msPerHour.
Proof.
  exact (form_roundtrip_is_shift usEastern (-7 * msPerHour) "2025-12-19T14:00:00.000Z"
           1766152800000 usEastern_offsets
           (proj1 phoenix_offset) (proj2 phoenix_offset) eq_refl
           ltac:(in_range) ltac:(in_range)).
Defined.

Lemma edit_and_save_moves_time_witness :
  toISOString (Some (wallClock usEastern 1760851800000)) = Some "2025-10-19T01:30:00.000Z"
  /\ exists fd ts,
       PaymentForm.populate usEastern phoenixTime earlyPayment = Some fd
       /\ toISOString (Some (wallClock usEastern 1760851800000)) = Some ts
       /\ wallClock usEastern 1760851800000 <= 1760851800000 - 4 * msPerHour
       /\ let r := PaymentForm.handleSubmit phoenixTime
                     (Handlers.handleUpdatePayment phoenixTime)
                     (PaymentForm.mkFormState fd false) (editingWorld [true; true]) in
          fst r = inl tt
          /\ PaymentForm.isSubmitting (fst (snd r)) = false
          /\ Handlers.requests (snd (snd r))
             = [Handlers.Update (Handlers.mkRow "Ann" "Cash" 10000 ts None) "7";
                Handlers.SelectAll].
Proof.
  split; [reflexivity |].
  exact (@edit_and_save_moves_time usEastern usEastern_offsets (-7 * msPerHour)
           (proj1 phoenix_offset)
           (proj2 phoenix_offset) Z earlyPayment 1760851800000 (editingWorld [true; true])
           eq_refl ltac:(in_range)
           ltac:(in_range) eq_refl).
Defined.

Lemma new_payment_default_time_witness :
  toISOString (Some (wallClock usEastern 1760882400000)) = Some "2025-10-19T10:00:00.000Z"
  /\ exists fd0 ts,
       PaymentForm.initialFormData usEastern phoenixTime 1760882400000 = Some fd0
       /\ toISOString (Some (wallClock usEastern 1760882400000)) = Some ts
       /\ wallClock usEastern 1760882400000 <= 1760882400000 - 4 * msPerHour
       /\ let fd := mkForm "Ann" "Cash" 10000 (form_timestamp fd0) (Some "") in
          let r := PaymentForm.handleSubmit phoenixTime
                     (Handlers.handleAddPayment phoenixTime)
                     (PaymentForm.mkFormState fd false) (sampleWorld [false]) in
          fst r = inl tt
          /\ PaymentForm.isSubmitting (fst (snd r)) = false
          /\ Handlers.requests (snd (snd r))
             = [Handlers.Insert (Handlers.mkRow "Ann" "Cash" 10000 ts None)].
Proof.
  split; [reflexivity |].
  exact (@new_payment_default_time usEastern usEastern_offsets (-7 * msPerHour)
           (proj1 phoenix_offset)
           (proj2 phoenix_offset) Z Num_Z 1760882400000 (sampleWorld [false])
           "Ann" "Cash" 10000 (Some "")
           ltac:(in_range) ltac:(in_range)).
Defined.

(** ** The title of the report *)

Lemma readNumber_pad4 n : 0 <= n <= 9999 -> readNumber (pad4 n) = Some (n, "").
Proof.
  intros R. rewrite pad4_digits by lia. cbn [readNumber readMore].
  rewrite !digitValue_digitChar by div_lia. do 2 f_equal. div_lia.
Qed.

Lemma readNumber_pad2 n : 0 <= n <= 99 -> readNumber (pad2 n) = Some (n, "").
Proof.
  intros R. rewrite pad2_digits by lia. cbn [readNumber readMore].
  rewrite !digitValue_digitChar by div_lia. do 2 f_equal. div_lia.
Qed.

(** The parts of a date key. *)
Lemma split_dateKey n :
  fourDigitDay n ->
  split "-" (dateKey n)
  = [pad4 (YearFromDay n); pad2 (MonthFromDay n + 1); pad2 (DateFromDay n)].
Proof.
  intros R. pose proof (fourDigitDay_year n R) as Y.
  pose proof (MonthFromDay_range n) as Mo. pose proof (DateFromDay_range n) as Da.
  unfold dateKey.
  set (mm := pad2 (MonthFromDay n + 1)). set (dd := pad2 (DateFromDay n)).
  set (yyyy := pad4 (YearFromDay n)).
  assert (Dm : allDigits mm = true) by (apply pad2_allDigits; lia).
  assert (Dd : allDigits dd = true) by (apply pad2_allDigits; lia).
  assert (Dy : allDigits yyyy = true) by (apply pad4_allDigits; lia).
  unfold split.
  change (yyyy ++ "-" ++ mm ++ "-" ++ dd) with (yyyy ++ String "-" (mm ++ String "-" dd)).
  rewrite (splitAux_piece "-" yyyy _ []) by now apply allDigits_lacks.
  rewrite (splitAux_piece "-" mm _ []) by now apply allDigits_lacks.
  rewrite (splitAux_lacks "-" "" dd []) by now apply allDigits_lacks.
  reflexivity.
Qed.

Section Title.

Variable local : TimeZone.
Hypothesis regular : regularZone local.

Lemma formatDateOnly_day n :
  plainDay n -> Endpoint.formatDateOnly local (dateKey n) = longDate n.
Proof.
  intros P. assert (R : fourDigitDay n) by now apply plainDay_fourDigit.
  pose proof (fourDigitDay_year n R) as Y.
  assert (Y' : 100 <= YearFromDay n) by (apply YearFromDay_lower, P).
  pose proof (MonthFromDay_range n) as Mo. pose proof (DateFromDay_range n) as Da.
  unfold Endpoint.formatDateOnly. rewrite split_dateKey by exact R.
  cbn [item nth_error]. unfold Endpoint.parseInt.
  rewrite readNumber_pad4, !readNumber_pad2 by lia.
  cbn [option_map fst]. unfold ofFields.
  replace ((0 <=? YearFromDay n) && (YearFromDay n <=? 99)) with false
    by (symmetry; apply andb_false_iff; right; apply Z.leb_gt; lia).
  replace (MonthFromDay n + 1 - 1) with (MonthFromDay n) by lia.
  rewrite MakeDay_fields. change (MakeTime 0 0 0 0) with 0.
  rewrite (TimeClip_day local regular) by (try assumption; unfold msPerDay; lia).
  unfold YearFromTime, MonthFromTime, DateFromTime.
  rewrite (zone_midnight local regular). reflexivity.
Qed.

(** X28. For date keys of the years 100 to 9999 the title of the report
    names the day asked for when dateFrom equals dateTo
    ("October 19, 2025"), and the two days of the range otherwise, in
    whatever regular zone the edge function runs. *)
Theorem report_title_names_the_days {A : Type} (payments : list (Payment A))
  (summary : Summary A) a b method :
  plainDay a -> plainDay b ->
  Endpoint.reportTitle
    (Endpoint.generateHTMLReport local payments summary (dateKey a) (dateKey b) method)
  = if a =? b then longDate a else longDate a ++ " - " ++ longDate b.
Proof.
  intros Pa Pb. unfold Endpoint.generateHTMLReport. cbn [Endpoint.reportTitle].
  rewrite !formatDateOnly_day by assumption.
  destruct (Z.eqb_spec a b) as [-> | NE].
  - now rewrite String.eqb_refl.
  - destruct (String.eqb_spec (dateKey a) (dateKey b)) as [E | _]; [| reflexivity].
    apply dateKey_inj in E; [contradiction | |]; now apply plainDay_fourDigit.
Qed.

End Title.

Lemma report_title_names_the_days_witness :
  Endpoint.reportTitle
    (Endpoint.generateHTMLReport tongaTime [earlyPayment] (SummaryCards.summary [earlyPayment])
       "2025-10-19" "2025-10-19" "")
  = "October 19, 2025"
  /\ Endpoint.reportTitle
       (Endpoint.generateHTMLReport tongaTime [earlyPayment]
          (SummaryCards.summary [earlyPayment]) "2025-10-19" "2025-10-25" "")
     = "October 19, 2025 - October 25, 2025".
Proof.
  assert (Reg : regularZone tongaTime).
  { apply fixedZone_regular. unfold msPerHour. lia. }
  split.
  - exact (report_title_names_the_days tongaTime Reg [earlyPayment]
             (SummaryCards.summary [earlyPayment]) 20380 20380 ""
             ltac:(in_range) ltac:(in_range)).
  - exact (report_title_names_the_days tongaTime Reg [earlyPayment]
             (SummaryCards.summary [earlyPayment]) 20380 20386 ""
             ltac:(in_range) ltac:(in_range)).
Defined.

(** ** The request of the dashboard *)

Lemma getCurrentDateInET_nonempty (TIMEZONE : TimeZone) now s :
  Timezone.getCurrentDateInET TIMEZONE now = Some s -> truthy s = true.
Proof.
  unfold Timezone.getCurrentDateInET.
  repeat match goal with
         | |- match ?x with Some _ => _ | None => _ end = _ -> _ =>
             destruct x as [? |]; [| discriminate]
         end.
  intros E. injection E as <-.
  match goal with |- truthy (?y ++ _) = true => destruct y; reflexivity end.
Qed.

Lemma resolved_nonempty (TIMEZONE : TimeZone) now d s :
  resolved TIMEZONE now d = Some s -> truthy s = true.
Proof.
  unfold resolved. destruct (truthy d) eqn:T.
  - intros E. injection E as <-. exact T.
  - apply getCurrentDateInET_nonempty.
Qed.

(** X29. The request the dashboard sends for a report is never answered
    with status 400: both dates reach the endpoint non-empty, an empty
    one having been replaced by today's date; and when the store
    answers, the endpoint returns the document built from the rows its
    filter keeps for the dates and the method of the dashboard. *)
Theorem download_request_is_served {A : Type} `{Num A} (TIMEZONE server : TimeZone)
  (now : Z) (f : FilterState) (from to : string) (rows : list (Payment A)) :
  resolved TIMEZONE now (dateFrom f) = Some from ->
  resolved TIMEZONE now (dateTo f) = Some to ->
  let req := getRequest (Download.params from to (paymentMethod f)) in
  (forall queried, Endpoint.status (Endpoint.serve TIMEZONE server req queried) <> 400)
  /\ let kept := Report.filteredPayments TIMEZONE server from to (paymentMethod f) rows in
     Endpoint.serve TIMEZONE server req (inr rows)
     = Endpoint.mkResponse 200 (Some "text/html")
         (Endpoint.Html
            (Endpoint.generateHTMLReport server kept (ReportSummary.summary kept)
               from to (paymentMethod f))).
Proof.
  intros Rf Rt req. apply resolved_nonempty in Rf, Rt.
  assert (S : forall queried,
             Endpoint.serve TIMEZONE server req queried
             = match queried with
               | inl message =>
                   Endpoint.mkResponse 500 (Some "application/json")
                     (Endpoint.Json [("error", Some message); ("dateFrom", Some from);
                                     ("dateTo", Some to)])
               | inr rows =>
                   let kept := Report.filteredPayments TIMEZONE server from to
                                 (paymentMethod f) rows in
                   Endpoint.mkResponse 200 (Some "text/html")
                     (Endpoint.Html
                        (Endpoint.generateHTMLReport server kept
                           (ReportSummary.summary kept) from to (paymentMethod f)))
               end).
  { intros queried. unfold Endpoint.serve, req, getRequest, Download.params.
    cbn [Endpoint.method Endpoint.searchParams Endpoint.get String.eqb Ascii.eqb Bool.eqb
         Endpoint.absent interp].
    rewrite Rf, Rt. cbn [negb orb].
    replace (orElse (paymentMethod f) "") with (paymentMethod f)
      by (destruct (paymentMethod f); reflexivity).
    destruct queried; reflexivity. }
  split.
  - intros queried. rewrite S. destruct queried; cbn; discriminate.
  - apply (S (inr rows)).
Qed.

Lemma download_request_is_served_witness :
  let req := getRequest (Download.params "2025-10-01" "2025-10-19" "Cash") in
  (forall queried : string + list (Payment Z),
     Endpoint.status (Endpoint.serve usEastern utcZone req queried) <> 400)
  /\ Endpoint.serve usEastern utcZone req (inr [earlyPayment])
     = Endpoint.mkResponse 200 (Some "text/html")
         (Endpoint.Html
            (Endpoint.generateHTMLReport utcZone [earlyPayment]
               (mkSummary 10000 0 0 0 10000) "2025-10-01" "2025-10-19" "Cash")).
Proof.
  exact (@download_request_is_served Z Num_Z usEastern utcZone 1760882400000
           (mkFilter "" "2025-10-01" "" "Cash") "2025-10-01" "2025-10-19" [earlyPayment]
           eq_refl eq_refl).
Defined.
